(** * Admin feature flags, deprecated client endpoints and legacy redirects

    A shallow embedding of

    - [src/lib/admin/featureFlags.ts] (the AdminWorkBench rollout decision),
    - the hook [useAdminWorkBenchFeature],
    - [src/app/api/admin/entities/clients/route.ts] and
      [src/app/api/admin/entities/clients/[id]/route.ts] (deprecated client
      endpoints),
    - the assertions of [e2e/tests/admin-unified-redirects.spec.ts],
    - the component [ExecutiveDashboardTabWrapper],
    - [preloadRoute] and its tables in [src/lib/frontend/code-splitting.tsx],
    - the filter-preset endpoints (GET, PATCH, DELETE by id),
    - the messaging endpoints (send message, create ticket, add comment,
      get and update ticket) with their zod schemas,

    followed by the properties established about them. *)

From Stdlib Require Import ZArith List Bool String Ascii Lia.
From Stdlib Require Import Floats.SpecFloat.
Import ListNotations.
Open Scope Z_scope.

(* ================================================================== *)
(** * JavaScript values used by the code *)
(* ================================================================== *)

(** A JavaScript string is its sequence of UTF-16 code units
    (what [charCodeAt] and [length] observe). *)
Definition jsstring := list Z.

(** A string literal of the source, as code units. *)
Definition js (s : string) : jsstring :=
  map (fun a => Z.of_N (N_of_ascii a)) (list_ascii_of_string s).

(** [a === b] on strings. *)
Fixpoint str_eqb (a b : jsstring) : bool :=
  match a, b with
  | [], [] => true
  | x :: a', y :: b' => (x =? y) && str_eqb a' b'
  | _, _ => false
  end.

(** Truthiness of a string: every string but the empty one. *)
Definition truthy (s : jsstring) : bool :=
  match s with [] => false | _ :: _ => true end.

(** Truthiness of [string | undefined]. *)
Definition truthy_opt (s : option jsstring) : bool :=
  match s with Some v => truthy v | None => false end.

(** [Array.prototype.includes] on an array of strings. *)
Definition arr_includes (l : list jsstring) (x : jsstring) : bool :=
  existsb (str_eqb x) l.

(** Does [p] start [s]? *)
Fixpoint starts_with (p s : jsstring) : bool :=
  match p, s with
  | [], _ => true
  | x :: p', y :: s' => (x =? y) && starts_with p' s'
  | _ :: _, [] => false
  end.

(** [s.includes(p)]: [p] occurs in [s] as a contiguous run. *)
Fixpoint str_includes (s p : jsstring) : bool :=
  starts_with p s ||
  match s with
  | [] => false
  | _ :: s' => str_includes s' p
  end.

(** [s.split(sep)] for a separator of one code unit. The result is never
    empty: splitting the empty string gives one empty piece. *)
Fixpoint str_split (sep : Z) (s : jsstring) : list jsstring :=
  match s with
  | [] => [[]]
  | c :: rest =>
      if c =? sep then [] :: str_split sep rest
      else match str_split sep rest with
           | w :: ws => (c :: w) :: ws
           | [] => [[c]]
           end
  end.

Definition COMMA : Z := 44.

(** WhiteSpace and LineTerminator code units of ECMAScript, the ones [trim]
    removes and [parseInt] skips. *)
Definition isWhiteSpace (c : Z) : bool :=
  (c =? 9) || (c =? 10) || (c =? 11) || (c =? 12) || (c =? 13) || (c =? 32)
  || (c =? 160) || (c =? 5760) || ((8192 <=? c) && (c <=? 8202))
  || (c =? 8232) || (c =? 8233) || (c =? 8239) || (c =? 8287)
  || (c =? 12288) || (c =? 65279).

Fixpoint trimStart (s : jsstring) : jsstring :=
  match s with
  | c :: rest => if isWhiteSpace c then trimStart rest else s
  | [] => []
  end.

Definition trimEnd (s : jsstring) : jsstring := rev (trimStart (rev s)).

Definition trim (s : jsstring) : jsstring := trimEnd (trimStart s).

(** [toUpperCase] restricted to the ASCII letters; an instance of the
    runtime's case mapping, used where a concrete run is evaluated. *)
Definition asciiToUpperCase (s : jsstring) : jsstring :=
  map (fun c => if (97 <=? c) && (c <=? 122) then c - 32 else c) s.

(** ** Numbers

    A JavaScript number is an IEEE 754 binary64 value; [spec_float] with
    53 bits of precision is that format. *)
Definition number := spec_float.
Definition prec : Z := 53.
Definition emax : Z := 1024.

Definition NaN : number := S754_nan.

(** The number denoting an integer, rounded to nearest even when it does not
    fit 53 bits. *)
Definition number_of_Z (z : Z) : number := binary_normalize prec emax z 0 false.

(** [a < b], [a >= b], [a / b], [a * b] on numbers. A comparison with NaN
    is false. *)
Definition num_lt (a b : number) : bool := SFltb a b.
Definition num_ge (a b : number) : bool := SFleb b a.
Definition num_div (a b : number) : number := SFdiv prec emax a b.
Definition num_mul (a b : number) : number := SFmul prec emax a b.

(** [ToInt32]: wrap an integer to 32 bits, two's complement. *)
Definition toInt32 (z : Z) : Z :=
  let m := z mod 2 ^ 32 in
  if m <? 2 ^ 31 then m else m - 2 ^ 32.

(** [parseInt(s, 10)]: skip leading white space, read an optional sign, then
    the longest run of decimal digits; no digit gives NaN, a minus sign before
    zero gives the negative zero. The digits are read exactly and rounded
    once (an engine may approximate past the twentieth digit). *)
Definition isDigit (c : Z) : bool := (48 <=? c) && (c <=? 57).

Fixpoint takeDigits (s : jsstring) : list Z :=
  match s with
  | c :: rest => if isDigit c then c :: takeDigits rest else []
  | [] => []
  end.

Definition digitsValue (ds : list Z) : Z :=
  fold_left (fun acc d => 10 * acc + (d - 48)) ds 0.

(** The optional sign: is it a minus, and what follows it. *)
Definition stripSign (s : jsstring) : bool * jsstring :=
  match s with
  | 45 :: rest => (true, rest)
  | 43 :: rest => (false, rest)
  | _ => (false, s)
  end.

Definition parseInt (s : jsstring) : number :=
  let '(neg, s2) := stripSign (trimStart s) in
  match takeDigits s2 with
  | [] => NaN
  | ds =>
      let v := digitsValue ds in
      binary_normalize prec emax (if neg then - v else v) 0 neg
  end.

(** A string [parseInt] finds no number in: after the leading white space
    and the optional sign it does not start with a decimal digit. *)
Definition nonNumeric (s : jsstring) : Prop :=
  takeDigits (snd (stripSign (trimStart s))) = [].

(* ================================================================== *)
(** * The runtime environment *)
(* ================================================================== *)

(** An object with string-valued properties; the first binding of a key is
    the property's value, an absent key reads as [undefined]. *)
Definition jsobject := list (jsstring * jsstring).

Fixpoint get (o : jsobject) (key : jsstring) : option jsstring :=
  match o with
  | [] => None
  | (k, v) :: o' => if str_eqb k key then Some v else get o' key
  end.

(** What the code can see of its host:
    - [process_env]: [None] when [typeof process === 'undefined'] or
      [process.env] is nullish;
    - [window_ENV]: [None] when [typeof window === 'undefined'],
      [Some None] when [window.__ENV__] is nullish. *)
Record Env := {
  process_env : option jsobject;
  window_ENV : option (option jsobject)
}.

(** [typeof process !== 'undefined' && process.env?.[key]] *)
Definition process_env_get (env : Env) (key : jsstring) : option jsstring :=
  match process_env env with
  | Some o => get o key
  | None => None
  end.

(** [(window as any).__ENV__?.[key]] *)
Definition window_ENV_get (w : option jsobject) (key : jsstring)
  : option jsstring :=
  match w with
  | Some o => get o key
  | None => None
  end.

Definition ENABLED_KEY := js "NEXT_PUBLIC_ADMIN_WORKBENCH_ENABLED".
Definition ROLLOUT_KEY := js "NEXT_PUBLIC_ADMIN_WORKBENCH_ROLLOUT_PERCENTAGE".
Definition TARGET_KEY := js "NEXT_PUBLIC_ADMIN_WORKBENCH_TARGET_USERS".
Definition BETA_KEY := js "NEXT_PUBLIC_ADMIN_WORKBENCH_BETA_TESTERS".

(* ================================================================== *)
(** * featureFlags.ts *)
(* ================================================================== *)

(** [string | string[]], the type of [targetUsers]. *)
Inductive StringOrArray :=
| Str (s : jsstring)
| Arr (l : list jsstring).

Record FeatureFlagConfig := {
  enabled : bool;
  rolloutPercentage : number;
  targetUsers : StringOrArray;
  betaTesters : list jsstring;
  description : jsstring
}.

Definition isAdminWorkBenchEnabled (env : Env) : bool :=
  if truthy_opt (process_env_get env ENABLED_KEY) then
    match process_env_get env ENABLED_KEY with
    | Some v => str_eqb v (js "true")
    | None => false
    end
  else
    match window_ENV env with
    | Some w =>
        match window_ENV_get w ENABLED_KEY with
        | Some envEnabled => str_eqb envEnabled (js "true")
        | None => false
        end
    | None => false
    end.

Definition getEnvironmentVariable (env : Env) (key defaultValue : jsstring)
  : jsstring :=
  if truthy_opt (process_env_get env key) then
    match process_env_get env key with
    | Some v => v
    | None => defaultValue
    end
  else
    match window_ENV env with
    | Some w =>
        match window_ENV_get w key with
        | Some envValue => envValue
        | None => defaultValue
        end
    | None => defaultValue
    end.

(** [hashUserId]: the loop body is [hash = ((hash << 5) - hash) + char]
    followed by [hash = hash & hash]. *)
Definition hashStep (hash char : Z) : Z :=
  toInt32 ((toInt32 (hash * 2 ^ 5) - hash) + char).

Definition hashUserId (userId : jsstring) : Z :=
  let hash := fold_left hashStep userId 0 in
  Z.rem (Z.abs hash) 100.

Section FeatureFlags.

(** [String.prototype.toUpperCase], the Unicode case mapping of the
    runtime. *)
Variable toUpperCase : jsstring -> jsstring.

Definition parseTargetUsers (targetUsersStr : jsstring) : StringOrArray :=
  if str_eqb targetUsersStr (js "all") || str_eqb targetUsersStr (js "beta")
  then Str targetUsersStr
  else if str_eqb targetUsersStr (js "admins") then Arr [js "ADMIN"]
  else if str_includes targetUsersStr (js ",") then
    Arr (map (fun role => toUpperCase (trim role)) (str_split COMMA targetUsersStr))
  else if truthy targetUsersStr && negb (str_eqb targetUsersStr (js "all"))
  then Arr [toUpperCase targetUsersStr]
  else Str (js "all").

Definition getBetaTesterList (env : Env) : list jsstring :=
  let betaListEnv := getEnvironmentVariable env BETA_KEY (js "") in
  if negb (truthy betaListEnv) then []
  else filter truthy (map (fun id => trim id) (str_split COMMA betaListEnv)).

Definition getAdminWorkBenchFeatureFlagConfig (env : Env)
  : FeatureFlagConfig :=
  let rolloutPercentage :=
    getEnvironmentVariable env ROLLOUT_KEY (js "100") in
  let targetUsersEnv := getEnvironmentVariable env TARGET_KEY (js "all") in
  let betaTesters := getBetaTesterList env in
  {| enabled := isAdminWorkBenchEnabled env;
     rolloutPercentage := parseInt rolloutPercentage;
     targetUsers := parseTargetUsers targetUsersEnv;
     betaTesters := betaTesters;
     description :=
       js "New AdminWorkBench UI for user management dashboard" |}.

(** [config.targetUsers !== 'all'] *)
Definition notAll (t : StringOrArray) : bool :=
  match t with
  | Str s => negb (str_eqb s (js "all"))
  | Arr _ => true
  end.

(** [Array.isArray(t) ? t : [t]] *)
Definition toArray (t : StringOrArray) : list jsstring :=
  match t with
  | Arr l => l
  | Str s => [s]
  end.

Definition isAdminWorkBenchEnabledForUser
    (env : Env) (userId : jsstring) (userRole : option jsstring) : bool :=
  if negb (isAdminWorkBenchEnabled env) then false
  else
    let config := getAdminWorkBenchFeatureFlagConfig env in
    if notAll (targetUsers config) && truthy_opt userRole
       && negb (match userRole with
                | Some r => arr_includes (toArray (targetUsers config)) r
                | None => false
                end)
    then false
    else
      if num_lt (rolloutPercentage config) (number_of_Z 100)
         && (let hash := hashUserId userId in
             let percentageThreshold :=
               num_mul (num_div (rolloutPercentage config) (number_of_Z 100))
                       (number_of_Z 100) in
             num_ge (number_of_Z (Z.rem hash 100)) percentageThreshold)
      then false
      else
        if (0 <? Z.of_nat (List.length (betaTesters config)))
        then arr_includes (betaTesters config) userId
        else true.

End FeatureFlags.

(** ** The gates of [isAdminWorkBenchEnabledForUser], named

    The role filter lets a caller through when the target is ['all'], when
    no role is given (an empty role is falsy and counts as none), or when the
    role is one of the target roles. *)
Definition rolePasses (config : FeatureFlagConfig) (userRole : option jsstring)
  : Prop :=
  targetUsers config = Str (js "all")
  \/ truthy_opt userRole = false
  \/ exists r, userRole = Some r /\ In r (toArray (targetUsers config)).

(** The rollout gate turns a user away when the percentage is below 100 and
    [hash % 100 >= (rolloutPercentage / 100) * 100]. *)
Definition rolloutExcludes (config : FeatureFlagConfig) (userId : jsstring)
  : bool :=
  num_lt (rolloutPercentage config) (number_of_Z 100)
  && num_ge (number_of_Z (Z.rem (hashUserId userId) 100))
            (num_mul (num_div (rolloutPercentage config) (number_of_Z 100))
                     (number_of_Z 100)).

(** [a == b] on numbers: the two zeros are equal, NaN equals nothing. *)
Definition num_eq (a b : number) : bool := SFeqb a b.


(* ================================================================== *)
(** * The hook useAdminWorkBenchFeature *)
(* ================================================================== *)

(** [session.user] as the hook reads it; an absent field is [undefined]. *)
Record SessionUser := {
  id : option jsstring;
  role : option jsstring
}.

Record Session := {
  user : option SessionUser
}.

(** [session?.user?.id] and [session?.user?.role] *)
Definition session_user_id (session : option Session) : option jsstring :=
  match session with
  | Some s => match user s with Some u => id u | None => None end
  | None => None
  end.

Definition session_user_role (session : option Session) : option jsstring :=
  match session with
  | Some s => match user s with Some u => role u | None => None end
  | None => None
  end.

(** The dependency array [[session?.user?.id, session?.user?.role]] and its
    comparison, [Object.is] entry by entry. *)
Definition Deps := (option jsstring * option jsstring)%type.

Definition same_value (a b : option jsstring) : bool :=
  match a, b with
  | Some x, Some y => str_eqb x y
  | None, None => true
  | _, _ => false
  end.

Definition deps_eqb (a b : Deps) : bool :=
  same_value (fst a) (fst b) && same_value (snd a) (snd b).

(** The cell React keeps for one [useMemo] call: nothing before the first
    render, afterwards the last dependencies and the value computed then. *)
Definition MemoCell (A : Type) := option (Deps * A).

Definition useMemo {A : Type} (cell : MemoCell A) (factory : unit -> A)
    (deps : Deps) : A * MemoCell A :=
  match cell with
  | Some (prev, v) =>
      if deps_eqb prev deps then (v, cell)
      else let v' := factory tt in (v', Some (deps, v'))
  | None => let v' := factory tt in (v', Some (deps, v'))
  end.

Module Hook.

Record AdminWorkBenchFeature := {
  globalEnabled : bool;
  userEnabled : bool;
  enabled : bool;
  config : FeatureFlagConfig
}.

Section Hook.

Variable toUpperCase : jsstring -> jsstring.

(** The callback given to [useMemo]. *)
Definition compute (env : Env) (session : option Session)
  : AdminWorkBenchFeature :=
  let globalEnabled := isAdminWorkBenchEnabled env in
  let userEnabled :=
    if truthy_opt (session_user_id session) then
      match session_user_id session with
      | Some uid =>
          isAdminWorkBenchEnabledForUser toUpperCase env uid
            (session_user_role session)
      | None => false
      end
    else false in
  let config := getAdminWorkBenchFeatureFlagConfig toUpperCase env in
  {| globalEnabled := globalEnabled;
     userEnabled := userEnabled;
     enabled := globalEnabled && userEnabled;
     config := config |}.

(** One render: the environment and the session at that render, and the
    memo cell left by the render before. *)
Definition useAdminWorkBenchFeature (env : Env) (session : option Session)
    (cell : MemoCell AdminWorkBenchFeature)
  : AdminWorkBenchFeature * MemoCell AdminWorkBenchFeature :=
  useMemo cell (fun _ => compute env session)
          (session_user_id session, session_user_role session).

(** The values returned by successive renders of one component. *)
Fixpoint renders (cell : MemoCell AdminWorkBenchFeature)
    (inputs : list (Env * option Session)) : list AdminWorkBenchFeature :=
  match inputs with
  | [] => []
  | (env, session) :: rest =>
      let '(v, cell') := useAdminWorkBenchFeature env session cell in
      v :: renders cell' rest
  end.

End Hook.

End Hook.

(** What a returned value owes to the user id it was computed for. *)
Definition verdict_ok (uid : option jsstring)
    (v : Hook.AdminWorkBenchFeature) : Prop :=
  Hook.enabled v = Hook.globalEnabled v && Hook.userEnabled v
  /\ (truthy_opt uid = false ->
      Hook.userEnabled v = false /\ Hook.enabled v = false).

(** The memo cell only ever holds a value that is right for the
    dependencies stored with it. *)
Definition cell_ok (cell : MemoCell Hook.AdminWorkBenchFeature) : Prop :=
  match cell with
  | None => True
  | Some (deps, v) => verdict_ok (fst deps) v
  end.

(* ================================================================== *)
(** * The deprecated client endpoints *)
(* ================================================================== *)

(** ** Completions: a value, or a thrown exception (a rejected promise) *)

Inductive Completion (A : Type) :=
| Normal (a : A)
| Throw.
Arguments Normal {A} a.
Arguments Throw {A}.

Definition bind {A B : Type} (c : Completion A) (k : A -> Completion B)
  : Completion B :=
  match c with
  | Normal a => k a
  | Throw => Throw
  end.

Notation "x <- c ;; k" := (bind c (fun x => k))
  (at level 61, c at next level, right associativity).

(** [try { body } catch (err) { return handler }], where [body] ends in a
    [return] on every normal path. *)
Definition try_catch {A : Type} (body : Completion A) (handler : A) : A :=
  match body with
  | Normal a => a
  | Throw => handler
  end.

(** ** JSON values and responses *)

#[local] Set Warnings "-register-all".
Inductive Json :=
| JNull
| JBool (b : bool)
| JNum (n : Z)
| JStr (s : jsstring)
| JArr (items : list Json)
| JObj (fields : list (jsstring * Json)).

(** Property read on a value that came from JSON; [None] is [undefined]. *)
Fixpoint json_fields_get (fields : list (jsstring * Json)) (key : jsstring)
  : option Json :=
  match fields with
  | [] => None
  | (k, v) :: rest => if str_eqb k key then Some v else json_fields_get rest key
  end.

Definition prop (v : Json) (key : jsstring) : option Json :=
  match v with
  | JObj fields => json_fields_get fields key
  | _ => None
  end.

Definition json_truthy (v : Json) : bool :=
  match v with
  | JNull => false
  | JBool b => b
  | JNum n => negb (n =? 0)
  | JStr s => truthy s
  | JArr _ | JObj _ => true
  end.

Definition json_truthy_opt (v : option Json) : bool :=
  match v with Some x => json_truthy x | None => false end.

(** [a === b] for values read from two different parsed documents: primitives
    compare by value, two objects or arrays are never the same object. *)
Definition strict_eq (a b : option Json) : bool :=
  match a, b with
  | None, None => true
  | Some JNull, Some JNull => true
  | Some (JBool x), Some (JBool y) => Bool.eqb x y
  | Some (JNum x), Some (JNum y) => x =? y
  | Some (JStr x), Some (JStr y) => str_eqb x y
  | _, _ => false
  end.

(** A header value: a literal, or the [toUTCString] rendering of an instant
    given in milliseconds since the epoch. *)
Inductive HeaderValue :=
| HText (s : jsstring)
| HUTCString (ms : Z).

Record Response := {
  status : Z;
  body : Json;
  headers : list (jsstring * HeaderValue)
}.

(** [response.headers.set(name, value)] *)
Definition headers_set (name : jsstring) (value : HeaderValue)
    (response : Response) : Response :=
  {| status := status response;
     body := body response;
     headers :=
       filter (fun h => negb (str_eqb (fst h) name)) (headers response)
       ++ [(name, value)] |}.

(** [response.headers.has(name)] *)
Definition headers_has (name : jsstring) (response : Response) : bool :=
  existsb (fun h => str_eqb (fst h) name) (headers response).

(** [NextResponse.json(body, { status })]; the status defaults to 200. *)
Definition NextResponse_json (b : Json) (st : option Z) : Response :=
  {| status := match st with Some s => s | None => 200 end;
     body := b;
     headers := [(js "content-type", HText (js "application/json"))] |}.

Definition error_body (msg : string) : Json := JObj [(js "error", JStr (js msg))].

(** The four deprecation headers. *)
Definition has_deprecation_headers (response : Response) : bool :=
  headers_has (js "Deprecation") response
  && headers_has (js "Sunset") response
  && headers_has (js "Link") response
  && headers_has (js "X-API-Warn") response.

(** ** Collaborators of the handlers

    The tenant context, the permission check, the clock and the Prisma client
    are not part of these files; a [World] fixes what each answers during one
    request. A Prisma call may reject, [requireTenantContext] may throw. *)

Inductive Permission := USERS_VIEW | USERS_MANAGE.

Record TenantContext := {
  ctx_role : option jsstring;
  tenantId : option jsstring
}.

Record World := {
  requireTenantContext : Completion TenantContext;
  hasPermission : option jsstring -> Permission -> bool;
  Date_now : Z;
  (** [req.json()] *)
  req_json : Completion Json;
  (** [prisma.user.findMany] for the clients of a tenant *)
  user_findMany : option jsstring -> Completion (list Json);
  (** [prisma.user.findFirst] by id, role CLIENT and tenant *)
  user_findFirst : jsstring -> option jsstring -> Completion (option Json);
  (** [prisma.user.findUnique] by tenant and email *)
  user_findUnique : option jsstring -> option Json -> Completion (option Json);
  (** [prisma.user.create] with name, email and tenant *)
  user_create :
    option Json -> option Json -> option jsstring -> Completion Json;
  (** [prisma.user.update] by id with the name and email to change *)
  user_update : jsstring -> option Json -> option Json -> Completion Json;
  (** [prisma.user.delete] by id *)
  user_delete : jsstring -> Completion unit
}.

Definition NINETY_DAYS_MS : Z := 90 * 24 * 60 * 60 * 1000.

(** [await req.json().catch(() => ({}))] followed by [body || {}] *)
Definition request_body (w : World) : Json :=
  let parsed :=
    match req_json w with
    | Normal v => v
    | Throw => JObj []
    end in
  if json_truthy parsed then parsed else JObj [].

(** ** clients/route.ts *)

Module ClientsRoute.

Definition SUCCESSOR_LINK : jsstring :=
  js "</api/admin/users?role=CLIENT>; rel=" ++ [34] ++ js "successor" ++ [34].

Definition addDeprecationHeaders (w : World) (response : Response)
  : Response :=
  let r1 := headers_set (js "Deprecation") (HText (js "true")) response in
  let r2 :=
    headers_set (js "Sunset") (HUTCString (Date_now w + NINETY_DAYS_MS)) r1 in
  let r3 := headers_set (js "Link") (HText SUCCESSOR_LINK) r2 in
  headers_set (js "X-API-Warn")
    (HText (js "This endpoint is deprecated. Please use /api/admin/users with role=CLIENT filter instead."))
    r3.

Definition GET (w : World) : Response :=
  try_catch
    (ctx <- requireTenantContext w ;;
     let role := ctx_role ctx in
     if negb (hasPermission w role USERS_VIEW) then
       Normal (addDeprecationHeaders w
                 (NextResponse_json (error_body "Unauthorized") (Some 401)))
     else if negb (truthy_opt (tenantId ctx)) then
       Normal (addDeprecationHeaders w
                 (NextResponse_json
                    (error_body "Tenant context missing") (Some 400)))
     else
       clients <- user_findMany w (tenantId ctx) ;;
       Normal (addDeprecationHeaders w
                 (NextResponse_json (JObj [(js "clients", JArr clients)])
                    None)))
    (NextResponse_json (error_body "Failed to list clients") (Some 500)).

Definition POST (w : World) : Response :=
  try_catch
    (ctx <- requireTenantContext w ;;
     let role := ctx_role ctx in
     if negb (hasPermission w role USERS_MANAGE) then
       Normal (addDeprecationHeaders w
                 (NextResponse_json (error_body "Unauthorized") (Some 401)))
     else if negb (truthy_opt (tenantId ctx)) then
       Normal (addDeprecationHeaders w
                 (NextResponse_json
                    (error_body "Tenant context missing") (Some 400)))
     else
       let body := request_body w in
       let name := prop body (js "name") in
       let email := prop body (js "email") in
       if negb (json_truthy_opt name) || negb (json_truthy_opt email) then
         Normal (addDeprecationHeaders w
                   (NextResponse_json
                      (error_body "Name and email are required") (Some 400)))
       else
         existing <- user_findUnique w (tenantId ctx) email ;;
         if json_truthy_opt existing then
           Normal (addDeprecationHeaders w
                     (NextResponse_json
                        (error_body "Email already exists") (Some 409)))
         else
           client <- user_create w name email (tenantId ctx) ;;
           Normal (addDeprecationHeaders w
                     (NextResponse_json client (Some 201))))
    (addDeprecationHeaders w
       (NextResponse_json (error_body "Failed to create client") (Some 500))).

End ClientsRoute.

(** ** clients/[id]/route.ts *)

Module ClientByIdRoute.

Definition SUCCESSOR_LINK : jsstring :=
  js "</api/admin/users>; rel=" ++ [34] ++ js "successor" ++ [34].

Definition addDeprecationHeaders (w : World) (response : Response)
  : Response :=
  let r1 := headers_set (js "Deprecation") (HText (js "true")) response in
  let r2 :=
    headers_set (js "Sunset") (HUTCString (Date_now w + NINETY_DAYS_MS)) r1 in
  let r3 := headers_set (js "Link") (HText SUCCESSOR_LINK) r2 in
  headers_set (js "X-API-Warn")
    (HText (js "This endpoint is deprecated. Please use /api/admin/users instead."))
    r3.

Definition GET (w : World) (params_id : jsstring) : Response :=
  try_catch
    (ctx <- requireTenantContext w ;;
     let role := ctx_role ctx in
     if negb (hasPermission w role USERS_VIEW) then
       Normal (addDeprecationHeaders w
                 (NextResponse_json (error_body "Unauthorized") (Some 401)))
     else if negb (truthy_opt (tenantId ctx)) then
       Normal (addDeprecationHeaders w
                 (NextResponse_json
                    (error_body "Tenant context missing") (Some 400)))
     else
       client <- user_findFirst w params_id (tenantId ctx) ;;
       match client with
       | None =>
           Normal (addDeprecationHeaders w
                     (NextResponse_json
                        (error_body "Client not found") (Some 404)))
       | Some c =>
           Normal (addDeprecationHeaders w (NextResponse_json c None))
       end)
    (NextResponse_json (error_body "Failed to fetch client") (Some 500)).

Definition PATCH (w : World) (params_id : jsstring) : Response :=
  try_catch
    (ctx <- requireTenantContext w ;;
     let role := ctx_role ctx in
     if negb (hasPermission w role USERS_MANAGE) then
       Normal (addDeprecationHeaders w
                 (NextResponse_json (error_body "Unauthorized") (Some 401)))
     else if negb (truthy_opt (tenantId ctx)) then
       Normal (addDeprecationHeaders w
                 (NextResponse_json
                    (error_body "Tenant context missing") (Some 400)))
     else
       let body := request_body w in
       let name := prop body (js "name") in
       let email := prop body (js "email") in
       client <- user_findFirst w params_id (tenantId ctx) ;;
       match client with
       | None =>
           Normal (addDeprecationHeaders w
                     (NextResponse_json
                        (error_body "Client not found") (Some 404)))
       | Some c =>
           existing <-
             (if json_truthy_opt email
                 && negb (strict_eq email (prop c (js "email")))
              then user_findUnique w (tenantId ctx) email
              else Normal None) ;;
           if json_truthy_opt existing then
             Normal (addDeprecationHeaders w
                       (NextResponse_json
                          (error_body "Email already in use") (Some 409)))
           else
             updated <-
               user_update w params_id
                 (if json_truthy_opt name then name else None)
                 (if json_truthy_opt email then email else None) ;;
             Normal (addDeprecationHeaders w (NextResponse_json updated None))
       end)
    (addDeprecationHeaders w
       (NextResponse_json (error_body "Failed to update client") (Some 500))).

Definition DELETE (w : World) (params_id : jsstring) : Response :=
  try_catch
    (ctx <- requireTenantContext w ;;
     let role := ctx_role ctx in
     if negb (hasPermission w role USERS_MANAGE) then
       Normal (addDeprecationHeaders w
                 (NextResponse_json (error_body "Unauthorized") (Some 401)))
     else if negb (truthy_opt (tenantId ctx)) then
       Normal (addDeprecationHeaders w
                 (NextResponse_json
                    (error_body "Tenant context missing") (Some 400)))
     else
       client <- user_findFirst w params_id (tenantId ctx) ;;
       match client with
       | None =>
           Normal (addDeprecationHeaders w
                     (NextResponse_json
                        (error_body "Client not found") (Some 404)))
       | Some _ =>
           _ <- user_delete w params_id ;;
           Normal (addDeprecationHeaders w
                     (NextResponse_json
                        (JObj [(js "success", JBool true)]) None))
       end)
    (addDeprecationHeaders w
       (NextResponse_json (error_body "Failed to delete client") (Some 500))).

End ClientByIdRoute.

(* ================================================================== *)
(** * Legacy route redirects *)
(* ================================================================== *)

Module LegacyRedirect.

Record RedirectRule := {
  sourcePath : jsstring;
  destinationPath : jsstring;
  queryParams : list (jsstring * jsstring)
}.

(** Modelled from the spec: the pages that answer the legacy paths are not
    among the sources (only their end-to-end test is). The rule table is
    the one of the spec's external interfaces: each legacy path goes to
    [/admin/users] with a [tab] parameter and, for clients and team, a
    [role] parameter. *)
Definition redirectRules : list RedirectRule :=
  [ {| sourcePath := js "/admin/permissions";
       destinationPath := js "/admin/users";
       queryParams := [(js "tab", js "rbac")] |};
    {| sourcePath := js "/admin/roles";
       destinationPath := js "/admin/users";
       queryParams := [(js "tab", js "rbac")] |};
    {| sourcePath := js "/admin/clients";
       destinationPath := js "/admin/users";
       queryParams := [(js "tab", js "dashboard"); (js "role", js "CLIENT")] |};
    {| sourcePath := js "/admin/team";
       destinationPath := js "/admin/users";
       queryParams :=
         [(js "tab", js "dashboard"); (js "role", js "TEAM_MEMBER")] |} ].

(** The HTTP redirect statuses; the spec asks for one of them and does not
    say which. *)
Inductive RedirectStatus :=
| MovedPermanently
| Found
| SeeOther
| TemporaryRedirect
| PermanentRedirect.

Definition status_code (s : RedirectStatus) : Z :=
  match s with
  | MovedPermanently => 301
  | Found => 302
  | SeeOther => 303
  | TemporaryRedirect => 307
  | PermanentRedirect => 308
  end.

Record RedirectResponse := {
  redirect_status : Z;
  location : jsstring
}.

Fixpoint query_string (params : list (jsstring * jsstring)) : jsstring :=
  match params with
  | [] => []
  | [(k, v)] => k ++ js "=" ++ v
  | (k, v) :: rest => k ++ js "=" ++ v ++ js "&" ++ query_string rest
  end.

Definition target (r : RedirectRule) : jsstring :=
  destinationPath r ++ js "?" ++ query_string (queryParams r).

(** Modelled from the spec: a GET on a path of the table is answered by a
    redirect to the rule's destination and query; [None] stands for a path
    that is not a legacy path. *)
Definition handleGET (st : RedirectStatus) (path : jsstring)
  : option RedirectResponse :=
  match find (fun r => str_eqb (sourcePath r) path) redirectRules with
  | Some r =>
      Some {| redirect_status := status_code st; location := target r |}
  | None => None
  end.

(** ** admin-unified-redirects.spec.ts

    What each test expects of [page.url()] after [page.goto(path)]: the
    regular expressions of the test are plain substrings. *)
Definition expected_substrings (path : jsstring) : list jsstring :=
  if str_eqb path (js "/admin/permissions") then
    [js "/admin/users?"; js "tab=rbac"]
  else if str_eqb path (js "/admin/roles") then
    [js "/admin/users?"; js "tab=rbac"]
  else if str_eqb path (js "/admin/clients") then
    [js "/admin/users?"; js "tab=dashboard"; js "role=CLIENT"]
  else if str_eqb path (js "/admin/team") then
    [js "/admin/users?"; js "tab=dashboard"; js "role=TEAM_MEMBER"]
  else [].

(** The URL the browser shows after following a redirect issued for a
    page of origin [base]. *)
Definition page_url (base : jsstring) (r : RedirectResponse) : jsstring :=
  base ++ location r.

Definition url_expectations_met (path url : jsstring) : bool :=
  forallb (fun p => str_includes url p) (expected_substrings path).

Definition legacyPaths : list jsstring :=
  [js "/admin/permissions"; js "/admin/roles"; js "/admin/clients";
   js "/admin/team"].

End LegacyRedirect.

(* ================================================================== *)
(** * Concrete environments *)
(* ================================================================== *)

(** A server process with the given variables, no browser window. *)
Definition server_env (vars : jsobject) : Env :=
  {| process_env := Some vars; window_ENV := None |}.

(** A browser whose bundle has no [process] and whose page injected the
    given [window.__ENV__]. *)
Definition browser_env (vars : jsobject) : Env :=
  {| process_env := None; window_ENV := Some (Some vars) |}.

(** Enabled, half of the users, beta testers alice and u1. *)
Definition env_half_beta : Env :=
  server_env [(ENABLED_KEY, js "true"); (ROLLOUT_KEY, js "50");
              (BETA_KEY, js "alice, u1")].

(** The switch spelt in capitals. *)
Definition env_switch_capitals : Env :=
  server_env [(ENABLED_KEY, js "TRUE"); (BETA_KEY, js "alice")].

Definition env_rollout_zero : Env :=
  server_env [(ENABLED_KEY, js "true"); (ROLLOUT_KEY, js "0")].

(** Enabled, nothing else set: percentage 100, target 'all', no beta list. *)
Definition env_defaults : Env :=
  browser_env [(ENABLED_KEY, js "true")].

Definition env_admins_only : Env :=
  server_env [(ENABLED_KEY, js "true"); (ROLLOUT_KEY, js "100");
              (TARGET_KEY, js "admins")].

Definition env_rollout_abc : Env :=
  server_env [(ENABLED_KEY, js "true"); (ROLLOUT_KEY, js "abc");
              (BETA_KEY, js "alice")].

Definition env_rollout_100 : Env :=
  server_env [(ENABLED_KEY, js "true"); (ROLLOUT_KEY, js "100");
              (BETA_KEY, js "alice")].

Definition env_target_beta : Env :=
  server_env [(ENABLED_KEY, js "true"); (TARGET_KEY, js "beta");
              (BETA_KEY, js "alice")].

Definition env_rollout_seven : Env :=
  server_env [(ENABLED_KEY, js "true"); (ROLLOUT_KEY, js "7")].

Definition env_target_beta_no_list : Env :=
  server_env [(ENABLED_KEY, js "true"); (TARGET_KEY, js "beta")].

(** Enabled, a rollout percentage that is no number, nothing else set. *)
Definition env_rollout_abc_open : Env :=
  server_env [(ENABLED_KEY, js "true"); (ROLLOUT_KEY, js "abc")].

(** A request by an administrator of tenant t1 while the database is
    unreachable: every Prisma call rejects. *)
Definition world_database_down : World :=
  {| requireTenantContext :=
       Normal {| ctx_role := Some (js "ADMIN"); tenantId := Some (js "t1") |};
     hasPermission := fun _ _ => true;
     Date_now := 1762041600000;
     req_json :=
       Normal (JObj [(js "name", JStr (js "Ann"));
                     (js "email", JStr (js "ann@example.com"))]);
     user_findMany := fun _ => Throw;
     user_findFirst := fun _ _ => Throw;
     user_findUnique := fun _ _ => Throw;
     user_create := fun _ _ _ => Throw;
     user_update := fun _ _ _ => Throw;
     user_delete := fun _ => Throw |}.

(** A request outside any tenant context: [requireTenantContext] throws. *)
Definition world_no_tenant_context : World :=
  {| requireTenantContext := Throw;
     hasPermission := fun _ _ => false;
     Date_now := 1762041600000;
     req_json := Throw;
     user_findMany := fun _ => Normal [];
     user_findFirst := fun _ _ => Normal None;
     user_findUnique := fun _ _ => Normal None;
     user_create := fun _ _ _ => Throw;
     user_update := fun _ _ _ => Throw;
     user_delete := fun _ => Throw |}.

(* ================================================================== *)
(** * Reference definitions for the rollout decision *)
(* ================================================================== *)

(** The polynomial [c0 * 31^(n-1) + ... + c(n-1)] of the code units of a
    string, without any wrap-around (Horner's scheme). *)
Definition poly31 (s : jsstring) : Z :=
  fold_left (fun h c => 31 * h + c) s 0.

(** The whole percentages for which [(p / 100) * 100], computed in binary64,
    lies above [p]. *)
Definition roundedUpPercentages : list Z := [7; 14; 28; 55; 56].

(** No white space at either end. *)
Definition noLeadingWhiteSpace (s : jsstring) : Prop :=
  match s with
  | c :: _ => isWhiteSpace c = false
  | [] => True
  end.

(** A string made of commas and white space only. *)
Definition blankList (s : jsstring) : Prop :=
  Forall (fun c => c = COMMA \/ isWhiteSpace c = true) s.

(* ================================================================== *)
(** * ExecutiveDashboardTabWrapper *)
(* ================================================================== *)

(** What [useUsersContext] hands to the wrapper. *)
Record UsersContext := {
  users : Json;
  stats : Json
}.

(** The element the wrapper returns. *)
Inductive Rendered :=
| AdminWorkBench
| ExecutiveDashboardTab (users stats : Json).

Section Wrapper.

Variable toUpperCase : jsstring -> jsstring.

(** One render of the wrapper: it calls the hook, then picks one of the two
    elements. *)
Definition ExecutiveDashboardTabWrapper
    (env : Env) (session : option Session) (context : UsersContext)
    (cell : MemoCell Hook.AdminWorkBenchFeature)
  : Rendered * MemoCell Hook.AdminWorkBenchFeature :=
  let '(feature, cell') :=
    Hook.useAdminWorkBenchFeature toUpperCase env session cell in
  (if Hook.enabled feature then AdminWorkBench
   else ExecutiveDashboardTab (users context) (stats context),
   cell').

(** The elements returned by successive renders of one wrapper. *)
Fixpoint wrapper_renders (cell : MemoCell Hook.AdminWorkBenchFeature)
    (inputs : list (Env * option Session * UsersContext)) : list Rendered :=
  match inputs with
  | [] => []
  | (env, session, context) :: rest =>
      let '(r, cell') :=
        ExecutiveDashboardTabWrapper env session context cell in
      r :: wrapper_renders cell' rest
  end.

End Wrapper.

(* ================================================================== *)
(** * Reading response headers *)
(* ================================================================== *)

(** [response.headers.get(name)] for a name set at most once. *)
Definition headers_get (name : jsstring) (response : Response)
  : option HeaderValue :=
  match find (fun h => str_eqb (fst h) name) (headers response) with
  | Some h => Some (snd h)
  | None => None
  end.

Definition DEPRECATION_HEADER_NAMES : list jsstring :=
  [js "Deprecation"; js "Sunset"; js "Link"; js "X-API-Warn"].

(** Header names are compared without regard to the case of ASCII
    letters. *)
Definition asciiToLowerCase (s : jsstring) : jsstring :=
  map (fun c => if (65 <=? c) && (c <=? 90) then c + 32 else c) s.

(** A header name that is none of the four deprecation header names, in
    any spelling. *)
Definition otherHeaderName (name : jsstring) : Prop :=
  ~ In (asciiToLowerCase name) (map asciiToLowerCase DEPRECATION_HEADER_NAMES).

(* ================================================================== *)
(** * code-splitting.tsx *)
(* ================================================================== *)

Module CodeSplitting.

(** An importer of [DYNAMIC_COMPONENTS]: the module it imports and the
    export it picks. *)
Record Importer := {
  module_path : jsstring;
  export_name : jsstring
}.

Definition importer (path name : string) : Importer :=
  {| module_path := js path; export_name := js name |}.

Definition DYNAMIC_COMPONENTS : list (jsstring * Importer) :=
  [ (js "AdminDashboard",
     importer "@/components/admin/AdminDashboard" "AdminDashboard");
    (js "UserProfileDialog",
     importer "@/components/admin/UserProfileDialog" "UserProfileDialog");
    (js "BulkActionsModal",
     importer "@/components/admin/BulkActionsModal" "BulkActionsModal");
    (js "AdvancedFilters",
     importer "@/components/admin/AdvancedFilters" "AdvancedFilters");
    (js "WorkflowEditor",
     importer "@/components/admin/WorkflowEditor" "WorkflowEditor");
    (js "BookingWizard",
     importer "@/components/booking/BookingWizard" "BookingWizard");
    (js "ServiceDetail",
     importer "@/components/portal/ServiceDetail" "ServiceDetail");
    (js "DataTable",
     importer "@/components/shared/tables/SharedDataTable" "SharedDataTable");
    (js "AdvancedSearch",
     importer "@/components/shared/inputs/AdvancedSearch" "AdvancedSearch");
    (js "AnalyticsChart",
     importer "@/components/admin/analytics/Chart" "Chart");
    (js "ReportBuilder",
     importer "@/components/admin/ReportBuilder" "ReportBuilder");
    (js "ExportDialog",
     importer "@/components/admin/ExportDialog" "ExportDialog");
    (js "RichTextEditor",
     importer "@/components/ui/RichTextEditor" "RichTextEditor");
    (js "CodeEditor", importer "@/components/ui/CodeEditor" "CodeEditor");
    (js "Markdown", importer "@/components/ui/Markdown" "Markdown") ].

Record RouteConfig := {
  components : list jsstring;
  preload : bool;
  estimatedSize : jsstring
}.

Definition route_config (names : list string) (size : string) : RouteConfig :=
  {| components := map js names; preload := false; estimatedSize := js size |}.

Definition ROUTE_BASED_CODE_SPLITTING : list (jsstring * RouteConfig) :=
  [ (js "/admin",
     route_config ["AdminDashboard"; "AdvancedFilters"; "UserProfileDialog";
                   "DataTable"]%string "450KB");
    (js "/admin/users",
     route_config ["UserManagement"; "BulkActionsModal"; "DataTable"]%string
                  "350KB");
    (js "/admin/analytics",
     route_config ["AnalyticsChart"; "ReportBuilder"; "DataTable"]%string
                  "500KB");
    (js "/admin/settings",
     route_config ["SettingsForm"; "ConfigurationPanel"]%string "200KB");
    (js "/portal/bookings",
     route_config ["BookingList"; "BookingCalendar"; "DataTable"]%string
                  "300KB");
    (js "/portal/services",
     route_config ["ServiceGrid"; "ServiceDetail"; "BookingWizard"]%string
                  "350KB");
    (js "modal:user-profile", route_config ["UserProfileDialog"]%string "150KB");
    (js "modal:bulk-actions", route_config ["BulkActionsModal"]%string "100KB");
    (js "modal:export", route_config ["ExportDialog"]%string "120KB") ].

(** The property names every object literal inherits from
    [Object.prototype]. *)
Definition OBJECT_PROTOTYPE_KEYS : list jsstring :=
  map js ["constructor"; "__defineGetter__"; "__defineSetter__";
          "hasOwnProperty"; "__lookupGetter__"; "__lookupSetter__";
          "isPrototypeOf"; "propertyIsEnumerable"; "toString"; "valueOf";
          "__proto__"; "toLocaleString"]%string.

(** [table[key]] on an object literal: an own property, else a member
    inherited from [Object.prototype] (a function or an object, truthy and
    without the properties of a table entry), else [undefined]. *)
Inductive Lookup (A : Type) :=
| Own (a : A)
| Inherited
| Undefined.
Arguments Own {A} a.
Arguments Inherited {A}.
Arguments Undefined {A}.

Fixpoint own {A : Type} (table : list (jsstring * A)) (key : jsstring)
  : option A :=
  match table with
  | [] => None
  | (k, v) :: rest => if str_eqb k key then Some v else own rest key
  end.

Definition lookup {A : Type} (table : list (jsstring * A)) (key : jsstring)
  : Lookup A :=
  match own table key with
  | Some a => Own a
  | None => if arr_includes OBJECT_PROTOTYPE_KEYS key then Inherited
            else Undefined
  end.

Section Preload.

(** What calling a member inherited from [Object.prototype] as a function
    does: it returns or throws, and starts no import. *)
Variable call_inherited : jsstring -> Completion unit.

(** The imports started so far, and how the call ended. *)
Definition Run := (list Importer * Completion unit)%type.

(** The body of the [forEach] callback. *)
Definition preloadComponent (componentName : jsstring) : Run :=
  match lookup DYNAMIC_COMPONENTS componentName with
  | Own imp => ([imp], Normal tt)
  | Inherited => ([], call_inherited componentName)
  | Undefined => ([], Normal tt)
  end.

Fixpoint forEach (names : list jsstring) : Run :=
  match names with
  | [] => ([], Normal tt)
  | n :: rest =>
      match preloadComponent n with
      | (started, Normal _) =>
          let '(more, outcome) := forEach rest in (started ++ more, outcome)
      | (started, Throw) => (started, Throw)
      end
  end.

(** [preloadRoute(route)]; [Throw] is the TypeError of
    [config.components.forEach] when [config] is an inherited member. *)
Definition preloadRoute (route : jsstring) : Run :=
  match lookup ROUTE_BASED_CODE_SPLITTING route with
  | Undefined => ([], Normal tt)
  | Inherited => ([], Throw)
  | Own config => forEach (components config)
  end.

End Preload.

(** The importers of the listed components that have one, in order. *)
Definition registered (names : list jsstring) : list Importer :=
  flat_map (fun n => match own DYNAMIC_COMPONENTS n with
                     | Some imp => [imp]
                     | None => []
                     end) names.

(** The routes all of whose listed components have an importer. *)
Definition FULLY_REGISTERED_ROUTES : list jsstring :=
  map js ["/admin"; "/admin/analytics"; "modal:user-profile";
          "modal:bulk-actions"; "modal:export"]%string.

End CodeSplitting.

(* ================================================================== *)
(** * The filter-preset endpoints (GET, PATCH, DELETE by id) *)
(* ================================================================== *)

Module FilterPresetRoute.

(** The Prisma calls a handler makes, with their arguments. *)
Inductive PresetCall :=
| CallFindUnique (id : jsstring)
| CallFindFirst (tenantId : option Json) (name : option Json)
                (createdBy : option Json) (notId : jsstring)
| CallUpdate (id : jsstring) (data : list (jsstring * Json))
| CallDelete (id : jsstring).

(** The collaborators of the handlers during one request. *)
Record PresetWorld := {
  (** [getServerSession(authOptions)]: the session, or [None] for null *)
  getServerSession : Completion (option Json);
  (** [request.json()] *)
  request_json : Completion Json;
  presets_findUnique : jsstring -> Completion (option Json);
  presets_findFirst :
    option Json -> option Json -> option Json -> jsstring ->
    Completion (option Json);
  presets_update : jsstring -> list (jsstring * Json) -> Completion Json;
  presets_delete : jsstring -> Completion unit;
  (** [JSON.parse] of a stored filter configuration *)
  JSON_parse : option Json -> Completion Json;
  (** [JSON.stringify] of a value that came from JSON *)
  JSON_stringify : Json -> jsstring;
  (** [new Date()], in milliseconds *)
  Date_now_ms : Z
}.

(** A computation that may throw and that records the Prisma calls it has
    made; the calls made before a throw stay recorded. *)
Definition Logged (A : Type) := list PresetCall -> Completion A * list PresetCall.

Definition lret {A : Type} (a : A) : Logged A := fun log => (Normal a, log).

Definition lbind {A B : Type} (c : Logged A) (k : A -> Logged B) : Logged B :=
  fun log =>
    match c log with
    | (Normal a, log') => k a log'
    | (Throw, log') => (Throw, log')
    end.

(** A step that touches no table. *)
Definition lift {A : Type} (c : Completion A) : Logged A := fun log => (c, log).

(** A Prisma call: recorded, then answered. *)
Definition prisma {A : Type} (call : PresetCall) (answer : Completion A)
  : Logged A :=
  fun log => (answer, log ++ [call]).

(** [try { body } catch { return handler }], with the calls made. *)
Definition try_catch_logged (body : Logged Response) (handler : Response)
  : Response * list PresetCall :=
  match body [] with
  | (Normal r, log) => (r, log)
  | (Throw, log) => (handler, log)
  end.

(** [session?.user] and [session.user.id] *)
Definition session_user (session : option Json) : option Json :=
  match session with
  | Some s => prop s (js "user")
  | None => None
  end.

Definition session_user_id_of (session : option Json) : option Json :=
  match session_user session with
  | Some u => prop u (js "id")
  | None => None
  end.

(** [o[k] = v] on an object under construction: an existing key keeps its
    place, a new key goes last. *)
Fixpoint assign (fields : list (jsstring * Json)) (k : jsstring) (v : Json)
  : list (jsstring * Json) :=
  match fields with
  | [] => [(k, v)]
  | (k0, v0) :: rest =>
      if str_eqb k0 k then (k, v) :: rest else (k0, v0) :: assign rest k v
  end.

Definition object_fields (v : Json) : list (jsstring * Json) :=
  match v with
  | JObj fields => fields
  | _ => []
  end.

(** [{ success: true, ...preset, filterConfig: parsed }] *)
Definition success_body (preset parsed : Json) : Json :=
  JObj (assign
          (fold_left (fun acc kv => assign acc (fst kv) (snd kv))
                     (object_fields preset) [(js "success", JBool true)])
          (js "filterConfig") parsed).

Definition json_error (msg : string) (st : Z) : Response :=
  NextResponse_json (error_body msg) (Some st).

Definition GET (w : PresetWorld) (params_id : jsstring)
  : Response * list PresetCall :=
  try_catch_logged
    (lbind (lift (getServerSession w)) (fun session =>
     if negb (json_truthy_opt (session_user session)) then
       lret (json_error "Unauthorized" 401)
     else
       lbind (prisma (CallFindUnique params_id) (presets_findUnique w params_id))
         (fun preset =>
          match preset with
          | None => lret (json_error "Preset not found" 404)
          | Some p =>
              if negb (json_truthy_opt (prop p (js "isPublic")))
                 && negb (strict_eq (prop p (js "createdBy"))
                                    (session_user_id_of session))
              then lret (json_error "Forbidden" 403)
              else
                lbind (lift (JSON_parse w (prop p (js "filterConfig"))))
                  (fun parsed =>
                   lret (NextResponse_json (success_body p parsed) None))
          end)))
    (json_error "Failed to fetch preset" 500).

(** [if (x !== undefined) updateData.k = x] *)
Definition set_if_defined (k : jsstring) (x : option Json)
    (updateData : list (jsstring * Json)) : list (jsstring * Json) :=
  match x with
  | Some v => assign updateData k v
  | None => updateData
  end.

(** The update data built from the request body; it throws when
    [filterConfig] is null, whose [logic] cannot be read. The date of
    [updatedAt] is given in milliseconds. *)
Definition build_updateData (w : PresetWorld) (body : Json)
  : Completion (list (jsstring * Json)) :=
  let d1 := set_if_defined (js "name") (prop body (js "name")) [] in
  let d2 := set_if_defined (js "description") (prop body (js "description")) d1 in
  let d3 := set_if_defined (js "isPublic") (prop body (js "isPublic")) d2 in
  let d4 := set_if_defined (js "icon") (prop body (js "icon")) d3 in
  let d5 := set_if_defined (js "color") (prop body (js "color")) d4 in
  d6 <- match prop body (js "filterConfig") with
        | None => Normal d5
        | Some JNull => Throw
        | Some filterConfig =>
            let d := assign d5 (js "filterConfig")
                       (JStr (JSON_stringify w filterConfig)) in
            Normal (assign d (js "filterLogic")
                      (if json_truthy_opt (prop filterConfig (js "logic"))
                       then match prop filterConfig (js "logic") with
                            | Some l => l
                            | None => JStr (js "AND")
                            end
                       else JStr (js "AND")))
        end ;;
  Normal (assign d6 (js "updatedAt") (JNum (Date_now_ms w))).

Definition PATCH (w : PresetWorld) (params_id : jsstring)
  : Response * list PresetCall :=
  try_catch_logged
    (lbind (lift (getServerSession w)) (fun session =>
     if negb (json_truthy_opt (session_user session)) then
       lret (json_error "Unauthorized" 401)
     else
       lbind (prisma (CallFindUnique params_id) (presets_findUnique w params_id))
         (fun preset =>
          match preset with
          | None => lret (json_error "Preset not found" 404)
          | Some p =>
              if negb (strict_eq (prop p (js "createdBy"))
                                 (session_user_id_of session))
              then lret (json_error "Forbidden" 403)
              else
                lbind (lift (request_json w)) (fun body =>
                lbind (lift (match body with
                             | JNull => Throw
                             | _ => build_updateData w body
                             end)) (fun updateData =>
                let name := prop body (js "name") in
                lbind (if json_truthy_opt name
                          && negb (strict_eq name (prop p (js "name")))
                       then
                         prisma (CallFindFirst (prop p (js "tenantId")) name
                                   (session_user_id_of session) params_id)
                           (presets_findFirst w (prop p (js "tenantId")) name
                              (session_user_id_of session) params_id)
                       else lret None) (fun existing =>
                if json_truthy_opt existing then
                  lret (json_error
                          "Another preset with this name already exists" 409)
                else
                  lbind (prisma (CallUpdate params_id updateData)
                           (presets_update w params_id updateData))
                    (fun updatedPreset =>
                  lbind (lift (JSON_parse w
                                 (prop updatedPreset (js "filterConfig"))))
                    (fun parsed =>
                   lret (NextResponse_json
                           (success_body updatedPreset parsed) None))))))
          end)))
    (json_error "Failed to update preset" 500).

Definition DELETE (w : PresetWorld) (params_id : jsstring)
  : Response * list PresetCall :=
  try_catch_logged
    (lbind (lift (getServerSession w)) (fun session =>
     if negb (json_truthy_opt (session_user session)) then
       lret (json_error "Unauthorized" 401)
     else
       lbind (prisma (CallFindUnique params_id) (presets_findUnique w params_id))
         (fun preset =>
          match preset with
          | None => lret (json_error "Preset not found" 404)
          | Some p =>
              if negb (strict_eq (prop p (js "createdBy"))
                                 (session_user_id_of session))
              then lret (json_error "Forbidden" 403)
              else
                lbind (prisma (CallDelete params_id) (presets_delete w params_id))
                  (fun _ =>
                   lret (NextResponse_json
                           (JObj [(js "success", JBool true);
                                  (js "message",
                                   JStr (js "Preset deleted successfully"))])
                           None))
          end)))
    (json_error "Failed to delete preset" 500).

(** Is the call a write? *)
Definition is_write (c : PresetCall) : bool :=
  match c with
  | CallUpdate _ _ | CallDelete _ => true
  | _ => false
  end.

End FilterPresetRoute.

(* ================================================================== *)
(** * The messaging endpoints and their zod schemas *)
(* ================================================================== *)

Module Messaging.

(** The zod schemas the handlers use. *)
Inductive Schema :=
| ZString (minLength : Z) (maxLength : option Z)
| ZEnum (values : list jsstring)
| ZBoolean
| ZArray (item : Schema)
| ZOptional (inner : Schema)
| ZObject (shape : list (jsstring * Schema)).

Definition str_length (s : jsstring) : Z := Z.of_nat (List.length s).

(** [schema.safeParse(input)]: [None] when validation fails, otherwise the
    parsed data ([Some None] is [undefined], the data of an absent optional
    value). An object keeps the keys of its shape only, in the order of the
    shape, and leaves out those whose data is [undefined]. *)
Fixpoint safeParse (schema : Schema) (input : option Json)
  : option (option Json) :=
  match schema with
  | ZString lo hi =>
      match input with
      | Some (JStr t) =>
          if (lo <=? str_length t)
             && match hi with
                | Some h => str_length t <=? h
                | None => true
                end
          then Some (Some (JStr t))
          else None
      | _ => None
      end
  | ZEnum values =>
      match input with
      | Some (JStr t) =>
          if arr_includes values t then Some (Some (JStr t)) else None
      | _ => None
      end
  | ZBoolean =>
      match input with
      | Some (JBool b) => Some (Some (JBool b))
      | _ => None
      end
  | ZArray item =>
      match input with
      | Some (JArr xs) =>
          (fix items (xs : list Json) : option (option Json) :=
             match xs with
             | [] => Some (Some (JArr []))
             | x :: rest =>
                 match safeParse item (Some x), items rest with
                 | Some (Some v), Some (Some (JArr vs)) =>
                     Some (Some (JArr (v :: vs)))
                 | _, _ => None
                 end
             end) xs
      | _ => None
      end
  | ZOptional inner =>
      match input with
      | None => Some None
      | Some _ => safeParse inner input
      end
  | ZObject shape =>
      match input with
      | Some (JObj fields) =>
          (fix keys (shape : list (jsstring * Schema))
             : option (option Json) :=
             match shape with
             | [] => Some (Some (JObj []))
             | (k, s) :: rest =>
                 match safeParse s (json_fields_get fields k), keys rest with
                 | Some (Some v), Some (Some (JObj out)) =>
                     Some (Some (JObj ((k, v) :: out)))
                 | Some None, Some (Some (JObj out)) =>
                     Some (Some (JObj out))
                 | _, _ => None
                 end
             end) shape
      | _ => None
      end
  end.

Definition TICKET_CATEGORIES : list jsstring :=
  map js ["GENERAL"; "TECHNICAL"; "BILLING"; "ACCOUNT"; "FEATURE_REQUEST";
          "BUG_REPORT"; "COMPLIANCE"; "TAX"; "OTHER"]%string.

Definition TICKET_PRIORITIES : list jsstring :=
  map js ["LOW"; "MEDIUM"; "HIGH"; "URGENT"; "CRITICAL"]%string.

Definition TICKET_STATUSES : list jsstring :=
  map js ["OPEN"; "IN_PROGRESS"; "WAITING_ON_CUSTOMER"; "WAITING_ON_SUPPORT";
          "RESOLVED"; "CLOSED"; "CANCELLED"]%string.

Definition sendMessageSchema : Schema :=
  ZObject [ (js "text", ZString 1 (Some 5000));
            (js "attachments", ZOptional (ZArray (ZString 0 None))) ].

Definition createTicketSchema : Schema :=
  ZObject [ (js "title", ZString 1 (Some 200));
            (js "description", ZString 0 (Some 5000));
            (js "category", ZEnum TICKET_CATEGORIES);
            (js "priority", ZEnum TICKET_PRIORITIES);
            (js "tags", ZOptional (ZArray (ZString 0 None)));
            (js "attachments", ZOptional (ZArray (ZString 0 None))) ].

Definition addCommentSchema : Schema :=
  ZObject [ (js "content", ZString 1 (Some 5000));
            (js "attachments", ZOptional (ZArray (ZString 0 None)));
            (js "isInternal", ZOptional ZBoolean) ].

Definition updateTicketSchema : Schema :=
  ZObject [ (js "title", ZOptional (ZString 1 (Some 200)));
            (js "description", ZOptional (ZString 0 (Some 5000)));
            (js "category", ZOptional (ZEnum TICKET_CATEGORIES));
            (js "priority", ZOptional (ZEnum TICKET_PRIORITIES));
            (js "status", ZOptional (ZEnum TICKET_STATUSES));
            (js "assignedToId", ZOptional (ZString 0 None));
            (js "tags", ZOptional (ZArray (ZString 0 None))) ].

(** The calls to [MessagesService] and [TicketsService]. *)
Inductive ServiceCall :=
| SendMessage (tenantId userId userName userRole : option Json)
              (threadId : jsstring) (text : option Json)
| CreateTicket (tenantId userId : option Json) (data : Json)
| AddComment (tenantId userId : option Json) (data : Json)
| UpdateTicket (tenantId : option Json) (ticketId : jsstring)
               (userId : option Json) (data : Json)
| GetTicketById (tenantId : option Json) (ticketId : jsstring).

Record MessagingWorld := {
  (** [getServerSession(authOptions)]: the session, or [None] for null *)
  getServerSession : Completion (option Json);
  (** [request.json()] *)
  request_json : Completion Json;
  (** what the service answers to a call ([JNull] for null) *)
  service : ServiceCall -> Completion Json;
  (** [validation.error.errors] for a rejected body *)
  validation_errors : Json -> Json;
  (** [error.message] of the exception caught *)
  error_message : Json
}.

(** The response and the service calls made. *)
Definition Outcome := (Response * list ServiceCall)%type.

Definition session_user (session : option Json) : option Json :=
  match session with
  | Some s => prop s (js "user")
  | None => None
  end.

Definition user_prop (session : option Json) (key : string) : option Json :=
  match session_user session with
  | Some u => prop u (js key)
  | None => None
  end.

(** [a || b] *)
Definition or_else (a b : option Json) : option Json :=
  if json_truthy_opt a then a else b.

Definition failure (msg : string) (details : option Json) (st : Z) : Response :=
  NextResponse_json
    (JObj ([(js "success", JBool false); (js "error", JStr (js msg))]
           ++ match details with
              | Some d => [(js "details", d)]
              | None => []
              end))
    (Some st).

(** [{ success: true, data }] and [{ success: true, data, message }] *)
Definition success (data : Json) : Response :=
  NextResponse_json (JObj [(js "success", JBool true); (js "data", data)]) None.

Definition success_message (data : Json) (msg : string) : Response :=
  NextResponse_json
    (JObj [(js "success", JBool true); (js "data", data);
           (js "message", JStr (js msg))])
    None.

(** A service call inside the [try] block: recorded, then either answered
    and followed by the rest of the handler, or thrown and caught. *)
Definition call (w : MessagingWorld) (c : ServiceCall)
    (k : Json -> Outcome) (caught : Response) : Outcome :=
  match service w c with
  | Normal v => let '(r, log) := k v in (r, c :: log)
  | Throw => (caught, [c])
  end.

(** POST /api/messages/[id]/messages *)
Definition sendMessage_POST (w : MessagingWorld) (params_id : jsstring)
  : Outcome :=
  let caught :=
    failure "Failed to send message" (Some (error_message w)) 500 in
  match getServerSession w with
  | Throw => (caught, [])
  | Normal session =>
      if negb (json_truthy_opt (session_user session)) then
        (failure "Unauthorized" None 401, [])
      else
        let tenantId := user_prop session "tenantId" in
        let userId := user_prop session "id" in
        let userName :=
          or_else (user_prop session "name") (user_prop session "email") in
        let userRole :=
          or_else (user_prop session "role") (Some (JStr (js "CLIENT"))) in
        let threadId := params_id in
        match request_json w with
        | Throw => (caught, [])
        | Normal body =>
            match safeParse sendMessageSchema (Some body) with
            | Some (Some data) =>
                call w
                  (SendMessage tenantId userId userName userRole threadId
                     (prop data (js "text")))
                  (fun message =>
                     (success_message message "Message sent successfully", []))
                  caught
            | _ =>
                (failure "Validation error" (Some (validation_errors w body))
                   400, [])
            end
        end
  end.

(** POST /api/messages/tickets *)
Definition createTicket_POST (w : MessagingWorld) : Outcome :=
  let caught :=
    failure "Failed to create ticket" (Some (error_message w)) 500 in
  match getServerSession w with
  | Throw => (caught, [])
  | Normal session =>
      if negb (json_truthy_opt (session_user session)) then
        (failure "Unauthorized" None 401, [])
      else
        let tenantId := user_prop session "tenantId" in
        let userId := user_prop session "id" in
        match request_json w with
        | Throw => (caught, [])
        | Normal body =>
            match safeParse createTicketSchema (Some body) with
            | Some (Some data) =>
                call w (CreateTicket tenantId userId data)
                  (fun ticket =>
                     (success_message ticket "Support ticket created successfully", []))
                  caught
            | _ =>
                (failure "Validation error" (Some (validation_errors w body))
                   400, [])
            end
        end
  end.

(** [{ ticketId, ...validation.data }] *)
Definition comment_data (ticketId : jsstring) (data : Json) : Json :=
  JObj (fold_left (fun acc kv => FilterPresetRoute.assign acc (fst kv) (snd kv))
          (FilterPresetRoute.object_fields data)
          [(js "ticketId", JStr ticketId)]).

(** POST /api/messages/tickets/[id]/comments *)
Definition addComment_POST (w : MessagingWorld) (params_id : jsstring)
  : Outcome :=
  let caught :=
    failure "Failed to add comment" (Some (error_message w)) 500 in
  match getServerSession w with
  | Throw => (caught, [])
  | Normal session =>
      if negb (json_truthy_opt (session_user session)) then
        (failure "Unauthorized" None 401, [])
      else
        let tenantId := user_prop session "tenantId" in
        let userId := user_prop session "id" in
        let ticketId := params_id in
        match request_json w with
        | Throw => (caught, [])
        | Normal body =>
            match safeParse addCommentSchema (Some body) with
            | Some (Some data) =>
                call w (AddComment tenantId userId (comment_data ticketId data))
                  (fun comment =>
                     (success_message comment "Comment added successfully", []))
                  caught
            | _ =>
                (failure "Validation error" (Some (validation_errors w body))
                   400, [])
            end
        end
  end.

(** GET /api/messages/tickets/[id] *)
Definition ticket_GET (w : MessagingWorld) (params_id : jsstring) : Outcome :=
  let caught :=
    failure "Failed to fetch ticket" (Some (error_message w)) 500 in
  match getServerSession w with
  | Throw => (caught, [])
  | Normal session =>
      if negb (json_truthy_opt (session_user session)) then
        (failure "Unauthorized" None 401, [])
      else
        let tenantId := user_prop session "tenantId" in
        let ticketId := params_id in
        call w (GetTicketById tenantId ticketId)
          (fun ticket =>
             if negb (json_truthy ticket) then
               (failure "Ticket not found" None 404, [])
             else (success ticket, []))
          caught
  end.

(** PATCH /api/messages/tickets/[id] *)
Definition ticket_PATCH (w : MessagingWorld) (params_id : jsstring)
  : Outcome :=
  let caught :=
    failure "Failed to update ticket" (Some (error_message w)) 500 in
  match getServerSession w with
  | Throw => (caught, [])
  | Normal session =>
      if negb (json_truthy_opt (session_user session)) then
        (failure "Unauthorized" None 401, [])
      else
        let tenantId := user_prop session "tenantId" in
        let userId := user_prop session "id" in
        let ticketId := params_id in
        match request_json w with
        | Throw => (caught, [])
        | Normal body =>
            match safeParse updateTicketSchema (Some body) with
            | Some (Some data) =>
                call w (UpdateTicket tenantId ticketId userId data)
                  (fun ticket =>
                     (success_message ticket "Ticket updated successfully", []))
                  caught
            | _ =>
                (failure "Validation error" (Some (validation_errors w body))
                   400, [])
            end
        end
  end.

(** The keys of an object. *)
Definition keys (v : Json) : list jsstring :=
  map fst (FilterPresetRoute.object_fields v).

(** A string of [lo] to [hi] code units. *)
Definition string_within (lo hi : Z) (v : option Json) : Prop :=
  exists t, v = Some (JStr t) /\ lo <= str_length t <= hi.

(** One of the listed strings. *)
Definition one_of (values : list jsstring) (v : option Json) : Prop :=
  exists t, v = Some (JStr t) /\ In t values.

End Messaging.

(* ================================================================== *)
(** * More concrete inputs *)
(* ================================================================== *)

(** As [env_half_beta], at 75 percent. *)
Definition env_three_quarters_beta : Env :=
  server_env [(ENABLED_KEY, js "true"); (ROLLOUT_KEY, js "75");
              (BETA_KEY, js "alice, u1")].

(** A beta-tester variable of commas and blanks. *)
Definition env_blank_beta : Env :=
  server_env [(ENABLED_KEY, js "true"); (BETA_KEY, js " , ,")].

(** The session of the administrator u1. *)
Definition session_u1_admin : option Session :=
  Some {| user := Some {| id := Some (js "u1"); role := Some (js "ADMIN") |} |}.

Definition empty_context : UsersContext :=
  {| users := JArr []; stats := JObj [] |}.

Definition ctx_admin_t1 : TenantContext :=
  {| ctx_role := Some (js "ADMIN"); tenantId := Some (js "t1") |}.

Definition client_c1 : Json :=
  JObj [(js "id", JStr (js "c1")); (js "name", JStr (js "Ann"));
        (js "email", JStr (js "ann@example.com"))].

(** A caller whom [hasPermission] refuses everything. *)
Definition world_no_permission : World :=
  {| requireTenantContext :=
       Normal {| ctx_role := Some (js "CLIENT"); tenantId := Some (js "t1") |};
     hasPermission := fun _ _ => false;
     Date_now := 1762041600000;
     req_json := Normal (JObj []);
     user_findMany := fun _ => Normal [client_c1];
     user_findFirst := fun _ _ => Normal (Some client_c1);
     user_findUnique := fun _ _ => Normal None;
     user_create := fun _ _ _ => Normal client_c1;
     user_update := fun _ _ _ => Normal client_c1;
     user_delete := fun _ => Normal tt |}.

(** An administrator of t1; client c1 exists; the request gives the name
    Bob and the email bob@example.com, and [taken] says whether that email
    is in use. *)
Definition world_admin (taken : bool) : World :=
  {| requireTenantContext := Normal ctx_admin_t1;
     hasPermission := fun _ _ => true;
     Date_now := 1762041600000;
     req_json :=
       Normal (JObj [(js "name", JStr (js "Bob"));
                     (js "email", JStr (js "bob@example.com"))]);
     user_findMany := fun _ => Normal [client_c1];
     user_findFirst := fun _ _ => Normal (Some client_c1);
     user_findUnique :=
       fun _ _ => Normal (if taken then Some client_c1 else None);
     user_create :=
       fun _ _ _ =>
         Normal (JObj [(js "id", JStr (js "c2")); (js "name", JStr (js "Bob"));
                       (js "email", JStr (js "bob@example.com"))]);
     user_update := fun _ _ _ => Normal client_c1;
     user_delete := fun _ => Normal tt |}.

(** The session of user u1 of tenant t1, without a role. *)
Definition json_session_u1 : option Json :=
  Some (JObj [(js "user",
               JObj [(js "id", JStr (js "u1"));
                     (js "tenantId", JStr (js "t1"));
                     (js "email", JStr (js "u1@example.com"))])]).

(** A private preset p1 created by [creator]. *)
Definition preset_p1 (creator : string) : Json :=
  JObj [(js "id", JStr (js "p1")); (js "tenantId", JStr (js "t1"));
        (js "name", JStr (js "Mine")); (js "isPublic", JBool false);
        (js "filterConfig", JStr (js "{}"));
        (js "createdBy", JStr (js creator))].

(** A request by [session] about preset p1 of [creator] that renames it to
    Renamed; [taken] says whether the caller has a preset of that name. *)
Definition world_preset (session : option Json) (creator : string)
    (taken : bool) : FilterPresetRoute.PresetWorld :=
  {| FilterPresetRoute.getServerSession := Normal session;
     FilterPresetRoute.request_json :=
       Normal (JObj [(js "name", JStr (js "Renamed"))]);
     FilterPresetRoute.presets_findUnique :=
       fun _ => Normal (Some (preset_p1 creator));
     FilterPresetRoute.presets_findFirst :=
       fun _ _ _ _ =>
         Normal (if taken then Some (preset_p1 creator) else None);
     FilterPresetRoute.presets_update :=
       fun _ _ => Normal (preset_p1 creator);
     FilterPresetRoute.presets_delete := fun _ => Normal tt;
     FilterPresetRoute.JSON_parse := fun _ => Normal (JObj []);
     FilterPresetRoute.JSON_stringify := fun _ => js "{}";
     FilterPresetRoute.Date_now_ms := 1762041600000 |}.

(** A request by user u1 with the given body; the service answers every
    call with an empty object. *)
Definition world_messaging (body : Json) : Messaging.MessagingWorld :=
  {| Messaging.getServerSession := Normal json_session_u1;
     Messaging.request_json := Normal body;
     Messaging.service := fun _ => Normal (JObj [(js "id", JStr (js "m1"))]);
     Messaging.validation_errors := fun _ => JArr [];
     Messaging.error_message := JStr (js "failed") |}.

Definition body_message : Json := JObj [(js "text", JStr (js "hello"))].

Definition body_ticket : Json :=
  JObj [(js "title", JStr (js "Help")); (js "description", JStr (js ""));
        (js "category", JStr (js "TAX")); (js "priority", JStr (js "LOW"));
        (js "internal", JBool true)].

(** A comment whose body tries to name another ticket. *)
Definition body_comment : Json :=
  JObj [(js "content", JStr (js "ok")); (js "ticketId", JStr (js "other"))].

Definition body_patch : Json := JObj [(js "status", JStr (js "CLOSED"))].

(* ================================================================== *)
(** * Properties of the string and number primitives *)
(* ================================================================== *)

Lemma str_eqb_refl (a : jsstring) : str_eqb a a = true.
Proof.
  induction a as [|x a IH]; simpl; [reflexivity|].
  now rewrite Z.eqb_refl, IH.
Qed.

Lemma str_eqb_eq (a b : jsstring) : str_eqb a b = true <-> a = b.
Proof.
  split.
  - revert b; induction a as [|x a IH]; intros [|y b] H; simpl in H;
      try discriminate; [reflexivity|].
    apply andb_true_iff in H as [Hxy Hab].
    apply Z.eqb_eq in Hxy. apply IH in Hab. now subst.
  - intros ->. apply str_eqb_refl.
Qed.

Lemma str_eqb_neq (a b : jsstring) : str_eqb a b = false <-> a <> b.
Proof.
  split.
  - intros H Heq. apply str_eqb_eq in Heq. congruence.
  - intros H. destruct (str_eqb a b) eqn:E; [|reflexivity].
    apply str_eqb_eq in E. contradiction.
Qed.

Lemma arr_includes_In (l : list jsstring) (x : jsstring) :
  arr_includes l x = true <-> In x l.
Proof.
  unfold arr_includes. rewrite existsb_exists. split.
  - intros [y [Hin Heq]]. apply str_eqb_eq in Heq. now subst.
  - intros Hin. exists x. split; [assumption | apply str_eqb_refl].
Qed.

Lemma arr_includes_not_In (l : list jsstring) (x : jsstring) :
  arr_includes l x = false <-> ~ In x l.
Proof.
  rewrite <- arr_includes_In.
  destruct (arr_includes l x); intuition congruence.
Qed.

Lemma truthy_nonempty (s : jsstring) : truthy s = true <-> s <> [].
Proof.
  destruct s; simpl; split; intro H; congruence.
Qed.

Lemma starts_with_includes (p s : jsstring) :
  starts_with p s = true -> str_includes s p = true.
Proof.
  intros H. destruct s; simpl; rewrite H; reflexivity.
Qed.

Lemma str_includes_app_l (b s p : jsstring) :
  str_includes s p = true -> str_includes (b ++ s) p = true.
Proof.
  intros H. induction b as [|c b IH]; simpl; [exact H|].
  rewrite IH. apply orb_true_r.
Qed.

(** The hash is a remainder modulo 100 of an absolute value. *)
Lemma hashUserId_range (userId : jsstring) : 0 <= hashUserId userId < 100.
Proof.
  unfold hashUserId. apply Z.rem_bound_pos; [apply Z.abs_nonneg | lia].
Qed.

Lemma toInt32_range (z : Z) : - 2 ^ 31 <= toInt32 z < 2 ^ 31.
Proof.
  unfold toInt32.
  pose proof (Z.mod_pos_bound z (2 ^ 32) ltac:(lia)) as Hm.
  destruct (z mod 2 ^ 32 <? 2 ^ 31) eqn:E.
  - apply Z.ltb_lt in E. lia.
  - apply Z.ltb_ge in E. lia.
Qed.

(** Every intermediate value of the loop of [hashUserId] is a 32-bit
    integer. *)
Lemma hash_loop_int32 (userId : jsstring) (h0 : Z) :
  - 2 ^ 31 <= h0 < 2 ^ 31 ->
  - 2 ^ 31 <= fold_left hashStep userId h0 < 2 ^ 31.
Proof.
  revert h0. induction userId as [|c u IH]; intros h0 H0; simpl; [exact H0|].
  apply IH. apply toInt32_range.
Qed.

(** The loop computes the polynomial hash [31 * hash + char], wrapped. *)
Lemma hashStep_31 (hash char : Z) : hashStep hash char = toInt32 (31 * hash + char).
Proof.
  unfold hashStep, toInt32.
  assert (E : ((if (hash * 2 ^ 5) mod 2 ^ 32 <? 2 ^ 31
                then (hash * 2 ^ 5) mod 2 ^ 32
                else (hash * 2 ^ 5) mod 2 ^ 32 - 2 ^ 32) - hash + char)
              mod 2 ^ 32 = (31 * hash + char) mod 2 ^ 32).
  { destruct ((hash * 2 ^ 5) mod 2 ^ 32 <? 2 ^ 31).
    - rewrite <- Zplus_mod_idemp_l, <- Zminus_mod_idemp_l, Z.mod_mod by lia.
      rewrite Zminus_mod_idemp_l, Zplus_mod_idemp_l. f_equal. lia.
    - replace ((hash * 2 ^ 5) mod 2 ^ 32 - 2 ^ 32 - hash + char)
        with ((hash * 2 ^ 5) mod 2 ^ 32 - hash + char + (-1) * 2 ^ 32) by lia.
      rewrite Z.mod_add by lia.
      rewrite <- Zplus_mod_idemp_l, <- Zminus_mod_idemp_l, Z.mod_mod by lia.
      rewrite Zminus_mod_idemp_l, Zplus_mod_idemp_l. f_equal. lia. }
  rewrite E. reflexivity.
Qed.

(** A remainder modulo 100 is never below a zero threshold. *)
Lemma small_ge_zero_threshold (h : Z) (s : bool) :
  0 <= h < 100 ->
  num_ge (number_of_Z h)
         (num_mul (num_div (S754_zero s) (number_of_Z 100)) (number_of_Z 100))
  = true.
Proof.
  intros Hh.
  assert (Hall : forallb (fun n =>
            num_ge (number_of_Z (Z.of_nat n))
              (num_mul (num_div (S754_zero s) (number_of_Z 100))
                       (number_of_Z 100)))
            (seq 0 100) = true)
    by (destruct s; vm_compute; reflexivity).
  rewrite forallb_forall in Hall.
  specialize (Hall (Z.to_nat h)).
  rewrite Z2Nat.id in Hall by lia.
  apply Hall. apply in_seq. lia.
Qed.

Lemma num_eq_zero_inv (p : number) :
  num_eq p (number_of_Z 0) = true -> exists s, p = S754_zero s.
Proof.
  destruct p as [s | s | | s m e]; intros H.
  - now exists s.
  - destruct s; discriminate.
  - discriminate.
  - destruct s; discriminate.
Qed.

Lemma num_eq_not_lt (p q : number) : num_eq p q = true -> num_lt p q = false.
Proof.
  unfold num_eq, num_lt, SFeqb, SFltb.
  destruct (SFcompare p q) as [[]|]; congruence.
Qed.

(* ================================================================== *)
(** * Properties of the rollout decision *)
(* ================================================================== *)

Section FeatureFlagProps.

Variable toUpperCase : jsstring -> jsstring.

Local Abbreviation config_of := (getAdminWorkBenchFeatureFlagConfig toUpperCase).
Local Abbreviation enabledForUser := (isAdminWorkBenchEnabledForUser toUpperCase).

(** The global switch is the test of one configuration string against
    ['true']. *)
Lemma isAdminWorkBenchEnabled_spec (env : Env) :
  isAdminWorkBenchEnabled env
  = str_eqb (getEnvironmentVariable env ENABLED_KEY (js "false")) (js "true").
Proof.
  unfold isAdminWorkBenchEnabled, getEnvironmentVariable.
  destruct (truthy_opt (process_env_get env ENABLED_KEY)) eqn:Hp.
  - destruct (process_env_get env ENABLED_KEY); [reflexivity | discriminate].
  - destruct (window_ENV env) as [w|]; [|reflexivity].
    destruct (window_ENV_get w ENABLED_KEY); reflexivity.
Qed.

(** The role filter of the code refuses exactly the callers that
    [rolePasses] leaves out. *)
Lemma role_filter_passes (config : FeatureFlagConfig)
    (userRole : option jsstring) :
  (notAll (targetUsers config) && truthy_opt userRole
   && negb (match userRole with
            | Some r => arr_includes (toArray (targetUsers config)) r
            | None => false
            end)) = false
  <-> rolePasses config userRole.
Proof.
  unfold rolePasses. split.
  - intros H.
    destruct (notAll (targetUsers config)) eqn:Hn.
    + destruct (truthy_opt userRole) eqn:Ht; [|now right; left].
      destruct userRole as [r|]; [|discriminate].
      simpl in H. apply negb_false_iff in H. apply arr_includes_In in H.
      right; right. now exists r.
    + left. destruct (targetUsers config) as [s|l]; [|discriminate].
      simpl in Hn. apply negb_false_iff in Hn. apply str_eqb_eq in Hn.
      now subst.
  - intros [Hall | [Hno | [r [Hr Hin]]]].
    + rewrite Hall. reflexivity.
    + rewrite Hno. now rewrite andb_false_r.
    + subst userRole. apply arr_includes_In in Hin. rewrite Hin.
      simpl. now rewrite andb_false_r.
Qed.

(** Past the global switch and the role filter, the verdict is the
    conjunction of the rollout gate and the beta list. *)
Lemma enabledForUser_after_role_filter
    (env : Env) (userId : jsstring) (userRole : option jsstring) :
  isAdminWorkBenchEnabled env = true ->
  rolePasses (config_of env) userRole ->
  enabledForUser env userId userRole
  = negb (rolloutExcludes (config_of env) userId)
    && match betaTesters (config_of env) with
       | [] => true
       | _ :: _ => arr_includes (betaTesters (config_of env)) userId
       end.
Proof.
  intros Hen Hrole. apply role_filter_passes in Hrole.
  unfold isAdminWorkBenchEnabledForUser. rewrite Hen. cbn [negb].
  cbv zeta. rewrite Hrole.
  fold (rolloutExcludes (config_of env) userId).
  destruct (rolloutExcludes (config_of env) userId); cbn [negb andb].
  - reflexivity.
  - destruct (betaTesters (config_of env)); reflexivity.
Qed.

Lemma enabledForUser_role_refused
    (env : Env) (userId : jsstring) (userRole : option jsstring) :
  ~ rolePasses (config_of env) userRole ->
  enabledForUser env userId userRole = false.
Proof.
  intros Hrole. unfold isAdminWorkBenchEnabledForUser.
  destruct (isAdminWorkBenchEnabled env); cbn [negb]; [|reflexivity].
  cbv zeta.
  match goal with |- (if ?c then _ else _) = _ => destruct c eqn:Hc end;
    [reflexivity|].
  apply role_filter_passes in Hc. contradiction.
Qed.

End FeatureFlagProps.

Section FeatureFlagClaims.

Variable toUpperCase : jsstring -> jsstring.

Local Abbreviation config_of :=
  (getAdminWorkBenchFeatureFlagConfig toUpperCase).
Local Abbreviation enabledForUser :=
  (isAdminWorkBenchEnabledForUser toUpperCase).

(** C1, as amended. With the feature globally enabled, the role filter
    passed and a non-empty beta-tester list, the verdict is [true] exactly
    when the user is on the beta list and the rollout gate does not turn
    the user away; a user who is not on the list is refused whatever the
    gate says. The rollout gate runs first and its refusal is final, also
    for a beta tester. *)
Theorem C1_beta_list_after_rollout_gate
    (env : Env) (userId : jsstring) (userRole : option jsstring) :
  isAdminWorkBenchEnabled env = true ->
  rolePasses (config_of env) userRole ->
  betaTesters (config_of env) <> [] ->
  (enabledForUser env userId userRole = true
   <-> In userId (betaTesters (config_of env))
       /\ rolloutExcludes (config_of env) userId = false)
  /\ (~ In userId (betaTesters (config_of env)) ->
      enabledForUser env userId userRole = false).
Proof.
  intros Hen Hrole Hbeta.
  rewrite (enabledForUser_after_role_filter toUpperCase env userId userRole
             Hen Hrole).
  destruct (betaTesters (config_of env)) as [|b bs] eqn:Hb; [congruence|].
  split.
  - rewrite andb_true_iff, negb_true_iff, arr_includes_In. tauto.
  - intros Hnot. apply arr_includes_not_In in Hnot. rewrite Hnot.
    apply andb_false_r.
Qed.

(** C3. With the feature globally enabled and no beta-tester list: a
    rollout percentage of 0 refuses every user, and a rollout percentage
    of 100 admits every user whose role passes the target-users filter. *)
Theorem C3_rollout_zero_and_hundred
    (env : Env) (userId : jsstring) (userRole : option jsstring) :
  isAdminWorkBenchEnabled env = true ->
  betaTesters (config_of env) = [] ->
  (num_eq (rolloutPercentage (config_of env)) (number_of_Z 0) = true ->
   enabledForUser env userId userRole = false)
  /\ (num_eq (rolloutPercentage (config_of env)) (number_of_Z 100) = true ->
      rolePasses (config_of env) userRole ->
      enabledForUser env userId userRole = true).
Proof.
  intros Hen Hbeta. split.
  - intros Hzero.
    destruct (role_filter_passes (config_of env) userRole) as [Hdec _].
    assert (Hex : rolloutExcludes (config_of env) userId = true).
    { unfold rolloutExcludes.
      apply num_eq_zero_inv in Hzero as [s Hs]. rewrite Hs.
      rewrite small_ge_zero_threshold.
      - destruct s; reflexivity.
      - pose proof (hashUserId_range userId) as Hr.
        rewrite Z.rem_small by lia. exact Hr. }
    match type of Hdec with (?c = false -> _) => destruct c eqn:Hc end.
    + apply enabledForUser_role_refused. intros Hp.
      apply role_filter_passes in Hp. congruence.
    + rewrite (enabledForUser_after_role_filter toUpperCase env userId
                 userRole Hen (Hdec eq_refl)).
      rewrite Hex. reflexivity.
  - intros Hfull Hrole.
    rewrite (enabledForUser_after_role_filter toUpperCase env userId
               userRole Hen Hrole).
    unfold rolloutExcludes. rewrite (num_eq_not_lt _ _ Hfull), Hbeta.
    reflexivity.
Qed.

(** C4. When the global enable flag is not the exact string ['true'],
    [isAdminWorkBenchEnabled] is false and [isAdminWorkBenchEnabledForUser]
    returns false for every user, role, percentage, target and beta
    list. *)
Theorem C4_global_switch_off
    (env : Env) (userId : jsstring) (userRole : option jsstring) :
  getEnvironmentVariable env ENABLED_KEY (js "false") <> js "true" ->
  isAdminWorkBenchEnabled env = false
  /\ enabledForUser env userId userRole = false.
Proof.
  intros Hflag.
  assert (Hoff : isAdminWorkBenchEnabled env = false).
  { rewrite isAdminWorkBenchEnabled_spec. now apply str_eqb_neq. }
  split; [exact Hoff|].
  unfold isAdminWorkBenchEnabledForUser. rewrite Hoff. reflexivity.
Qed.

(** C5. [hashUserId] is a function of the user id with values from 0 to
    99, so two evaluations on the same id agree; and the decision, rollout
    gate included, is a function of the environment, the id and the role,
    so repeated calls with the same id and configuration agree. *)
Theorem C5_hash_deterministic_in_range (userId : jsstring) :
  0 <= hashUserId userId <= 99
  /\ (forall userId', userId' = userId ->
      hashUserId userId' = hashUserId userId)
  /\ (forall config config', config' = config ->
      rolloutExcludes config' userId = rolloutExcludes config userId)
  /\ (forall env env' userId' userRole userRole',
      env' = env -> userId' = userId -> userRole' = userRole ->
      enabledForUser env' userId' userRole'
      = enabledForUser env userId userRole).
Proof.
  pose proof (hashUserId_range userId) as Hr.
  repeat split; try lia; intros; subst; reflexivity.
Qed.

(** The target list [["ADMIN"]] refuses the role CLIENT, whatever the
    switch and the percentage are. *)
Lemma admin_target_refuses_client (env : Env) (userId : jsstring) :
  targetUsers (config_of env) = Arr [js "ADMIN"] ->
  enabledForUser env userId (Some (js "CLIENT")) = false.
Proof.
  intros Ht. apply enabledForUser_role_refused.
  unfold rolePasses. rewrite Ht.
  intros [Hall | [Hno | [r [Hr Hin]]]]; try discriminate.
  injection Hr as <-. simpl in Hin. destruct Hin as [Hin | []].
  discriminate.
Qed.

(** C6. With the feature globally enabled, a rollout percentage of 100 and
    the target list [["ADMIN"]], a caller of role CLIENT is refused. *)
Theorem C6_admin_target_refuses_client (env : Env) (userId : jsstring) :
  isAdminWorkBenchEnabled env = true ->
  rolloutPercentage (config_of env) = number_of_Z 100 ->
  targetUsers (config_of env) = Arr [js "ADMIN"] ->
  enabledForUser env userId (Some (js "CLIENT")) = false.
Proof.
  intros _ _ Ht. now apply admin_target_refuses_client.
Qed.

Lemma parseInt_nonNumeric (raw : jsstring) :
  nonNumeric raw -> parseInt raw = NaN.
Proof.
  unfold nonNumeric, parseInt.
  destruct (stripSign (trimStart raw)) as [neg s2]. simpl.
  intros ->. reflexivity.
Qed.

(** C8. When the rollout-percentage variable holds a non-numeric value,
    the configured percentage is NaN, [NaN < 100] is false, the rollout
    gate turns nobody away, and the decision is the one of an environment
    that differs only by a percentage of 100. The decision is then open
    after the global gate: it is true exactly when the feature is globally
    enabled, the role passes the target filter and the user is on the beta
    list if there is one, whatever the user's hash. *)
Theorem C8_non_numeric_percentage_skips_gate
    (env env100 : Env) (userId : jsstring) (userRole : option jsstring) :
  nonNumeric (getEnvironmentVariable env ROLLOUT_KEY (js "100")) ->
  rolloutPercentage (config_of env100) = number_of_Z 100 ->
  isAdminWorkBenchEnabled env100 = isAdminWorkBenchEnabled env ->
  targetUsers (config_of env100) = targetUsers (config_of env) ->
  betaTesters (config_of env100) = betaTesters (config_of env) ->
  rolloutPercentage (config_of env) = NaN
  /\ num_lt NaN (number_of_Z 100) = false
  /\ rolloutExcludes (config_of env) userId = false
  /\ enabledForUser env userId userRole
     = enabledForUser env100 userId userRole
  /\ (enabledForUser env userId userRole = true
      <-> isAdminWorkBenchEnabled env = true
          /\ rolePasses (config_of env) userRole
          /\ (betaTesters (config_of env) = []
              \/ In userId (betaTesters (config_of env))))
  /\ (enabledForUser env100 userId userRole = true
      <-> isAdminWorkBenchEnabled env = true
          /\ rolePasses (config_of env) userRole
          /\ (betaTesters (config_of env) = []
              \/ In userId (betaTesters (config_of env)))).
Proof.
  intros Hraw H100 Hen Ht Hb.
  assert (Hnan : rolloutPercentage (config_of env) = NaN)
    by (apply parseInt_nonNumeric; exact Hraw).
  assert (Hgate : rolloutExcludes (config_of env) userId = false)
    by (unfold rolloutExcludes; rewrite Hnan; reflexivity).
  assert (Hsame : enabledForUser env userId userRole
                  = enabledForUser env100 userId userRole).
  { unfold isAdminWorkBenchEnabledForUser. cbv zeta.
    rewrite Hen, Ht, Hb, Hnan, H100. reflexivity. }
  assert (Hopen : enabledForUser env userId userRole = true
                  <-> isAdminWorkBenchEnabled env = true
                      /\ rolePasses (config_of env) userRole
                      /\ (betaTesters (config_of env) = []
                          \/ In userId (betaTesters (config_of env)))).
  { split.
    - intros Htrue.
      assert (Hglobal : isAdminWorkBenchEnabled env = true).
      { destruct (isAdminWorkBenchEnabled env) eqn:E; [reflexivity|].
        unfold isAdminWorkBenchEnabledForUser in Htrue.
        rewrite E in Htrue. discriminate. }
      assert (Hrole : rolePasses (config_of env) userRole).
      { apply role_filter_passes.
        match goal with |- ?c = false => destruct c eqn:Hc end;
          [|reflexivity].
        rewrite enabledForUser_role_refused in Htrue; [discriminate|].
        intros Hp. apply role_filter_passes in Hp. congruence. }
      split; [exact Hglobal|]. split; [exact Hrole|].
      rewrite (enabledForUser_after_role_filter toUpperCase env userId
                 userRole Hglobal Hrole), Hgate in Htrue.
      destruct (betaTesters (config_of env)) as [|b bs]; [now left|].
      right. now apply arr_includes_In.
    - intros [Hglobal [Hrole Hbeta]].
      rewrite (enabledForUser_after_role_filter toUpperCase env userId
                 userRole Hglobal Hrole), Hgate.
      destruct (betaTesters (config_of env)) as [|b bs] eqn:E;
        [reflexivity|].
      destruct Hbeta as [Hnil | Hin]; [discriminate|].
      now apply arr_includes_In. }
  split; [exact Hnan|]. split; [reflexivity|]. split; [exact Hgate|].
  split; [exact Hsame|]. split; [exact Hopen|].
  rewrite <- Hsame. exact Hopen.
Qed.

(** C9. The target-users value ['beta'] is returned unchanged by
    [parseTargetUsers], and the decision then treats it as the one-element
    role list [["beta"]]: a caller who gives a role other than ['beta'] is
    refused, beta testers included, since the role filter runs before the
    beta list is read. A role is given when it is a non-empty string. *)
Theorem C9_beta_target_is_a_role_name
    (env : Env) (userId : jsstring) (r : jsstring) :
  getEnvironmentVariable env TARGET_KEY (js "all") = js "beta" ->
  r <> [] ->
  r <> js "beta" ->
  parseTargetUsers toUpperCase (js "beta") = Str (js "beta")
  /\ toArray (targetUsers (config_of env)) = [js "beta"]
  /\ enabledForUser env userId (Some r) = false.
Proof.
  intros Hraw Hr Hnb.
  assert (Hparse : parseTargetUsers toUpperCase (js "beta") = Str (js "beta"))
    by reflexivity.
  assert (Ht : targetUsers (config_of env) = Str (js "beta")).
  { unfold getAdminWorkBenchFeatureFlagConfig. cbn [targetUsers].
    rewrite Hraw. exact Hparse. }
  split; [|split].
  - exact Hparse.
  - rewrite Ht. reflexivity.
  - apply enabledForUser_role_refused. unfold rolePasses. rewrite Ht.
    intros [Hall | [Hno | [r' [Hr' Hin]]]].
    + discriminate.
    + simpl in Hno. apply truthy_nonempty in Hr. congruence.
    + injection Hr' as <-. simpl in Hin. destruct Hin as [Hin | []].
      congruence.
Qed.

End FeatureFlagClaims.

(* ================================================================== *)
(** * Properties of the hook *)
(* ================================================================== *)

Section HookProps.

Variable toUpperCase : jsstring -> jsstring.

Lemma same_value_eq (a b : option jsstring) :
  same_value a b = true -> a = b.
Proof.
  destruct a as [x|], b as [y|]; simpl; intros H; try discriminate.
  - apply str_eqb_eq in H. now subst.
  - reflexivity.
Qed.

Lemma deps_eqb_eq (a b : Deps) : deps_eqb a b = true -> a = b.
Proof.
  destruct a as [a1 a2], b as [b1 b2]. unfold deps_eqb. simpl.
  intros H. apply andb_true_iff in H as [H1 H2].
  apply same_value_eq in H1, H2. now subst.
Qed.

Lemma compute_ok (env : Env) (session : option Session) :
  verdict_ok (session_user_id session) (Hook.compute toUpperCase env session).
Proof.
  unfold verdict_ok, Hook.compute. cbn.
  split; [reflexivity|].
  intros Hno. rewrite Hno. split; [reflexivity | apply andb_false_r].
Qed.

Lemma useAdminWorkBenchFeature_ok (env : Env) (session : option Session)
    (cell : MemoCell Hook.AdminWorkBenchFeature) :
  cell_ok cell ->
  verdict_ok (session_user_id session)
    (fst (Hook.useAdminWorkBenchFeature toUpperCase env session cell))
  /\ cell_ok (snd (Hook.useAdminWorkBenchFeature toUpperCase env session cell)).
Proof.
  intros Hcell. unfold Hook.useAdminWorkBenchFeature, useMemo.
  destruct cell as [[prev v]|].
  - destruct (deps_eqb prev (session_user_id session, session_user_role session))
      eqn:Hd.
    + apply deps_eqb_eq in Hd. subst prev. simpl in *. split; exact Hcell.
    + simpl. split; apply compute_ok.
  - simpl. split; apply compute_ok.
Qed.

Lemma renders_ok (inputs : list (Env * option Session)) :
  forall (cell : MemoCell Hook.AdminWorkBenchFeature) (n : nat)
         (env : Env) (session : option Session),
    cell_ok cell ->
    nth_error inputs n = Some (env, session) ->
    exists v,
      nth_error (Hook.renders toUpperCase cell inputs) n = Some v
      /\ verdict_ok (session_user_id session) v.
Proof.
  induction inputs as [|[env0 session0] rest IH];
    intros cell n env session Hcell Hn.
  - destruct n; discriminate.
  - destruct (useAdminWorkBenchFeature_ok env0 session0 cell Hcell)
      as [Hv Hcell'].
    simpl.
    destruct (Hook.useAdminWorkBenchFeature toUpperCase env0 session0 cell)
      as [v cell'] eqn:Hstep.
    destruct n as [|n]; simpl in *.
    + injection Hn as <- <-. now exists v.
    + now apply (IH cell' n env session).
Qed.

(** C10. At every render of a component that uses the hook, whatever the
    sessions and environments of the renders so far, the hook returns a
    value with [enabled = globalEnabled && userEnabled]; and when the
    session of that render carries no user id, [userEnabled] and [enabled]
    are both false. *)
Theorem C10_hook_verdict
    (inputs : list (Env * option Session)) (n : nat)
    (env : Env) (session : option Session) :
  nth_error inputs n = Some (env, session) ->
  exists v,
    nth_error (Hook.renders toUpperCase None inputs) n = Some v
    /\ Hook.enabled v = Hook.globalEnabled v && Hook.userEnabled v
    /\ (truthy_opt (session_user_id session) = false ->
        Hook.userEnabled v = false /\ Hook.enabled v = false).
Proof.
  intros Hn.
  destruct (renders_ok inputs None n env session I Hn) as [v [Hv Hok]].
  exists v. split; [exact Hv | exact Hok].
Qed.

End HookProps.

(* ================================================================== *)
(** * Properties of the deprecated client endpoints *)
(* ================================================================== *)

Lemma headers_has_set_same (name : jsstring) (v : HeaderValue) (r : Response) :
  headers_has name (headers_set name v r) = true.
Proof.
  unfold headers_has, headers_set. simpl.
  rewrite existsb_app. simpl. rewrite str_eqb_refl. simpl.
  apply orb_true_r.
Qed.

Lemma headers_has_set_kept (name other : jsstring) (v : HeaderValue)
    (r : Response) :
  headers_has name r = true -> headers_has name (headers_set other v r) = true.
Proof.
  unfold headers_has, headers_set. simpl. intros H.
  rewrite existsb_app. simpl.
  destruct (str_eqb other name) eqn:E; [now rewrite orb_true_r|].
  rewrite orb_false_r.
  apply existsb_exists in H as [h [Hin Hh]].
  apply existsb_exists. exists h. split; [|exact Hh].
  apply filter_In. split; [exact Hin|].
  apply str_eqb_eq in Hh. rewrite Hh.
  apply negb_true_iff. apply str_eqb_neq. intros Heq.
  apply str_eqb_neq in E. congruence.
Qed.

Lemma clients_addDeprecationHeaders_has (w : World) (r : Response) :
  has_deprecation_headers (ClientsRoute.addDeprecationHeaders w r) = true.
Proof.
  unfold has_deprecation_headers, ClientsRoute.addDeprecationHeaders.
  cbv zeta.
  repeat (rewrite andb_true_iff); repeat split;
    repeat first [ apply headers_has_set_same | apply headers_has_set_kept ].
Qed.

Lemma client_by_id_addDeprecationHeaders_has (w : World) (r : Response) :
  has_deprecation_headers (ClientByIdRoute.addDeprecationHeaders w r) = true.
Proof.
  unfold has_deprecation_headers, ClientByIdRoute.addDeprecationHeaders.
  cbv zeta.
  repeat (rewrite andb_true_iff); repeat split;
    repeat first [ apply headers_has_set_same | apply headers_has_set_kept ].
Qed.

(** [addDeprecationHeaders] changes neither the status nor the body. *)
Lemma clients_addDeprecationHeaders_status (w : World) (r : Response) :
  status (ClientsRoute.addDeprecationHeaders w r) = status r.
Proof. reflexivity. Qed.

Lemma client_by_id_addDeprecationHeaders_status (w : World) (r : Response) :
  status (ClientByIdRoute.addDeprecationHeaders w r) = status r.
Proof. reflexivity. Qed.

(** One step through a handler: the outcome of the next collaborator call,
    or the next branch. *)
#[local] Ltac handler_step :=
  match goal with
  | |- context [bind ?c _] => destruct c; cbn [bind]
  | |- context [if ?c then _ else _] => destruct c
  | |- context [match ?c with Some _ => _ | None => _ end] => destruct c
  end.

#[local] Ltac handler_cases := repeat handler_step; cbn [try_catch].

(** The create, update and delete handlers decorate every response they
    return, the one of the [catch] block included. *)
Lemma clients_POST_always_decorated (w : World) :
  has_deprecation_headers (ClientsRoute.POST w) = true.
Proof.
  unfold ClientsRoute.POST.
  handler_cases; apply clients_addDeprecationHeaders_has.
Qed.

Lemma client_by_id_PATCH_always_decorated (w : World) (params_id : jsstring) :
  has_deprecation_headers (ClientByIdRoute.PATCH w params_id) = true.
Proof.
  unfold ClientByIdRoute.PATCH.
  handler_cases; apply client_by_id_addDeprecationHeaders_has.
Qed.

Lemma client_by_id_DELETE_always_decorated (w : World) (params_id : jsstring) :
  has_deprecation_headers (ClientByIdRoute.DELETE w params_id) = true.
Proof.
  unfold ClientByIdRoute.DELETE.
  handler_cases; apply client_by_id_addDeprecationHeaders_has.
Qed.

(** The two GET handlers decorate every response but the one of their
    [catch] block: a response without the headers has status 500. *)
Lemma clients_GET_decorated_unless_500 (w : World) :
  has_deprecation_headers (ClientsRoute.GET w) = true
  \/ (status (ClientsRoute.GET w) = 500
      /\ has_deprecation_headers (ClientsRoute.GET w) = false).
Proof.
  unfold ClientsRoute.GET.
  handler_cases; try (left; apply clients_addDeprecationHeaders_has);
    right; split; reflexivity.
Qed.

Lemma client_by_id_GET_decorated_unless_500 (w : World) (params_id : jsstring) :
  has_deprecation_headers (ClientByIdRoute.GET w params_id) = true
  \/ (status (ClientByIdRoute.GET w params_id) = 500
      /\ has_deprecation_headers (ClientByIdRoute.GET w params_id) = false).
Proof.
  unfold ClientByIdRoute.GET.
  handler_cases; try (left; apply client_by_id_addDeprecationHeaders_has);
    right; split; reflexivity.
Qed.

(** Whenever the body of a GET handler throws, the answer is the bare 500
    response. *)
Lemma clients_GET_on_throw (w : World) :
  requireTenantContext w = Throw ->
  ClientsRoute.GET w
  = NextResponse_json (error_body "Failed to list clients") (Some 500).
Proof.
  intros H. unfold ClientsRoute.GET. rewrite H. reflexivity.
Qed.

(** C2. The list and detail GET handlers answer a failure inside their
    [try] block (a rejected Prisma call, a throwing [requireTenantContext])
    with a 500 response that carries none of the four deprecation headers,
    while the create, update and delete handlers decorate their 500 response
    in the same situation. *)
Theorem C2_GET_failure_response_is_undecorated :
  status (ClientsRoute.GET world_no_tenant_context) = 500
  /\ has_deprecation_headers (ClientsRoute.GET world_no_tenant_context) = false
  /\ status (ClientsRoute.GET world_database_down) = 500
  /\ headers (ClientsRoute.GET world_database_down)
     = [(js "content-type", HText (js "application/json"))]
  /\ has_deprecation_headers (ClientsRoute.GET world_database_down) = false
  /\ status (ClientByIdRoute.GET world_database_down (js "c1")) = 500
  /\ has_deprecation_headers
       (ClientByIdRoute.GET world_database_down (js "c1")) = false
  /\ status (ClientsRoute.POST world_database_down) = 500
  /\ has_deprecation_headers (ClientsRoute.POST world_database_down) = true
  /\ status (ClientByIdRoute.DELETE world_database_down (js "c1")) = 500
  /\ has_deprecation_headers
       (ClientByIdRoute.DELETE world_database_down (js "c1")) = true.
Proof.
  repeat split; vm_compute; reflexivity.
Qed.

(* ================================================================== *)
(** * Properties of the legacy redirects *)
(* ================================================================== *)

Lemma status_code_3xx (st : LegacyRedirect.RedirectStatus) :
  300 <= LegacyRedirect.status_code st <= 399.
Proof. destruct st; simpl; lia. Qed.

Lemma expectations_survive_origin (base loc : jsstring) (subs : list jsstring) :
  forallb (fun p => str_includes loc p) subs = true ->
  forallb (fun p => str_includes (base ++ loc) p) subs = true.
Proof.
  induction subs as [|p subs IH]; simpl; [reflexivity|].
  intros H. apply andb_true_iff in H as [Hp Hs].
  rewrite (str_includes_app_l base loc p Hp). simpl. now apply IH.
Qed.

(** C7. A GET on each legacy admin path is answered by a redirect whose
    status is a 3xx code and whose target is [/admin/users] with the fixed
    query: [tab=rbac] for permissions and roles, [tab=dashboard&role=CLIENT]
    for clients, [tab=dashboard&role=TEAM_MEMBER] for team; and the URL the
    browser then shows satisfies the URL assertions of the end-to-end test
    for that path, whatever the origin. *)
Theorem C7_legacy_paths_redirect (st : LegacyRedirect.RedirectStatus) :
  300 <= LegacyRedirect.status_code st <= 399
  /\ LegacyRedirect.handleGET st (js "/admin/permissions")
     = Some {| LegacyRedirect.redirect_status := LegacyRedirect.status_code st;
               LegacyRedirect.location := js "/admin/users?tab=rbac" |}
  /\ LegacyRedirect.handleGET st (js "/admin/roles")
     = Some {| LegacyRedirect.redirect_status := LegacyRedirect.status_code st;
               LegacyRedirect.location := js "/admin/users?tab=rbac" |}
  /\ LegacyRedirect.handleGET st (js "/admin/clients")
     = Some {| LegacyRedirect.redirect_status := LegacyRedirect.status_code st;
               LegacyRedirect.location :=
                 js "/admin/users?tab=dashboard&role=CLIENT" |}
  /\ LegacyRedirect.handleGET st (js "/admin/team")
     = Some {| LegacyRedirect.redirect_status := LegacyRedirect.status_code st;
               LegacyRedirect.location :=
                 js "/admin/users?tab=dashboard&role=TEAM_MEMBER" |}
  /\ Forall
       (fun path =>
          match LegacyRedirect.handleGET st path with
          | Some r =>
              forall base : jsstring,
                LegacyRedirect.url_expectations_met path
                  (LegacyRedirect.page_url base r) = true
          | None => False
          end)
       LegacyRedirect.legacyPaths.
Proof.
  split; [apply status_code_3xx|].
  split; [reflexivity|]. split; [reflexivity|].
  split; [reflexivity|]. split; [reflexivity|].
  unfold LegacyRedirect.legacyPaths.
  repeat apply Forall_cons; try apply Forall_nil;
    (intros base; unfold LegacyRedirect.url_expectations_met,
                         LegacyRedirect.page_url;
     apply expectations_survive_origin; vm_compute; reflexivity).
Qed.

(* ================================================================== *)
(** * The claims at concrete inputs *)
(* ================================================================== *)

(** The claim C1 as the spec words it fails: with the feature enabled for
    half of the users and the beta testers alice and u1, the administrator
    u1 is on the beta list, [hashUserId "u1"] is 76, not below 50, and the
    verdict is false. *)
Lemma C1_beta_member_refused_by_rollout_gate :
  isAdminWorkBenchEnabled env_half_beta = true
  /\ rolePasses (getAdminWorkBenchFeatureFlagConfig asciiToUpperCase env_half_beta)
                (Some (js "ADMIN"))
  /\ betaTesters (getAdminWorkBenchFeatureFlagConfig asciiToUpperCase env_half_beta)
     = [js "alice"; js "u1"]
  /\ rolloutPercentage
       (getAdminWorkBenchFeatureFlagConfig asciiToUpperCase env_half_beta)
     = number_of_Z 50
  /\ hashUserId (js "u1") = 76
  /\ ~ (isAdminWorkBenchEnabledForUser asciiToUpperCase env_half_beta
          (js "u1") (Some (js "ADMIN")) = true
        <-> In (js "u1")
              (betaTesters
                 (getAdminWorkBenchFeatureFlagConfig asciiToUpperCase
                    env_half_beta))).
Proof.
  split; [reflexivity|]. split; [left; reflexivity|].
  split; [reflexivity|]. split; [reflexivity|]. split; [reflexivity|].
  intros [_ H].
  assert (Hin : In (js "u1")
                  (betaTesters
                     (getAdminWorkBenchFeatureFlagConfig asciiToUpperCase
                        env_half_beta)))
    by (right; left; reflexivity).
  apply H in Hin. vm_compute in Hin. discriminate.
Qed.

Lemma C1_witness :
  (isAdminWorkBenchEnabledForUser asciiToUpperCase env_half_beta (js "alice")
     (Some (js "ADMIN")) = true
   <-> In (js "alice")
         (betaTesters
            (getAdminWorkBenchFeatureFlagConfig asciiToUpperCase env_half_beta))
       /\ rolloutExcludes
            (getAdminWorkBenchFeatureFlagConfig asciiToUpperCase env_half_beta)
            (js "alice") = false)
  /\ (~ In (js "alice")
        (betaTesters
           (getAdminWorkBenchFeatureFlagConfig asciiToUpperCase env_half_beta)) ->
      isAdminWorkBenchEnabledForUser asciiToUpperCase env_half_beta (js "alice")
        (Some (js "ADMIN")) = false).
Proof.
  apply (C1_beta_list_after_rollout_gate asciiToUpperCase env_half_beta
           (js "alice") (Some (js "ADMIN"))).
  - reflexivity.
  - left. reflexivity.
  - vm_compute. discriminate.
Defined.

Lemma C3_witness :
  isAdminWorkBenchEnabledForUser asciiToUpperCase env_rollout_zero (js "alice")
    (Some (js "ADMIN")) = false
  /\ isAdminWorkBenchEnabledForUser asciiToUpperCase env_defaults (js "u1")
       (Some (js "ADMIN")) = true.
Proof.
  split.
  - apply (proj1 (C3_rollout_zero_and_hundred asciiToUpperCase env_rollout_zero
                    (js "alice") (Some (js "ADMIN")) eq_refl eq_refl)).
    reflexivity.
  - apply (proj2 (C3_rollout_zero_and_hundred asciiToUpperCase env_defaults
                    (js "u1") (Some (js "ADMIN")) eq_refl eq_refl)).
    + reflexivity.
    + left. reflexivity.
Defined.

Lemma C4_witness :
  isAdminWorkBenchEnabled env_switch_capitals = false
  /\ isAdminWorkBenchEnabledForUser asciiToUpperCase env_switch_capitals
       (js "alice") (Some (js "ADMIN")) = false.
Proof.
  apply (C4_global_switch_off asciiToUpperCase env_switch_capitals (js "alice")
           (Some (js "ADMIN"))).
  vm_compute. discriminate.
Defined.

Lemma C5_witness :
  0 <= hashUserId (js "alice") <= 99
  /\ hashUserId (js "alice") = hashUserId (js "alice")
  /\ isAdminWorkBenchEnabledForUser asciiToUpperCase env_half_beta (js "alice")
       None
     = isAdminWorkBenchEnabledForUser asciiToUpperCase env_half_beta
         (js "alice") None.
Proof.
  destruct (C5_hash_deterministic_in_range asciiToUpperCase (js "alice"))
    as [Hrange [Hhash [_ Hdecision]]].
  split; [exact Hrange|]. split.
  - apply Hhash. reflexivity.
  - apply Hdecision; reflexivity.
Defined.

Lemma C6_witness :
  isAdminWorkBenchEnabledForUser asciiToUpperCase env_admins_only (js "alice")
    (Some (js "CLIENT")) = false.
Proof.
  apply (C6_admin_target_refuses_client asciiToUpperCase env_admins_only
           (js "alice")); reflexivity.
Defined.

Lemma C8_witness :
  rolloutPercentage
    (getAdminWorkBenchFeatureFlagConfig asciiToUpperCase env_rollout_abc_open)
  = NaN
  /\ num_lt NaN (number_of_Z 100) = false
  /\ hashUserId (js "u1") = 76
  /\ rolloutExcludes
       (getAdminWorkBenchFeatureFlagConfig asciiToUpperCase
          env_rollout_abc_open) (js "u1") = false
  /\ isAdminWorkBenchEnabledForUser asciiToUpperCase env_rollout_abc_open
       (js "u1") (Some (js "ADMIN"))
     = isAdminWorkBenchEnabledForUser asciiToUpperCase env_defaults (js "u1")
         (Some (js "ADMIN"))
  /\ isAdminWorkBenchEnabledForUser asciiToUpperCase env_rollout_abc_open
       (js "u1") (Some (js "ADMIN")) = true
  /\ isAdminWorkBenchEnabledForUser asciiToUpperCase env_defaults (js "u1")
       (Some (js "ADMIN")) = true.
Proof.
  destruct (C8_non_numeric_percentage_skips_gate asciiToUpperCase
              env_rollout_abc_open env_defaults (js "u1") (Some (js "ADMIN"))
              eq_refl eq_refl eq_refl eq_refl eq_refl)
    as [Hnan [Hlt [Hgate [Hsame [Hopen Hopen100]]]]].
  assert (Hconds :
            isAdminWorkBenchEnabled env_rollout_abc_open = true
            /\ rolePasses
                 (getAdminWorkBenchFeatureFlagConfig asciiToUpperCase
                    env_rollout_abc_open) (Some (js "ADMIN"))
            /\ (betaTesters
                   (getAdminWorkBenchFeatureFlagConfig asciiToUpperCase
                      env_rollout_abc_open) = []
                \/ In (js "u1")
                     (betaTesters
                        (getAdminWorkBenchFeatureFlagConfig asciiToUpperCase
                           env_rollout_abc_open)))).
  { split; [reflexivity|]. split; [left; reflexivity | left; reflexivity]. }
  split; [exact Hnan|]. split; [exact Hlt|]. split; [reflexivity|].
  split; [exact Hgate|]. split; [exact Hsame|].
  split; [apply Hopen; exact Hconds | apply Hopen100; exact Hconds].
Defined.

Lemma C9_witness :
  parseTargetUsers asciiToUpperCase (js "beta") = Str (js "beta")
  /\ toArray
       (targetUsers
          (getAdminWorkBenchFeatureFlagConfig asciiToUpperCase env_target_beta))
     = [js "beta"]
  /\ isAdminWorkBenchEnabledForUser asciiToUpperCase env_target_beta
       (js "alice") (Some (js "ADMIN")) = false.
Proof.
  apply (C9_beta_target_is_a_role_name asciiToUpperCase env_target_beta
           (js "alice") (js "ADMIN")).
  - reflexivity.
  - discriminate.
  - vm_compute. discriminate.
Defined.

Lemma C10_witness :
  exists v,
    nth_error
      (Hook.renders asciiToUpperCase None
         [(env_defaults, Some {| user := Some {| id := Some (js "u1");
                                                 role := Some (js "ADMIN") |} |});
          (env_defaults, None)]) 1 = Some v
    /\ Hook.enabled v = Hook.globalEnabled v && Hook.userEnabled v
    /\ (truthy_opt (session_user_id None) = false ->
        Hook.userEnabled v = false /\ Hook.enabled v = false).
Proof.
  apply (C10_hook_verdict asciiToUpperCase
           [(env_defaults, Some {| user := Some {| id := Some (js "u1");
                                                   role := Some (js "ADMIN") |} |});
            (env_defaults, None)] 1 env_defaults None).
  reflexivity.
Defined.

(* ================================================================== *)
(** * Remarks on edge cases *)
(* ================================================================== *)

(** An empty role is falsy: the role filter is skipped for it as it is for
    an absent role, also when the target is a role list. *)
Remark empty_role_skips_role_filter :
  isAdminWorkBenchEnabledForUser asciiToUpperCase env_target_beta_no_list
    (js "alice") (Some (js "")) = true
  /\ isAdminWorkBenchEnabledForUser asciiToUpperCase env_target_beta_no_list
       (js "alice") None = true.
Proof. split; reflexivity. Qed.

(** The threshold is computed as [(rolloutPercentage / 100) * 100] in
    binary64: for 7 it is the double just above 7, so a user whose hash is
    exactly 7 is still admitted at a rollout of 7 percent. *)
Remark rollout_seven_admits_hash_seven :
  hashUserId (js "u13") = 7
  /\ num_lt (number_of_Z 7)
            (num_mul (num_div (number_of_Z 7) (number_of_Z 100))
                     (number_of_Z 100)) = true
  /\ isAdminWorkBenchEnabledForUser asciiToUpperCase env_rollout_seven
       (js "u13") None = true.
Proof. repeat split. Qed.

(* ================================================================== *)
(** * Further properties of the hash *)
(* ================================================================== *)

Lemma toInt32_congr (a b : Z) :
  a mod 2 ^ 32 = b mod 2 ^ 32 -> toInt32 a = toInt32 b.
Proof. unfold toInt32. intros ->. reflexivity. Qed.

Lemma toInt32_mod (z : Z) : toInt32 z mod 2 ^ 32 = z mod 2 ^ 32.
Proof.
  unfold toInt32.
  destruct (z mod 2 ^ 32 <? 2 ^ 31).
  - apply Z.mod_mod. lia.
  - replace (z mod 2 ^ 32 - 2 ^ 32) with (z mod 2 ^ 32 + (-1) * 2 ^ 32) by lia.
    rewrite Z.mod_add by lia. apply Z.mod_mod. lia.
Qed.

(** Wrapping after every step is wrapping once at the end. *)
Lemma hash_loop_poly (s : jsstring) (a : Z) :
  fold_left hashStep s (toInt32 a)
  = toInt32 (fold_left (fun h c => 31 * h + c) s a).
Proof.
  revert a. induction s as [|c s IH]; intros a; simpl; [reflexivity|].
  rewrite hashStep_31.
  rewrite <- IH. f_equal. apply toInt32_congr.
  rewrite <- Zplus_mod_idemp_l, <- Zmult_mod_idemp_r, toInt32_mod.
  rewrite Zmult_mod_idemp_r, Zplus_mod_idemp_l. reflexivity.
Qed.

(** X1. [hashUserId] is the 31-polynomial of the code units of the id,
    wrapped once to a signed 32-bit integer, in absolute value, modulo
    100. *)
Theorem hashUserId_closed_form (userId : jsstring) :
  hashUserId userId = Z.rem (Z.abs (toInt32 (poly31 userId))) 100.
Proof.
  unfold hashUserId, poly31. cbv zeta.
  change 0 with (toInt32 0) at 1. rewrite hash_loop_poly. reflexivity.
Qed.

(* ================================================================== *)
(** * Further properties of the rollout gate *)
(* ================================================================== *)

(** The gate, tabulated over the whole percentages and the hash values. *)
Lemma rollout_gate_table :
  forallb (fun p =>
    forallb (fun h =>
      Bool.eqb
        (num_lt (number_of_Z (Z.of_nat p)) (number_of_Z 100)
         && num_ge (number_of_Z (Z.of_nat h))
                   (num_mul (num_div (number_of_Z (Z.of_nat p)) (number_of_Z 100))
                            (number_of_Z 100)))
        (negb ((Z.of_nat h <? Z.of_nat p)
               || ((Z.of_nat h =? Z.of_nat p)
                   && existsb (Z.eqb (Z.of_nat p)) roundedUpPercentages))))
      (seq 0 100))
    (seq 0 101) = true.
Proof. vm_compute. reflexivity. Qed.

Lemma rollout_gate_whole (p h : Z) :
  0 <= p <= 100 -> 0 <= h < 100 ->
  num_lt (number_of_Z p) (number_of_Z 100)
  && num_ge (number_of_Z h)
            (num_mul (num_div (number_of_Z p) (number_of_Z 100))
                     (number_of_Z 100))
  = negb ((h <? p) || ((h =? p) && existsb (Z.eqb p) roundedUpPercentages)).
Proof.
  intros Hp Hh.
  pose proof rollout_gate_table as T.
  rewrite forallb_forall in T.
  specialize (T (Z.to_nat p)). rewrite forallb_forall in T.
  specialize (T ltac:(apply in_seq; lia) (Z.to_nat h) ltac:(apply in_seq; lia)).
  rewrite !Z2Nat.id in T by lia.
  apply Bool.eqb_prop in T. exact T.
Qed.

(** The gate for a configuration with a whole percentage, as a boolean. *)
Lemma rolloutExcludes_whole
    (config : FeatureFlagConfig) (userId : jsstring) (p : Z) :
  0 <= p <= 100 ->
  rolloutPercentage config = number_of_Z p ->
  rolloutExcludes config userId
  = negb ((hashUserId userId <? p)
          || ((hashUserId userId =? p)
              && existsb (Z.eqb p) roundedUpPercentages)).
Proof.
  intros Hp Hcfg.
  pose proof (hashUserId_range userId) as Hh.
  unfold rolloutExcludes. rewrite Hcfg, Z.rem_small by lia.
  exact (rollout_gate_whole p (hashUserId userId) Hp Hh).
Qed.

(** X2. For a whole rollout percentage [p] from 0 to 100 the gate lets a
    user through exactly when the user's hash is below [p], or equal to [p]
    for the five percentages whose threshold [(p / 100) * 100] rounds up
    (7, 14, 28, 55, 56). *)
Theorem rollout_gate_characterised
    (config : FeatureFlagConfig) (userId : jsstring) (p : Z) :
  0 <= p <= 100 ->
  rolloutPercentage config = number_of_Z p ->
  (rolloutExcludes config userId = false
   <-> hashUserId userId < p
       \/ (hashUserId userId = p /\ In p roundedUpPercentages)).
Proof.
  intros Hp Hcfg.
  rewrite (rolloutExcludes_whole config userId p Hp Hcfg).
  rewrite negb_false_iff, orb_true_iff, andb_true_iff, Z.ltb_lt, Z.eqb_eq.
  rewrite existsb_exists.
  split.
  - intros [Hlt | [Heq [x [Hin Hx]]]]; [now left|].
    right. apply Z.eqb_eq in Hx. subst x. now split.
  - intros [Hlt | [Heq Hin]]; [now left|].
    right. split; [exact Heq|]. exists p. split; [exact Hin | apply Z.eqb_refl].
Qed.

Section MoreFeatureFlagProps.

Variable toUpperCase : jsstring -> jsstring.

Local Abbreviation config_of := (getAdminWorkBenchFeatureFlagConfig toUpperCase).
Local Abbreviation enabledForUser := (isAdminWorkBenchEnabledForUser toUpperCase).

(** The decision as the conjunction of its four gates. *)
Lemma enabledForUser_gates
    (env : Env) (userId : jsstring) (userRole : option jsstring) :
  enabledForUser env userId userRole
  = isAdminWorkBenchEnabled env
    && negb (notAll (targetUsers (config_of env)) && truthy_opt userRole
             && negb (match userRole with
                      | Some r => arr_includes (toArray (targetUsers (config_of env))) r
                      | None => false
                      end))
    && negb (rolloutExcludes (config_of env) userId)
    && match betaTesters (config_of env) with
       | [] => true
       | _ :: _ => arr_includes (betaTesters (config_of env)) userId
       end.
Proof.
  unfold isAdminWorkBenchEnabledForUser.
  destruct (isAdminWorkBenchEnabled env); cbn [negb andb]; [|reflexivity].
  cbv zeta.
  match goal with |- (if ?c then _ else _) = _ => destruct c end;
    cbn [negb andb]; [reflexivity|].
  fold (rolloutExcludes (config_of env) userId).
  destruct (rolloutExcludes (config_of env) userId); cbn [negb andb];
    [reflexivity|].
  destruct (betaTesters (config_of env)); reflexivity.
Qed.

(** X3. Raising a whole rollout percentage never takes the feature away:
    a user admitted at [p] percent is admitted at every [q] from [p] to 100
    percent, everything else being equal. *)
Theorem rollout_monotone
    (env env' : Env) (userId : jsstring) (userRole : option jsstring)
    (p q : Z) :
  0 <= p <= q -> q <= 100 ->
  rolloutPercentage (config_of env) = number_of_Z p ->
  rolloutPercentage (config_of env') = number_of_Z q ->
  isAdminWorkBenchEnabled env' = isAdminWorkBenchEnabled env ->
  targetUsers (config_of env') = targetUsers (config_of env) ->
  betaTesters (config_of env') = betaTesters (config_of env) ->
  enabledForUser env userId userRole = true ->
  enabledForUser env' userId userRole = true.
Proof.
  intros Hpq Hq Hp Hq' Hen Ht Hb.
  rewrite !enabledForUser_gates, Hen, Ht, Hb.
  rewrite !andb_true_iff, !negb_true_iff.
  intros [[[H1 H2] H3] H4]. repeat split; try assumption.
  rewrite (rolloutExcludes_whole (config_of env) userId p) in H3
    by (lia || exact Hp).
  rewrite (rolloutExcludes_whole (config_of env') userId q)
    by (lia || exact Hq').
  apply negb_false_iff in H3. apply negb_false_iff.
  apply orb_true_iff in H3. apply orb_true_iff.
  destruct H3 as [Hlt | Heq].
  - left. apply Z.ltb_lt in Hlt. apply Z.ltb_lt. lia.
  - apply andb_true_iff in Heq as [Heq Hin]. apply Z.eqb_eq in Heq.
    destruct (Z.eq_dec p q) as [<- | Hne].
    + right. apply andb_true_iff. split; [now apply Z.eqb_eq | exact Hin].
    + left. apply Z.ltb_lt. lia.
Qed.

(** X4. A caller who gives no role (or an empty one) is not subject to
    role targeting: the verdict does not depend on the target-users
    setting. *)
Theorem no_role_ignores_target
    (env env' : Env) (userId : jsstring) (userRole : option jsstring) :
  truthy_opt userRole = false ->
  isAdminWorkBenchEnabled env' = isAdminWorkBenchEnabled env ->
  rolloutPercentage (config_of env') = rolloutPercentage (config_of env) ->
  betaTesters (config_of env') = betaTesters (config_of env) ->
  enabledForUser env' userId userRole = enabledForUser env userId userRole.
Proof.
  intros Hrole Hen Hp Hb.
  rewrite !enabledForUser_gates, Hen, Hb, Hrole.
  unfold rolloutExcludes. rewrite Hp.
  now rewrite !andb_false_r.
Qed.

End MoreFeatureFlagProps.

(* ================================================================== *)
(** * Properties of split and trim *)
(* ================================================================== *)

Lemma str_split_nonempty (sep : Z) (s : jsstring) : str_split sep s <> [].
Proof.
  induction s as [|c s IH]; simpl; [discriminate|].
  destruct (c =? sep); [discriminate|].
  destruct (str_split sep s); discriminate.
Qed.

(** No piece of a split contains the separator, and every code unit of a
    piece comes from the string. *)
Lemma str_split_pieces (sep : Z) (s w : jsstring) :
  In w (str_split sep s) -> ~ In sep w /\ (forall c, In c w -> In c s).
Proof.
  revert w. induction s as [|c s IH]; intros w Hin; simpl in Hin.
  - destruct Hin as [<- | []]. split; [intros [] | intros c []].
  - destruct (c =? sep) eqn:E.
    + destruct Hin as [<- | Hin].
      * split; [intros [] | intros x []].
      * destruct (IH w Hin) as [H1 H2]. split; [exact H1|].
        intros x Hx. right. now apply H2.
    + apply Z.eqb_neq in E.
      destruct (str_split sep s) as [|w0 ws] eqn:Hs.
      * destruct Hin as [<- | []]. split.
        -- intros [H | []]. congruence.
        -- intros x [<- | []]. now left.
      * destruct Hin as [<- | Hin].
        -- destruct (IH w0 (or_introl eq_refl)) as [H1 H2]. split.
           ++ intros [H | H]; [congruence | contradiction].
           ++ intros x [<- | Hx]; [now left | right; now apply H2].
        -- destruct (IH w (or_intror Hin)) as [H1 H2]. split; [exact H1|].
           intros x Hx. right. now apply H2.
Qed.

Lemma trimStart_suffix (s : jsstring) :
  exists pre, s = pre ++ trimStart s
              /\ Forall (fun c => isWhiteSpace c = true) pre.
Proof.
  induction s as [|c s [pre [IH1 IH2]]]; simpl.
  - exists []. split; [reflexivity | constructor].
  - destruct (isWhiteSpace c) eqn:E.
    + exists (c :: pre). split; [simpl; now f_equal | now constructor].
    + exists []. split; [reflexivity | constructor].
Qed.

Lemma trimStart_noLeading (s : jsstring) : noLeadingWhiteSpace (trimStart s).
Proof.
  induction s as [|c s IH]; simpl; [exact I|].
  destruct (isWhiteSpace c) eqn:E; [exact IH | exact E].
Qed.

Lemma trimStart_fixed (s : jsstring) :
  noLeadingWhiteSpace s -> trimStart s = s.
Proof.
  destruct s as [|c s]; simpl; [reflexivity|]. intros ->. reflexivity.
Qed.

Lemma trimStart_In (s : jsstring) (c : Z) : In c (trimStart s) -> In c s.
Proof.
  destruct (trimStart_suffix s) as [pre [E _]]. intros H.
  rewrite E. apply in_or_app. now right.
Qed.

Lemma trimStart_keeps_last (l : jsstring) (c : Z) :
  isWhiteSpace c = false -> exists l', trimStart (l ++ [c]) = l' ++ [c].
Proof.
  intros Hc. induction l as [|x l [l' IH]]; simpl.
  - rewrite Hc. now exists [].
  - destruct (isWhiteSpace x).
    + now exists l'.
    + now exists (x :: l).
Qed.

Lemma trimEnd_noLeading (s : jsstring) :
  noLeadingWhiteSpace s -> noLeadingWhiteSpace (trimEnd s).
Proof.
  unfold trimEnd. destruct s as [|c s]; simpl; [intros _; exact I|].
  intros Hc. destruct (trimStart_keeps_last (rev s) c Hc) as [l' E].
  rewrite E, rev_app_distr. simpl. exact Hc.
Qed.

Lemma trimEnd_idempotent (s : jsstring) : trimEnd (trimEnd s) = trimEnd s.
Proof.
  unfold trimEnd. rewrite rev_involutive.
  rewrite (trimStart_fixed (trimStart (rev s))); [reflexivity|].
  apply trimStart_noLeading.
Qed.

Lemma trim_idempotent (s : jsstring) : trim (trim s) = trim s.
Proof.
  unfold trim.
  rewrite (trimStart_fixed (trimEnd (trimStart s))).
  - apply trimEnd_idempotent.
  - apply trimEnd_noLeading, trimStart_noLeading.
Qed.

Lemma trim_In (s : jsstring) (c : Z) : In c (trim s) -> In c s.
Proof.
  unfold trim, trimEnd. intros H.
  apply in_rev in H. apply trimStart_In in H. apply in_rev in H.
  now apply trimStart_In.
Qed.

Lemma trimStart_blank (s : jsstring) :
  Forall (fun c => isWhiteSpace c = true) s -> trimStart s = [].
Proof.
  induction 1 as [|c s Hc _ IH]; simpl; [reflexivity|]. now rewrite Hc.
Qed.

Lemma trim_blank (s : jsstring) :
  Forall (fun c => isWhiteSpace c = true) s -> trim s = [].
Proof.
  intros H. unfold trim. now rewrite (trimStart_blank s H).
Qed.

(** A trimmed string starts and ends with a code unit that is not white
    space. *)
Lemma trim_ends (s : jsstring) :
  noLeadingWhiteSpace (trim s) /\ noLeadingWhiteSpace (rev (trim s)).
Proof.
  split.
  - unfold trim. apply trimEnd_noLeading, trimStart_noLeading.
  - unfold trim, trimEnd. rewrite rev_involutive. apply trimStart_noLeading.
Qed.

(* ================================================================== *)
(** * Properties of the configuration parsers *)
(* ================================================================== *)

(** An entry of the beta-tester list is a non-empty trimmed piece of the
    variable, cut at the commas. *)
Lemma beta_tester_entry (env : Env) (id : jsstring) :
  In id (getBetaTesterList env) ->
  exists w, id = trim w /\ truthy id = true /\ ~ In COMMA w.
Proof.
  unfold getBetaTesterList. cbv zeta.
  destruct (negb (truthy (getEnvironmentVariable env BETA_KEY (js ""))));
    [intros []|].
  intros Hin. apply filter_In in Hin as [Hin Htruthy].
  apply in_map_iff in Hin as [w [<- Hw]].
  apply str_split_pieces in Hw as [Hsep _].
  exists w. repeat split; assumption.
Qed.

(** X5. Every id on the beta-tester list is non-empty, has no white space
    at either end and contains no comma. *)
Theorem beta_tester_ids_well_formed (env : Env) (id : jsstring) :
  In id (getBetaTesterList env) ->
  id <> []
  /\ noLeadingWhiteSpace id
  /\ noLeadingWhiteSpace (rev id)
  /\ ~ In COMMA id.
Proof.
  intros Hin. apply beta_tester_entry in Hin as [w [-> [Htruthy Hsep]]].
  split; [now apply truthy_nonempty|].
  split; [apply trim_ends|]. split; [apply trim_ends|].
  intros Hc. apply Hsep. now apply trim_In.
Qed.

Lemma blank_pieces_vanish (pieces : list jsstring) :
  Forall (fun w => Forall (fun c => isWhiteSpace c = true) w) pieces ->
  filter truthy (map (fun id => trim id) pieces) = [].
Proof.
  induction 1 as [|w ws Hw _ IH]; simpl; [reflexivity|].
  rewrite (trim_blank w Hw). simpl. exact IH.
Qed.

(** X6. A beta-tester variable made of commas and white space only
    configures no beta list. *)
Theorem blank_beta_variable_is_no_list (env : Env) :
  blankList (getEnvironmentVariable env BETA_KEY (js "")) ->
  getBetaTesterList env = [].
Proof.
  unfold blankList, getBetaTesterList. cbv zeta. intros Hblank.
  destruct (negb (truthy (getEnvironmentVariable env BETA_KEY (js ""))));
    [reflexivity|].
  apply blank_pieces_vanish.
  apply Forall_forall. intros w Hw.
  apply str_split_pieces in Hw as [Hsep Hsub].
  apply Forall_forall. intros c Hc.
  rewrite Forall_forall in Hblank.
  destruct (Hblank c (Hsub c Hc)) as [-> | Hws]; [contradiction | exact Hws].
Qed.

Section ParserProps.

Variable toUpperCase : jsstring -> jsstring.

Local Abbreviation config_of := (getAdminWorkBenchFeatureFlagConfig toUpperCase).
Local Abbreviation enabledForUser := (isAdminWorkBenchEnabledForUser toUpperCase).

(** X7. When a beta list is configured, a user id that is empty, contains
    a comma, or starts or ends with white space can never be on it, and
    the user is refused. *)
Theorem malformed_id_refused_under_beta_list
    (env : Env) (userId : jsstring) (userRole : option jsstring) :
  betaTesters (config_of env) <> [] ->
  userId = [] \/ In COMMA userId
  \/ ~ noLeadingWhiteSpace userId \/ ~ noLeadingWhiteSpace (rev userId) ->
  enabledForUser env userId userRole = false.
Proof.
  intros Hbeta Hbad.
  assert (Hnot : ~ In userId (betaTesters (config_of env))).
  { intros Hin.
    apply (beta_tester_entry env userId) in Hin as [w [E [Htruthy Hsep]]].
    destruct Hbad as [H | [H | [H | H]]].
    - rewrite H in Htruthy. discriminate.
    - apply Hsep. apply trim_In. now rewrite <- E.
    - apply H. rewrite E. apply trim_ends.
    - apply H. rewrite E. apply trim_ends. }
  rewrite enabledForUser_gates.
  destruct (betaTesters (config_of env)) as [|b bs] eqn:Hb; [congruence|].
  apply arr_includes_not_In in Hnot. rewrite Hnot. apply andb_false_r.
Qed.

(** X8. [parseTargetUsers] yields ['all'] exactly for the value ['all'] and
    for the empty value, ['beta'] exactly for ['beta'], and a non-empty list
    of role names for every other value; a value with [n] commas yields
    [n + 1] names. *)
Theorem parseTargetUsers_classified (s : jsstring) :
  (parseTargetUsers toUpperCase s = Str (js "all") <-> s = js "all" \/ s = [])
  /\ (parseTargetUsers toUpperCase s = Str (js "beta") <-> s = js "beta")
  /\ (s <> js "all" -> s <> [] -> s <> js "beta" ->
      exists r rs, parseTargetUsers toUpperCase s = Arr (r :: rs))
  /\ (str_includes s (js ",") = true ->
      exists roles,
        parseTargetUsers toUpperCase s = Arr roles
        /\ List.length roles = S (count_occ Z.eq_dec s COMMA)).
Proof.
  unfold parseTargetUsers.
  destruct (str_eqb s (js "all")) eqn:Eall.
  { apply str_eqb_eq in Eall. subst s. cbn [orb].
    repeat split; try (intros; (now left) || congruence || discriminate). }
  destruct (str_eqb s (js "beta")) eqn:Ebeta.
  { apply str_eqb_eq in Ebeta. subst s. cbn [orb].
    repeat split; try (intros; congruence || discriminate).
    intros [H | H]; discriminate. }
  cbn [orb]. apply str_eqb_neq in Eall, Ebeta.
  destruct (str_eqb s (js "admins")) eqn:Eadm.
  { apply str_eqb_eq in Eadm. subst s.
    repeat split; try (intros; congruence || discriminate).
    - intros [H | H]; discriminate.
    - intros _ _ _. now exists (js "ADMIN"), []. }
  destruct (str_includes s (js ",")) eqn:Ecomma.
  { assert (Hs : s <> []) by (intros ->; discriminate).
    repeat split; try (intros; congruence || discriminate).
    - intros [H | H]; congruence.
    - intros _ _ _.
      destruct (str_split COMMA s) as [|w ws] eqn:Hsp;
        [now apply str_split_nonempty in Hsp|].
      simpl. eauto.
    - intros _. eexists. split; [reflexivity|].
      rewrite length_map.
      clear. induction s as [|c s IH]; simpl; [reflexivity|].
      unfold COMMA in *. destruct (Z.eq_dec c 44) as [->|Hne].
      + simpl. now rewrite IH.
      + apply Z.eqb_neq in Hne. rewrite Hne.
        destruct (str_split 44 s); simpl in *; lia. }
  destruct s as [|c s].
  { simpl. repeat split; try (intros; congruence || discriminate).
    intros _. now right. }
  cbn [truthy andb negb].
  repeat split; try (intros; congruence || discriminate).
  - intros [H | H]; congruence.
  - intros _ _ _. eauto.
Qed.

End ParserProps.

(* ================================================================== *)
(** * Further properties of the hook and of its caller *)
(* ================================================================== *)

Section MoreHookProps.

Variable toUpperCase : jsstring -> jsstring.

Local Abbreviation compute := (Hook.compute toUpperCase).
Local Abbreviation useFeature := (Hook.useAdminWorkBenchFeature toUpperCase).
Local Abbreviation renders := (Hook.renders toUpperCase).

Lemma same_value_refl (a : option jsstring) : same_value a a = true.
Proof. destruct a; simpl; [apply str_eqb_refl | reflexivity]. Qed.

Lemma deps_eqb_refl (d : Deps) : deps_eqb d d = true.
Proof. unfold deps_eqb. now rewrite !same_value_refl. Qed.

Lemma deps_eqb_false (a b : Deps) : a <> b -> deps_eqb a b = false.
Proof.
  intros H. destruct (deps_eqb a b) eqn:E; [|reflexivity].
  apply deps_eqb_eq in E. contradiction.
Qed.

(** After a render the cell holds the dependencies of that render and the
    value it returned. *)
Lemma useFeature_cell (env : Env) (session : option Session)
    (cell : MemoCell Hook.AdminWorkBenchFeature) :
  snd (useFeature env session cell)
  = Some ((session_user_id session, session_user_role session),
          fst (useFeature env session cell)).
Proof.
  unfold Hook.useAdminWorkBenchFeature, useMemo.
  destruct cell as [[prev v]|]; [|reflexivity].
  destruct (deps_eqb prev (session_user_id session, session_user_role session))
    eqn:E; [|reflexivity].
  apply deps_eqb_eq in E. now subst prev.
Qed.

Lemma renders_cons (cell : MemoCell Hook.AdminWorkBenchFeature)
    (env : Env) (session : option Session)
    (rest : list (Env * option Session)) :
  renders cell ((env, session) :: rest)
  = fst (useFeature env session cell)
    :: renders (snd (useFeature env session cell)) rest.
Proof.
  cbn [Hook.renders]. destruct (useFeature env session cell). reflexivity.
Qed.

Lemma renders_consecutive (inputs : list (Env * option Session)) :
  forall (cell : MemoCell Hook.AdminWorkBenchFeature) (n : nat)
         (env env' : Env) (session session' : option Session)
         (v : Hook.AdminWorkBenchFeature),
    nth_error inputs n = Some (env, session) ->
    nth_error inputs (S n) = Some (env', session') ->
    nth_error (renders cell inputs) n = Some v ->
    nth_error (renders cell inputs) (S n)
    = Some (fst (useFeature env' session'
                   (Some ((session_user_id session, session_user_role session),
                          v)))).
Proof.
  induction inputs as [|[e0 s0] rest IH];
    intros cell n env env' session session' v Hn Hn' Hv.
  - destruct n; discriminate.
  - rewrite renders_cons in Hv |- *.
    destruct n as [|n].
    + cbn [nth_error] in Hn, Hn', Hv |- *.
      injection Hn as <- <-. injection Hv as <-.
      destruct rest as [|[e1 s1] rest']; [discriminate|].
      cbn [nth_error] in Hn'. injection Hn' as <- <-.
      rewrite renders_cons. cbn [nth_error].
      now rewrite useFeature_cell.
    + cbn [nth_error] in Hn, Hn', Hv |- *.
      now apply (IH _ n env env' session session' v).
Qed.

(** X9. Between two consecutive renders with the same user id and role
    the hook returns the same value again, whatever the environment has
    become. *)
Theorem hook_stable_while_identity_unchanged
    (inputs : list (Env * option Session)) (n : nat)
    (env env' : Env) (session session' : option Session)
    (v : Hook.AdminWorkBenchFeature) :
  nth_error inputs n = Some (env, session) ->
  nth_error inputs (S n) = Some (env', session') ->
  session_user_id session' = session_user_id session ->
  session_user_role session' = session_user_role session ->
  nth_error (renders None inputs) n = Some v ->
  nth_error (renders None inputs) (S n) = Some v.
Proof.
  intros Hn Hn' Hid Hrole Hv.
  rewrite (renders_consecutive inputs None n env env' session session' v
             Hn Hn' Hv).
  unfold Hook.useAdminWorkBenchFeature, useMemo.
  rewrite Hid, Hrole, deps_eqb_refl. reflexivity.
Qed.

(** X10. On the first render, and on every render whose user id or role
    differs from the render before, the hook returns the value computed from
    the environment and the session of that render. *)
Theorem hook_fresh_on_identity_change
    (inputs : list (Env * option Session)) :
  (forall env session,
      nth_error inputs 0 = Some (env, session) ->
      nth_error (renders None inputs) 0 = Some (compute env session))
  /\ (forall n env env' session session',
      nth_error inputs n = Some (env, session) ->
      nth_error inputs (S n) = Some (env', session') ->
      (session_user_id session', session_user_role session')
      <> (session_user_id session, session_user_role session) ->
      nth_error (renders None inputs) (S n) = Some (compute env' session')).
Proof.
  split.
  - intros env session H0. destruct inputs as [|[e s] rest]; [discriminate|].
    injection H0 as <- <-. reflexivity.
  - intros n env env' session session' Hn Hn' Hd.
    destruct (renders_ok toUpperCase inputs None n env session I Hn)
      as [v [Hv _]].
    rewrite (renders_consecutive inputs None n env env' session session' v
               Hn Hn' Hv).
    unfold Hook.useAdminWorkBenchFeature, useMemo.
    rewrite deps_eqb_false by (intros E; apply Hd; now rewrite E).
    reflexivity.
Qed.

(** Every value the hook returns was computed by its callback from some
    environment and session. *)
Lemma renders_computed (inputs : list (Env * option Session)) :
  forall (cell : MemoCell Hook.AdminWorkBenchFeature),
    (forall d v, cell = Some (d, v) -> exists env s, v = compute env s) ->
    Forall (fun v => exists env s, v = compute env s) (renders cell inputs).
Proof.
  induction inputs as [|[e0 s0] rest IH]; intros cell Hcell; simpl;
    [constructor|].
  assert (Hv : exists env s, fst (useFeature e0 s0 cell) = compute env s).
  { unfold Hook.useAdminWorkBenchFeature, useMemo.
    destruct cell as [[prev v]|]; [|simpl; eauto].
    destruct (deps_eqb prev _); simpl; eauto. }
  pose proof (useFeature_cell e0 s0 cell) as Hc.
  destruct (useFeature e0 s0 cell) as [v0 cell0]. simpl in Hv, Hc.
  constructor; [exact Hv|].
  apply IH. intros d v E. rewrite Hc in E. injection E as _ <-. exact Hv.
Qed.

Lemma compute_userEnabled_global (env : Env) (s : option Session) :
  Hook.userEnabled (compute env s) = true -> isAdminWorkBenchEnabled env = true.
Proof.
  unfold Hook.compute. cbn [Hook.userEnabled]. intros H.
  destruct (truthy_opt (session_user_id s)); [|discriminate].
  destruct (session_user_id s) as [uid|]; [|discriminate].
  unfold isAdminWorkBenchEnabledForUser in H.
  destruct (isAdminWorkBenchEnabled env); [reflexivity | discriminate].
Qed.

(** X11. In every value the hook returns, [enabled] equals [userEnabled]
    (the conjunction with [globalEnabled] never changes it), a true
    [userEnabled] comes with a true [globalEnabled], and the [enabled] field
    of the returned configuration equals [globalEnabled]. *)
Theorem hook_enabled_is_userEnabled
    (inputs : list (Env * option Session)) (n : nat)
    (v : Hook.AdminWorkBenchFeature) :
  nth_error (renders None inputs) n = Some v ->
  Hook.enabled v = Hook.userEnabled v
  /\ (Hook.userEnabled v = true -> Hook.globalEnabled v = true)
  /\ enabled (Hook.config v) = Hook.globalEnabled v.
Proof.
  intros Hv.
  pose proof (renders_computed inputs None ltac:(discriminate)) as Hall.
  rewrite Forall_forall in Hall.
  destruct (Hall v (nth_error_In _ _ Hv)) as [env [s ->]].
  pose proof (compute_userEnabled_global env s) as Hg.
  assert (Hen : Hook.enabled (compute env s)
                = isAdminWorkBenchEnabled env && Hook.userEnabled (compute env s))
    by reflexivity.
  assert (Hgl : Hook.globalEnabled (compute env s) = isAdminWorkBenchEnabled env)
    by reflexivity.
  split; [|split].
  - rewrite Hen. destruct (Hook.userEnabled (compute env s)).
    + now rewrite Hg.
    + apply andb_false_r.
  - rewrite Hgl. exact Hg.
  - reflexivity.
Qed.

(** The wrapper shows what the hook's [enabled] says. *)
Lemma wrapper_renders_spec
    (inputs : list (Env * option Session * UsersContext)) :
  forall (cell : MemoCell Hook.AdminWorkBenchFeature) (n : nat)
         (env : Env) (session : option Session) (context : UsersContext),
    nth_error inputs n = Some (env, session, context) ->
    exists v,
      nth_error (renders cell (map fst inputs)) n = Some v
      /\ nth_error (wrapper_renders toUpperCase cell inputs) n
         = Some (if Hook.enabled v then AdminWorkBench
                 else ExecutiveDashboardTab (users context) (stats context)).
Proof.
  induction inputs as [|[[e0 s0] c0] rest IH];
    intros cell n env session context Hn.
  - destruct n; discriminate.
  - cbn [map fst]. rewrite renders_cons.
    cbn [wrapper_renders]. unfold ExecutiveDashboardTabWrapper.
    destruct (useFeature e0 s0 cell) as [v0 cell0]. cbn [fst snd].
    destruct n as [|n]; cbn [nth_error] in Hn |- *.
    + injection Hn as <- <- <-. now exists v0.
    + exact (IH cell0 n env session context Hn).
Qed.

(** X12. The wrapper renders exactly one of the two dashboards at every
    render; it renders the new AdminWorkBench only for a session that
    carries a user id, and it hands the users and stats of its context,
    unchanged, to the legacy dashboard. *)
Theorem wrapper_workbench_needs_user
    (inputs : list (Env * option Session * UsersContext)) (n : nat)
    (env : Env) (session : option Session) (context : UsersContext) :
  nth_error inputs n = Some (env, session, context) ->
  exists r,
    nth_error (wrapper_renders toUpperCase None inputs) n = Some r
    /\ (r = AdminWorkBench
        \/ r = ExecutiveDashboardTab (users context) (stats context))
    /\ (r = AdminWorkBench -> truthy_opt (session_user_id session) = true).
Proof.
  intros Hn.
  destruct (wrapper_renders_spec inputs None n env session context Hn)
    as [v [Hv Hr]].
  assert (Hn1 : nth_error (map fst inputs) n = Some (env, session))
    by (rewrite nth_error_map, Hn; reflexivity).
  destruct (renders_ok toUpperCase (map fst inputs) None n env session I Hn1)
    as [v' [Hv' [_ Hno]]].
  rewrite Hv in Hv'. injection Hv' as <-.
  eexists. split; [exact Hr|]. split.
  - destruct (Hook.enabled v); [now left | now right].
  - destruct (Hook.enabled v) eqn:He; [|discriminate].
    intros _. destruct (truthy_opt (session_user_id session)) eqn:Ht;
      [reflexivity|].
    destruct (Hno eq_refl) as [_ H]. congruence.
Qed.

End MoreHookProps.

(* ================================================================== *)
(** * Further properties of the deprecated client endpoints *)
(* ================================================================== *)


(** X13. The status codes each handler can answer with: permission
    failures are 401 (403 is never used), only the detail handlers answer
    404, only create and update answer 409, and create never answers 200. *)
Theorem client_endpoints_status_codes (w : World) (params_id : jsstring) :
  In (status (ClientsRoute.GET w)) [200; 400; 401; 500]
  /\ In (status (ClientsRoute.POST w)) [201; 400; 401; 409; 500]
  /\ In (status (ClientByIdRoute.GET w params_id)) [200; 400; 401; 404; 500]
  /\ In (status (ClientByIdRoute.PATCH w params_id))
        [200; 400; 401; 404; 409; 500]
  /\ In (status (ClientByIdRoute.DELETE w params_id)) [200; 400; 401; 404; 500].
Proof.
  split; [|split; [|split; [|split]]].
  - unfold ClientsRoute.GET. handler_cases; simpl; tauto.
  - unfold ClientsRoute.POST. handler_cases; simpl; tauto.
  - unfold ClientByIdRoute.GET. handler_cases; simpl; tauto.
  - unfold ClientByIdRoute.PATCH. handler_cases; simpl; tauto.
  - unfold ClientByIdRoute.DELETE. handler_cases; simpl; tauto.
Qed.

(** X14. A caller without the permission a handler asks for gets the
    decorated 401 response, whatever the tenant, the request body and the
    database hold. *)
Theorem client_endpoints_permission_denied
    (w : World) (ctx : TenantContext) (params_id : jsstring) :
  requireTenantContext w = Normal ctx ->
  (hasPermission w (ctx_role ctx) USERS_VIEW = false ->
   ClientsRoute.GET w
   = ClientsRoute.addDeprecationHeaders w
       (NextResponse_json (error_body "Unauthorized") (Some 401))
   /\ ClientByIdRoute.GET w params_id
      = ClientByIdRoute.addDeprecationHeaders w
          (NextResponse_json (error_body "Unauthorized") (Some 401)))
  /\ (hasPermission w (ctx_role ctx) USERS_MANAGE = false ->
      ClientsRoute.POST w
      = ClientsRoute.addDeprecationHeaders w
          (NextResponse_json (error_body "Unauthorized") (Some 401))
      /\ ClientByIdRoute.PATCH w params_id
         = ClientByIdRoute.addDeprecationHeaders w
             (NextResponse_json (error_body "Unauthorized") (Some 401))
      /\ ClientByIdRoute.DELETE w params_id
         = ClientByIdRoute.addDeprecationHeaders w
             (NextResponse_json (error_body "Unauthorized") (Some 401))).
Proof.
  intros Hctx. split; intros Hperm.
  - unfold ClientsRoute.GET, ClientByIdRoute.GET.
    rewrite Hctx. cbn [bind]. rewrite Hperm. split; reflexivity.
  - unfold ClientsRoute.POST, ClientByIdRoute.PATCH, ClientByIdRoute.DELETE.
    rewrite Hctx. cbn [bind]. rewrite Hperm. repeat split.
Qed.

(** As [handler_cases], keeping what each collaborator answered. *)
#[local] Ltac handler_step_eqn :=
  match goal with
  | |- context [bind ?c _] => destruct c eqn:?; cbn [bind]
  | |- context [if ?c then _ else _] => destruct c eqn:?
  | |- context [match ?c with Some _ => _ | None => _ end] => destruct c eqn:?
  end.

#[local] Ltac handler_cases_eqn := repeat handler_step_eqn; cbn [try_catch].

(** X15. The update handler answers 409 only when the request carries an
    email that differs from the stored one and the lookup by tenant and
    email finds a record; an update that repeats the stored email, or gives
    none, never conflicts. *)
Theorem client_PATCH_conflict_only_on_changed_email
    (w : World) (params_id : jsstring) :
  status (ClientByIdRoute.PATCH w params_id) = 409 ->
  exists ctx c existing,
    requireTenantContext w = Normal ctx
    /\ user_findFirst w params_id (tenantId ctx) = Normal (Some c)
    /\ json_truthy_opt (prop (request_body w) (js "email")) = true
    /\ strict_eq (prop (request_body w) (js "email")) (prop c (js "email"))
       = false
    /\ user_findUnique w (tenantId ctx) (prop (request_body w) (js "email"))
       = Normal existing
    /\ json_truthy_opt existing = true.
Proof.
  unfold ClientByIdRoute.PATCH. cbv zeta.
  handler_cases_eqn; intros H; simpl in H; try discriminate H.
  all: match goal with
       | Hc : requireTenantContext _ = Normal ?a,
         Hf : user_findFirst _ _ _ = Normal (Some ?j),
         He : (if ?cond then _ else Normal None) = Normal ?ex,
         Ht : json_truthy_opt ?ex = true |- _ =>
           exists a, j, ex;
           destruct cond eqn:Hcond;
             [| injection He as <-; discriminate Ht];
           apply andb_true_iff in Hcond as [Hc1 Hc2];
           apply negb_true_iff in Hc2;
           repeat split; assumption
       end.
Qed.

(** X16. The create handler answers 201 only when the caller may manage
    users, name and email are both given, the lookup by tenant and email
    finds nothing and the insert succeeds; the body is then the inserted
    record. *)
Theorem client_POST_created_only_when_new
    (w : World) :
  status (ClientsRoute.POST w) = 201 ->
  exists ctx existing client,
    requireTenantContext w = Normal ctx
    /\ hasPermission w (ctx_role ctx) USERS_MANAGE = true
    /\ truthy_opt (tenantId ctx) = true
    /\ json_truthy_opt (prop (request_body w) (js "name")) = true
    /\ json_truthy_opt (prop (request_body w) (js "email")) = true
    /\ user_findUnique w (tenantId ctx) (prop (request_body w) (js "email"))
       = Normal existing
    /\ json_truthy_opt existing = false
    /\ user_create w (prop (request_body w) (js "name"))
         (prop (request_body w) (js "email")) (tenantId ctx)
       = Normal client
    /\ body (ClientsRoute.POST w) = client.
Proof.
  unfold ClientsRoute.POST. cbv zeta.
  handler_cases_eqn; intros H; simpl in H; try discriminate H.
  match goal with
  | Hc : requireTenantContext _ = Normal ?a,
    Hu : user_findUnique _ _ _ = Normal ?ex,
    Hn : user_create _ _ _ _ = Normal ?cl,
    Hp : negb (hasPermission _ _ _) = false,
    Ht : negb (truthy_opt _) = false,
    Hb : negb _ || negb _ = false |- _ =>
      exists a, ex, cl;
      apply negb_false_iff in Hp, Ht;
      apply orb_false_iff in Hb as [Hb1 Hb2];
      apply negb_false_iff in Hb1, Hb2;
      repeat split; assumption
  end.
Qed.


Lemma find_app_first {A : Type} (f : A -> bool) (l1 l2 : list A) :
  find f (l1 ++ l2) = match find f l1 with
                      | Some x => Some x
                      | None => find f l2
                      end.
Proof.
  induction l1 as [|x l1 IH]; simpl; [reflexivity|].
  destruct (f x); [reflexivity | exact IH].
Qed.

Lemma headers_get_set_same (name : jsstring) (v : HeaderValue) (r : Response) :
  headers_get name (headers_set name v r) = Some v.
Proof.
  unfold headers_get, headers_set. simpl. rewrite find_app_first.
  assert (E : find (fun h => str_eqb (fst h) name)
                (filter (fun h => negb (str_eqb (fst h) name)) (headers r))
              = None).
  { induction (headers r) as [|h hs IH]; simpl; [reflexivity|].
    destruct (str_eqb (fst h) name) eqn:Eh; simpl; [exact IH|].
    now rewrite Eh. }
  rewrite E. simpl. now rewrite str_eqb_refl.
Qed.

Lemma headers_get_set_other (name other : jsstring) (v : HeaderValue)
    (r : Response) :
  name <> other ->
  headers_get name (headers_set other v r) = headers_get name r.
Proof.
  intros Hne. unfold headers_get, headers_set. simpl. rewrite find_app_first.
  assert (E : find (fun h => str_eqb (fst h) name)
                (filter (fun h => negb (str_eqb (fst h) other)) (headers r))
              = find (fun h => str_eqb (fst h) name) (headers r)).
  { induction (headers r) as [|h hs IH]; simpl; [reflexivity|].
    destruct (str_eqb (fst h) other) eqn:Eo; simpl.
    - apply str_eqb_eq in Eo.
      assert (En : str_eqb (fst h) name = false)
        by (apply str_eqb_neq; congruence).
      now rewrite En.
    - destruct (str_eqb (fst h) name); [reflexivity | exact IH]. }
  rewrite E.
  destruct (find (fun h => str_eqb (fst h) name) (headers r)); [reflexivity|].
  simpl. assert (En : str_eqb other name = false)
    by (apply str_eqb_neq; congruence).
  now rewrite En.
Qed.

(** X18. Decorating a response changes neither its status nor its body nor
    any header whose name is not one of the four deprecation names; afterwards
    [Deprecation] reads ['true'] and [Sunset] is the instant 90 days
    (7 776 000 000 ms) after the current time, in both route files. *)
Theorem addDeprecationHeaders_effect (w : World) (r : Response) :
  (status (ClientsRoute.addDeprecationHeaders w r) = status r
   /\ body (ClientsRoute.addDeprecationHeaders w r) = body r
   /\ (forall name, otherHeaderName name ->
       headers_get name (ClientsRoute.addDeprecationHeaders w r)
       = headers_get name r)
   /\ headers_get (js "Deprecation") (ClientsRoute.addDeprecationHeaders w r)
      = Some (HText (js "true"))
   /\ headers_get (js "Sunset") (ClientsRoute.addDeprecationHeaders w r)
      = Some (HUTCString (Date_now w + 7776000000)))
  /\ (status (ClientByIdRoute.addDeprecationHeaders w r) = status r
      /\ body (ClientByIdRoute.addDeprecationHeaders w r) = body r
      /\ (forall name, otherHeaderName name ->
          headers_get name (ClientByIdRoute.addDeprecationHeaders w r)
          = headers_get name r)
      /\ headers_get (js "Deprecation")
           (ClientByIdRoute.addDeprecationHeaders w r)
         = Some (HText (js "true"))
      /\ headers_get (js "Sunset") (ClientByIdRoute.addDeprecationHeaders w r)
         = Some (HUTCString (Date_now w + 7776000000))).
Proof.
  assert (Hother : forall name, otherHeaderName name ->
            name <> js "Deprecation" /\ name <> js "Sunset"
            /\ name <> js "Link" /\ name <> js "X-API-Warn").
  { intros name Hn. unfold otherHeaderName, DEPRECATION_HEADER_NAMES in Hn.
    repeat split; intros ->; apply Hn; simpl; tauto. }
  split.
  - unfold ClientsRoute.addDeprecationHeaders. cbv zeta.
    split; [reflexivity|]. split; [reflexivity|]. split; [|split].
    + intros name Hn. destruct (Hother name Hn) as [H1 [H2 [H3 H4]]].
      now rewrite !headers_get_set_other.
    + rewrite !headers_get_set_other by discriminate.
      apply headers_get_set_same.
    + rewrite !headers_get_set_other by discriminate.
      apply headers_get_set_same.
  - unfold ClientByIdRoute.addDeprecationHeaders. cbv zeta.
    split; [reflexivity|]. split; [reflexivity|]. split; [|split].
    + intros name Hn. destruct (Hother name Hn) as [H1 [H2 [H3 H4]]].
      now rewrite !headers_get_set_other.
    + rewrite !headers_get_set_other by discriminate.
      apply headers_get_set_same.
    + rewrite !headers_get_set_other by discriminate.
      apply headers_get_set_same.
Qed.

(* ================================================================== *)
(** * Properties of preloadRoute *)
(* ================================================================== *)

Section PreloadProps.

Variable call_inherited : jsstring -> Completion unit.

Local Abbreviation preloadRoute := (CodeSplitting.preloadRoute call_inherited).

Lemma own_In {A : Type} (table : list (jsstring * A)) (key : jsstring) (a : A) :
  CodeSplitting.own table key = Some a -> In (key, a) table.
Proof.
  induction table as [|[k v] rest IH]; simpl; [discriminate|].
  destruct (str_eqb k key) eqn:E.
  - apply str_eqb_eq in E. intros [= <-]. subst. now left.
  - intros H. right. now apply IH.
Qed.

(** X19. For a route that is not configured, [preloadRoute] starts no
    import; it returns normally unless the route is the name of a member
    every object inherits ([constructor], [toString], [__proto__], ...), in
    which case reading [config.components.forEach] throws. *)
Theorem preloadRoute_unconfigured (route : jsstring) :
  CodeSplitting.own CodeSplitting.ROUTE_BASED_CODE_SPLITTING route = None ->
  fst (preloadRoute route) = []
  /\ (snd (preloadRoute route) = Throw
      <-> In route CodeSplitting.OBJECT_PROTOTYPE_KEYS).
Proof.
  intros Hown. unfold CodeSplitting.preloadRoute, CodeSplitting.lookup.
  rewrite Hown.
  destruct (arr_includes CodeSplitting.OBJECT_PROTOTYPE_KEYS route) eqn:E.
  - apply arr_includes_In in E. simpl. split; [reflexivity|]. tauto.
  - apply arr_includes_not_In in E. simpl. split; [reflexivity|].
    split; [discriminate | contradiction].
Qed.

(** X20. For every configured route, [preloadRoute] returns normally and
    starts, in the order listed, the import of each listed component that
    has an importer; listed components without one are skipped, which
    leaves every listed component imported only for the routes [/admin],
    [/admin/analytics] and the three modals. *)
Theorem preloadRoute_configured
    (route : jsstring) (config : CodeSplitting.RouteConfig) :
  CodeSplitting.own CodeSplitting.ROUTE_BASED_CODE_SPLITTING route
  = Some config ->
  preloadRoute route
  = (CodeSplitting.registered (CodeSplitting.components config), Normal tt)
  /\ (List.length (fst (preloadRoute route))
      = List.length (CodeSplitting.components config)
      <-> In route CodeSplitting.FULLY_REGISTERED_ROUTES).
Proof.
  intros Hown.
  assert (Hlook : CodeSplitting.lookup CodeSplitting.ROUTE_BASED_CODE_SPLITTING
                    route = CodeSplitting.Own config)
    by (unfold CodeSplitting.lookup; now rewrite Hown).
  unfold CodeSplitting.preloadRoute. rewrite Hlook.
  apply own_In in Hown.
  unfold CodeSplitting.ROUTE_BASED_CODE_SPLITTING in Hown.
  simpl in Hown.
  repeat (destruct Hown as [Hown | Hown];
          [injection Hown as <- <-; split; [reflexivity|];
           vm_compute; split; intros H;
           try discriminate H; try tauto;
           repeat (destruct H as [H | H]; try discriminate H); try contradiction
          |]).
  contradiction.
Qed.

End PreloadProps.

(* ================================================================== *)
(** * Properties of the filter-preset endpoints *)
(* ================================================================== *)

#[local] Ltac preset_unfold :=
  unfold FilterPresetRoute.GET, FilterPresetRoute.PATCH,
         FilterPresetRoute.DELETE, FilterPresetRoute.try_catch_logged,
         FilterPresetRoute.lbind, FilterPresetRoute.lift,
         FilterPresetRoute.prisma, FilterPresetRoute.lret;
  cbv zeta.

(** One step through a preset handler: what the next collaborator answers,
    or the next branch. *)
#[local] Ltac preset_step :=
  match goal with
  | |- context [FilterPresetRoute.getServerSession ?w] =>
      destruct (FilterPresetRoute.getServerSession w) eqn:?
  | |- context [FilterPresetRoute.presets_findUnique ?w ?i] =>
      destruct (FilterPresetRoute.presets_findUnique w i) eqn:?
  | |- context [FilterPresetRoute.request_json ?w] =>
      destruct (FilterPresetRoute.request_json w) eqn:?
  | |- context [FilterPresetRoute.build_updateData ?w ?b] =>
      destruct (FilterPresetRoute.build_updateData w b) eqn:?
  | |- context [FilterPresetRoute.presets_findFirst ?w ?a ?b ?c ?d] =>
      destruct (FilterPresetRoute.presets_findFirst w a b c d) eqn:?
  | |- context [FilterPresetRoute.presets_update ?w ?a ?b] =>
      destruct (FilterPresetRoute.presets_update w a b) eqn:?
  | |- context [FilterPresetRoute.presets_delete ?w ?a] =>
      destruct (FilterPresetRoute.presets_delete w a) eqn:?
  | |- context [FilterPresetRoute.JSON_parse ?w ?a] =>
      destruct (FilterPresetRoute.JSON_parse w a) eqn:?
  | |- context [if ?c then _ else _] => destruct c eqn:?
  | |- context [match ?c with Some _ => _ | None => _ end] => destruct c eqn:?
  | |- context [match ?c with JNull => _ | _ => _ end] => destruct c eqn:?
  end; cbn beta iota.

#[local] Ltac preset_cases := preset_unfold; repeat preset_step.

#[local] Ltac bool_facts :=
  repeat match goal with
    | H : negb _ = false |- _ => apply negb_false_iff in H
    | H : negb _ = true |- _ => apply negb_true_iff in H
    | H : _ && _ = true |- _ => apply andb_true_iff in H; destruct H
    end.

(** X21. A preset handler touches the table only for a request whose
    session carries a user: without one the answer is 401 and no Prisma call
    is made, and when the session cannot be read the answer is 500, again
    without any call. *)
Theorem preset_endpoints_need_session_user
    (w : FilterPresetRoute.PresetWorld) (params_id : jsstring) :
  (forall c,
      In c (snd (FilterPresetRoute.GET w params_id))
      \/ In c (snd (FilterPresetRoute.PATCH w params_id))
      \/ In c (snd (FilterPresetRoute.DELETE w params_id)) ->
      exists session,
        FilterPresetRoute.getServerSession w = Normal session
        /\ json_truthy_opt (FilterPresetRoute.session_user session) = true)
  /\ (forall session,
      FilterPresetRoute.getServerSession w = Normal session ->
      json_truthy_opt (FilterPresetRoute.session_user session) = false ->
      FilterPresetRoute.GET w params_id
      = (FilterPresetRoute.json_error "Unauthorized" 401, [])
      /\ FilterPresetRoute.PATCH w params_id
         = (FilterPresetRoute.json_error "Unauthorized" 401, [])
      /\ FilterPresetRoute.DELETE w params_id
         = (FilterPresetRoute.json_error "Unauthorized" 401, [])).
Proof.
  split.
  - intros c [Hin | [Hin | Hin]]; revert Hin; preset_cases;
      cbn [snd app In]; intros Hin; try contradiction; bool_facts; eauto.
  - intros session Hs Hno. preset_unfold. rewrite Hs, Hno. cbn.
    repeat split.
Qed.

(** X22. Only the creator of a preset changes or deletes it: the update
    handler issues its one update, and the delete handler its one delete,
    only for the preset named in the URL, only after that preset was found,
    and only when its [createdBy] is the id of the session user; the read
    handler never writes. *)
Theorem preset_writes_only_by_creator
    (w : FilterPresetRoute.PresetWorld) (params_id : jsstring)
    (c : FilterPresetRoute.PresetCall) :
  FilterPresetRoute.is_write c = true ->
  ~ In c (snd (FilterPresetRoute.GET w params_id))
  /\ (In c (snd (FilterPresetRoute.PATCH w params_id)) ->
      exists session p data,
        FilterPresetRoute.getServerSession w = Normal session
        /\ FilterPresetRoute.presets_findUnique w params_id = Normal (Some p)
        /\ strict_eq (prop p (js "createdBy"))
                     (FilterPresetRoute.session_user_id_of session) = true
        /\ c = FilterPresetRoute.CallUpdate params_id data)
  /\ (In c (snd (FilterPresetRoute.DELETE w params_id)) ->
      exists session p,
        FilterPresetRoute.getServerSession w = Normal session
        /\ FilterPresetRoute.presets_findUnique w params_id = Normal (Some p)
        /\ strict_eq (prop p (js "createdBy"))
                     (FilterPresetRoute.session_user_id_of session) = true
        /\ c = FilterPresetRoute.CallDelete params_id).
Proof.
  intros Hw. split; [|split].
  - preset_cases; cbn [snd app In]; intros Hin;
      repeat (destruct Hin as [<- | Hin]; try discriminate Hw);
      contradiction.
  - preset_cases; cbn [snd app In]; intros Hin;
      repeat (destruct Hin as [<- | Hin]; try discriminate Hw);
      try contradiction; bool_facts; eauto 10.
  - preset_cases; cbn [snd app In]; intros Hin;
      repeat (destruct Hin as [<- | Hin]; try discriminate Hw);
      try contradiction; bool_facts; eauto 10.
Qed.

(** X23. The read handler answers 200 only for a preset that is public or
    whose [createdBy] is the id of the session user; the body is then the
    preset with [success: true] and the parsed filter configuration. *)
Theorem preset_GET_visibility
    (w : FilterPresetRoute.PresetWorld) (params_id : jsstring) :
  status (fst (FilterPresetRoute.GET w params_id)) = 200 ->
  exists session p parsed,
    FilterPresetRoute.getServerSession w = Normal session
    /\ FilterPresetRoute.presets_findUnique w params_id = Normal (Some p)
    /\ (json_truthy_opt (prop p (js "isPublic")) = true
        \/ strict_eq (prop p (js "createdBy"))
                     (FilterPresetRoute.session_user_id_of session) = true)
    /\ FilterPresetRoute.JSON_parse w (prop p (js "filterConfig"))
       = Normal parsed
    /\ body (fst (FilterPresetRoute.GET w params_id))
       = FilterPresetRoute.success_body p parsed.
Proof.
  preset_cases; cbn [fst]; intros H; try discriminate H.
  match goal with
  | Hc : negb _ && negb _ = false |- _ =>
      apply andb_false_iff in Hc;
      destruct Hc as [Hc | Hc]; apply negb_false_iff in Hc
  end; eauto 10.
Qed.

(** X24. The update handler looks for a preset of the same name only when
    the request gives a name that differs from the stored one, and the
    lookup is by the stored preset's tenant, that name, the id of the
    session user as creator, and any id but the URL's; it answers 409 only
    after that lookup found one; nothing is written then. *)
Theorem preset_PATCH_conflict_only_on_rename
    (w : FilterPresetRoute.PresetWorld) (params_id : jsstring) :
  (forall t n u i,
      In (FilterPresetRoute.CallFindFirst t n u i)
         (snd (FilterPresetRoute.PATCH w params_id)) ->
      exists session p body,
        FilterPresetRoute.getServerSession w = Normal session
        /\ FilterPresetRoute.presets_findUnique w params_id = Normal (Some p)
        /\ FilterPresetRoute.request_json w = Normal body
        /\ n = prop body (js "name")
        /\ json_truthy_opt n = true
        /\ strict_eq n (prop p (js "name")) = false
        /\ t = prop p (js "tenantId")
        /\ u = FilterPresetRoute.session_user_id_of session
        /\ strict_eq (prop p (js "createdBy")) u = true
        /\ i = params_id)
  /\ (status (fst (FilterPresetRoute.PATCH w params_id)) = 409 ->
      (exists session t n u,
          FilterPresetRoute.getServerSession w = Normal session
          /\ u = FilterPresetRoute.session_user_id_of session
          /\ In (FilterPresetRoute.CallFindFirst t n u params_id)
                (snd (FilterPresetRoute.PATCH w params_id))
          /\ exists found,
              FilterPresetRoute.presets_findFirst w t n u params_id
              = Normal found
              /\ json_truthy_opt found = true)
      /\ forallb (fun c => negb (FilterPresetRoute.is_write c))
                 (snd (FilterPresetRoute.PATCH w params_id)) = true).
Proof.
  split.
  - intros t n u i. preset_cases; cbn [snd app In]; intros Hin;
      repeat (destruct Hin as [Hin | Hin]; try discriminate Hin);
      try contradiction;
      injection Hin as <- <- <- <-; bool_facts;
      do 3 eexists; repeat split; eauto.
  - preset_cases; cbn [fst]; intros H; try discriminate H;
      cbn [snd app forallb FilterPresetRoute.is_write negb andb];
      (split; [|reflexivity]);
      try (match goal with
           | Hc : json_truthy_opt None = true |- _ => discriminate Hc
           end);
      do 4 eexists; (split; [reflexivity|]); (split; [reflexivity|]);
      (split; [right; left; reflexivity|]); eauto.
Qed.

(** X25. The status codes of the preset handlers: none of them answers
    400 (a malformed body ends in 500), and only the update answers 409. *)
Theorem preset_endpoints_status_codes
    (w : FilterPresetRoute.PresetWorld) (params_id : jsstring) :
  In (status (fst (FilterPresetRoute.GET w params_id)))
     [200; 401; 403; 404; 500]
  /\ In (status (fst (FilterPresetRoute.PATCH w params_id)))
        [200; 401; 403; 404; 409; 500]
  /\ In (status (fst (FilterPresetRoute.DELETE w params_id)))
        [200; 401; 403; 404; 500].
Proof.
  split; [|split]; preset_cases; cbn; tauto.
Qed.

(* ================================================================== *)
(** * Properties of schema validation *)
(* ================================================================== *)

Lemma safeParse_string (lo : Z) (hi : option Z) (v r : option Json) :
  Messaging.safeParse (Messaging.ZString lo hi) v = Some r ->
  exists t, r = Some (JStr t) /\ v = Some (JStr t)
            /\ lo <= Messaging.str_length t
            /\ (forall h, hi = Some h -> Messaging.str_length t <= h).
Proof.
  simpl. destruct v as [[| | |t| |]|]; try discriminate.
  destruct (lo <=? Messaging.str_length t) eqn:Elo; [|discriminate].
  apply Z.leb_le in Elo.
  destruct hi as [h|].
  - destruct (Messaging.str_length t <=? h) eqn:Ehi; [|discriminate].
    apply Z.leb_le in Ehi. intros [= <-]. exists t.
    repeat split; try assumption. now intros h' [= <-].
  - intros [= <-]. exists t. repeat split; try assumption. discriminate.
Qed.

Lemma safeParse_string_within (lo hi : Z) (v r : option Json) :
  Messaging.safeParse (Messaging.ZString lo (Some hi)) v = Some r ->
  Messaging.string_within lo hi r.
Proof.
  intros H. apply safeParse_string in H as [t [-> [_ [Hlo Hhi]]]].
  exists t. split; [reflexivity|]. split; [exact Hlo | now apply Hhi].
Qed.

Lemma safeParse_enum (values : list jsstring) (v r : option Json) :
  Messaging.safeParse (Messaging.ZEnum values) v = Some r ->
  Messaging.one_of values r.
Proof.
  simpl. destruct v as [[| | |t| |]|]; try discriminate.
  destruct (arr_includes values t) eqn:E; [|discriminate].
  intros [= <-]. exists t. split; [reflexivity|]. now apply arr_includes_In.
Qed.

Lemma safeParse_optional (s : Messaging.Schema) (v r : option Json) :
  Messaging.safeParse (Messaging.ZOptional s) v = Some r ->
  r = None \/ Messaging.safeParse s v = Some r.
Proof.
  simpl. destruct v; [now right | intros [= <-]; now left].
Qed.

Lemma safeParse_object_cons (k : jsstring) (s : Messaging.Schema)
    (rest : list (jsstring * Messaging.Schema))
    (fields : list (jsstring * Json)) :
  Messaging.safeParse (Messaging.ZObject ((k, s) :: rest)) (Some (JObj fields))
  = match Messaging.safeParse s (json_fields_get fields k),
          Messaging.safeParse (Messaging.ZObject rest) (Some (JObj fields)) with
    | Some (Some v), Some (Some (JObj out)) => Some (Some (JObj ((k, v) :: out)))
    | Some None, Some (Some (JObj out)) => Some (Some (JObj out))
    | _, _ => None
    end.
Proof. reflexivity. Qed.

Lemma json_fields_get_absent (fields : list (jsstring * Json)) (k : jsstring) :
  ~ In k (map fst fields) -> json_fields_get fields k = None.
Proof.
  induction fields as [|[k0 v0] rest IH]; simpl; [reflexivity|].
  intros H. destruct (str_eqb k0 k) eqn:E.
  - apply str_eqb_eq in E. exfalso. apply H. now left.
  - apply IH. intros Hin. apply H. now right.
Qed.

(** The data of a validated object: an object whose keys are keys of the
    shape, each read from the input and validated by its own schema. *)
Lemma safeParse_object (shape : list (jsstring * Messaging.Schema))
    (fields : list (jsstring * Json)) (r : option Json) :
  Messaging.safeParse (Messaging.ZObject shape) (Some (JObj fields)) = Some r ->
  exists out,
    r = Some (JObj out)
    /\ incl (map fst out) (map fst shape)
    /\ (NoDup (map fst shape) ->
        forall k s, In (k, s) shape ->
          Messaging.safeParse s (json_fields_get fields k)
          = Some (json_fields_get out k)).
Proof.
  revert r. induction shape as [|[k s] rest IH]; intros r H.
  - simpl in H. injection H as <-. exists []. split; [reflexivity|].
    split; [apply incl_refl | intros _ k s []].
  - rewrite safeParse_object_cons in H.
    destruct (Messaging.safeParse s (json_fields_get fields k))
      as [[v|]|] eqn:Hs; [| |discriminate].
    + destruct (Messaging.safeParse (Messaging.ZObject rest)
                  (Some (JObj fields))) as [r'|] eqn:Hr; [|discriminate].
      destruct (IH r' eq_refl) as [out [-> [Hincl Hget]]].
      injection H as <-. exists ((k, v) :: out).
      split; [reflexivity|]. split.
      * simpl. intros x [<- | Hx]; [now left | right; now apply Hincl].
      * intros Hnd k' s' [Heq | Hin].
        -- injection Heq as <- <-. simpl. now rewrite str_eqb_refl.
        -- simpl in Hnd. apply NoDup_cons_iff in Hnd as [Hk Hnd].
           simpl. assert (E : str_eqb k k' = false).
           { apply str_eqb_neq. intros <-. apply Hk.
             apply (in_map fst) in Hin. exact Hin. }
           rewrite E. now apply Hget.
    + destruct (Messaging.safeParse (Messaging.ZObject rest)
                  (Some (JObj fields))) as [r'|] eqn:Hr; [|discriminate].
      destruct (IH r' eq_refl) as [out [-> [Hincl Hget]]].
      injection H as <-. exists out.
      split; [reflexivity|]. split.
      * intros x Hx. right. now apply Hincl.
      * intros Hnd k' s' [Heq | Hin].
        -- injection Heq as <- <-.
           simpl in Hnd. apply NoDup_cons_iff in Hnd as [Hk _].
           rewrite (json_fields_get_absent out k); [exact Hs|].
           intros Hin. apply Hk. now apply Hincl.
        -- simpl in Hnd. apply NoDup_cons_iff in Hnd as [_ Hnd].
           now apply Hget.
Qed.

(** Only an object passes an object schema. *)
Lemma safeParse_object_input (shape : list (jsstring * Messaging.Schema))
    (body : Json) (r : option Json) :
  Messaging.safeParse (Messaging.ZObject shape) (Some body) = Some r ->
  exists fields, body = JObj fields.
Proof.
  destruct body; simpl; try discriminate. intros _. now eexists.
Qed.

(** What a validated body guarantees about the data handed on. *)
Lemma validated_object (shape : list (jsstring * Messaging.Schema))
    (body data : Json) :
  Messaging.safeParse (Messaging.ZObject shape) (Some body) = Some (Some data) ->
  incl (Messaging.keys data) (map fst shape)
  /\ (NoDup (map fst shape) ->
      forall k s, In (k, s) shape ->
        Messaging.safeParse s (prop body k) = Some (prop data k)).
Proof.
  intros H.
  destruct (safeParse_object_input shape body _ H) as [fields ->].
  destruct (safeParse_object shape fields _ H) as [out [Hr [Hincl Hget]]].
  injection Hr as ->. split; [exact Hincl | exact Hget].
Qed.

#[local] Ltac distinct_keys :=
  repeat (apply NoDup_cons; [cbv; intuition discriminate|]); apply NoDup_nil.

#[local] Ltac messaging_step :=
  match goal with
  | |- context [Messaging.getServerSession ?w] =>
      destruct (Messaging.getServerSession w) eqn:?
  | |- context [Messaging.request_json ?w] =>
      destruct (Messaging.request_json w) eqn:?
  | |- context [Messaging.safeParse ?s (Some ?b)] =>
      destruct (Messaging.safeParse s (Some b)) as [[?|]|] eqn:?
  | |- context [Messaging.service ?w ?c] =>
      destruct (Messaging.service w c) eqn:?
  | |- context [if ?c then _ else _] => destruct c eqn:?
  end; cbn beta iota.

#[local] Ltac messaging_cases :=
  unfold Messaging.sendMessage_POST, Messaging.createTicket_POST,
         Messaging.addComment_POST, Messaging.ticket_GET,
         Messaging.ticket_PATCH, Messaging.call;
  cbv zeta; repeat messaging_step.

(* ================================================================== *)
(** * Properties of the messaging endpoints *)
(* ================================================================== *)

(** X26. Each messaging handler makes at most one service call, and none
    at all when it answers 400 or 401: a request without a session user or
    with a body its schema rejects never reaches the service. A successful
    creation is answered with 200, never 201. *)
Theorem messaging_endpoints_call_discipline
    (w : Messaging.MessagingWorld) (params_id : jsstring)
    (o : Messaging.Outcome) :
  In o [Messaging.sendMessage_POST w params_id;
        Messaging.createTicket_POST w;
        Messaging.addComment_POST w params_id;
        Messaging.ticket_GET w params_id;
        Messaging.ticket_PATCH w params_id] ->
  (List.length (snd o) <= 1)%nat
  /\ In (status (fst o)) [200; 400; 401; 404; 500]
  /\ (status (fst o) = 400 \/ status (fst o) = 401 -> snd o = [])
  /\ (snd o <> [] ->
      exists session,
        Messaging.getServerSession w = Normal session
        /\ json_truthy_opt (Messaging.session_user session) = true).
Proof.
  intros Hin. cbn [In] in Hin.
  repeat (destruct Hin as [<- | Hin]); try contradiction;
    messaging_cases; cbn [fst snd List.length status Messaging.failure
                          Messaging.success Messaging.success_message
                          NextResponse_json In];
    (split; [lia|]); (split; [tauto|]);
    (split; [intros [H | H]; (discriminate H || reflexivity)|]);
    intros Hne; try (exfalso; now apply Hne);
    bool_facts; eauto.
Qed.

(** X27. A message reaches [MessagesService.sendMessage] only for the
    thread named in the URL, with the tenant and user ids of the session,
    with a text of 1 to 5000 code units, and with a role that is the
    session user's role or, when that is missing, CLIENT. *)
Theorem sendMessage_call_is_validated
    (w : Messaging.MessagingWorld) (params_id : jsstring)
    (c : Messaging.ServiceCall) :
  In c (snd (Messaging.sendMessage_POST w params_id)) ->
  exists session userName userRole text,
    Messaging.getServerSession w = Normal session
    /\ c = Messaging.SendMessage (Messaging.user_prop session "tenantId")
             (Messaging.user_prop session "id") userName userRole
             params_id text
    /\ Messaging.string_within 1 5000 text
    /\ json_truthy_opt userRole = true
    /\ (json_truthy_opt (Messaging.user_prop session "role") = true ->
        userRole = Messaging.user_prop session "role")
    /\ (json_truthy_opt (Messaging.user_prop session "role") = false ->
        userRole = Some (JStr (js "CLIENT"))).
Proof.
  messaging_cases; cbn [snd In]; intros Hin;
    repeat (destruct Hin as [<- | Hin]); try contradiction.
  all: match goal with
       | H : Messaging.safeParse Messaging.sendMessageSchema _ = _ |- _ =>
           apply validated_object in H; destruct H as [_ H];
           specialize (H ltac:(distinct_keys) (js "text")
                         (Messaging.ZString 1 (Some 5000))
                         (or_introl eq_refl));
           apply safeParse_string_within in H
       end.
  all: do 4 eexists; split; [reflexivity|]; split; [reflexivity|];
    split; [eassumption|]; unfold Messaging.or_else;
    destruct (json_truthy_opt (Messaging.user_prop _ "role")) eqn:Erole;
    repeat split; try assumption; congruence.
Qed.

(** X28. A ticket reaches [TicketsService.createTicket] only with the
    tenant and user ids of the session and with validated data: a title of
    1 to 200 code units, a description of at most 5000, a category and a
    priority from the fixed lists, and no key beyond the six of the
    schema. *)
Theorem createTicket_call_is_validated
    (w : Messaging.MessagingWorld) (c : Messaging.ServiceCall) :
  In c (snd (Messaging.createTicket_POST w)) ->
  exists session data,
    Messaging.getServerSession w = Normal session
    /\ c = Messaging.CreateTicket (Messaging.user_prop session "tenantId")
             (Messaging.user_prop session "id") data
    /\ Messaging.string_within 1 200 (prop data (js "title"))
    /\ Messaging.string_within 0 5000 (prop data (js "description"))
    /\ Messaging.one_of Messaging.TICKET_CATEGORIES (prop data (js "category"))
    /\ Messaging.one_of Messaging.TICKET_PRIORITIES (prop data (js "priority"))
    /\ incl (Messaging.keys data)
            (map js ["title"; "description"; "category"; "priority"; "tags";
                     "attachments"]%string).
Proof.
  messaging_cases; cbn [snd In]; intros Hin;
    repeat (destruct Hin as [<- | Hin]); try contradiction.
  all: match goal with
       | H : Messaging.safeParse Messaging.createTicketSchema _ = _ |- _ =>
           apply validated_object in H; destruct H as [Hkeys H];
           specialize (H ltac:(distinct_keys));
           pose proof (H _ _ (or_introl eq_refl)) as H1;
           pose proof (H _ _ (or_intror (or_introl eq_refl))) as H2;
           pose proof (H _ _ (or_intror (or_intror (or_introl eq_refl)))) as H3;
           pose proof (H _ _ (or_intror (or_intror (or_intror
                                 (or_introl eq_refl))))) as H4;
           apply safeParse_string_within in H1, H2;
           apply safeParse_enum in H3, H4
       end.
  all: do 2 eexists; split; [reflexivity|]; split; [reflexivity|];
    repeat split; assumption.
Qed.

Lemma get_assign (acc : list (jsstring * Json)) (k k' : jsstring) (v : Json) :
  json_fields_get (FilterPresetRoute.assign acc k v) k'
  = if str_eqb k k' then Some v else json_fields_get acc k'.
Proof.
  induction acc as [|[k0 v0] rest IH]; simpl; [reflexivity|].
  destruct (str_eqb k0 k) eqn:E0; simpl.
  - apply str_eqb_eq in E0. subst k0.
    destruct (str_eqb k k'); reflexivity.
  - rewrite IH. destruct (str_eqb k0 k') eqn:E1; [|reflexivity].
    apply str_eqb_eq in E1. subst k'.
    assert (E : str_eqb k k0 = false).
    { apply str_eqb_neq. intros ->. rewrite str_eqb_refl in E0. discriminate. }
    now rewrite E.
Qed.

Lemma keys_assign (acc : list (jsstring * Json)) (k : jsstring) (v : Json) :
  incl (map fst (FilterPresetRoute.assign acc k v)) (k :: map fst acc).
Proof.
  induction acc as [|[k0 v0] rest IH]; simpl.
  - intros x [<- | []]. now left.
  - destruct (str_eqb k0 k) eqn:E; simpl.
    + apply str_eqb_eq in E. subst k0.
      intros x [<- | Hx]; [now left | right; now right].
    + intros x [<- | Hx]; [right; now left|].
      destruct (IH x Hx) as [<- | H]; [now left | right; now right].
Qed.

(** Spreading an object with distinct keys over another: a spread key reads
    its spread value, any other key reads what was there before. *)
Lemma get_spread (fs acc : list (jsstring * Json)) (k : jsstring) :
  NoDup (map fst fs) ->
  json_fields_get
    (fold_left (fun a kv => FilterPresetRoute.assign a (fst kv) (snd kv)) fs acc)
    k
  = match json_fields_get fs k with
    | Some v => Some v
    | None => json_fields_get acc k
    end.
Proof.
  revert acc. induction fs as [|[k1 v1] rest IH]; intros acc Hnd; simpl;
    [reflexivity|].
  simpl in Hnd. apply NoDup_cons_iff in Hnd as [Hk Hnd].
  rewrite (IH _ Hnd), get_assign.
  destruct (str_eqb k1 k) eqn:E.
  - apply str_eqb_eq in E. subst k1.
    now rewrite (json_fields_get_absent rest k Hk).
  - reflexivity.
Qed.

Lemma keys_spread (fs acc : list (jsstring * Json)) :
  incl (map fst (fold_left
                   (fun a kv => FilterPresetRoute.assign a (fst kv) (snd kv))
                   fs acc))
       (map fst acc ++ map fst fs).
Proof.
  revert acc. induction fs as [|[k1 v1] rest IH]; intros acc; simpl.
  - rewrite app_nil_r. apply incl_refl.
  - intros x Hx. apply IH in Hx. apply in_app_or in Hx as [Hx | Hx].
    + apply keys_assign in Hx. destruct Hx as [<- | Hx].
      * apply in_or_app. right. now left.
      * apply in_or_app. now left.
    + apply in_or_app. right. now right.
Qed.

Lemma safeParse_object_nodup (shape : list (jsstring * Messaging.Schema))
    (body data : Json) :
  Messaging.safeParse (Messaging.ZObject shape) (Some body) = Some (Some data) ->
  NoDup (map fst shape) ->
  NoDup (Messaging.keys data).
Proof.
  intros H.
  destruct (safeParse_object_input shape body _ H) as [fields ->].
  revert data H. induction shape as [|[k s] rest IH]; intros data H Hnd.
  - simpl in H. injection H as <-. constructor.
  - rewrite safeParse_object_cons in H.
    simpl in Hnd. apply NoDup_cons_iff in Hnd as [Hk Hnd].
    destruct (Messaging.safeParse s (json_fields_get fields k))
      as [[v|]|]; [| |discriminate];
      destruct (Messaging.safeParse (Messaging.ZObject rest)
                  (Some (JObj fields))) as [[[| | | | |out]|]|] eqn:Hr;
      try discriminate; injection H as <-;
      pose proof (IH _ eq_refl Hnd) as Hout.
    + unfold Messaging.keys in *. simpl in *. constructor; [|exact Hout].
      intros Hin. apply Hk.
      destruct (safeParse_object rest fields _ Hr) as [out' [E [Hincl _]]].
      injection E as <-. now apply Hincl.
    + exact Hout.
Qed.

Lemma validated_data_is_object (shape : list (jsstring * Messaging.Schema))
    (body data : Json) :
  Messaging.safeParse (Messaging.ZObject shape) (Some body) = Some (Some data) ->
  exists out, data = JObj out.
Proof.
  intros H.
  destruct (safeParse_object_input shape body _ H) as [fields ->].
  destruct (safeParse_object shape fields _ H) as [out [E _]].
  injection E as ->. now exists out.
Qed.

Lemma comment_data_validated (ticketId : jsstring) (body data : Json) :
  Messaging.safeParse Messaging.addCommentSchema (Some body) = Some (Some data) ->
  prop (Messaging.comment_data ticketId data) (js "ticketId")
  = Some (JStr ticketId)
  /\ Messaging.string_within 1 5000
       (prop (Messaging.comment_data ticketId data) (js "content"))
  /\ incl (Messaging.keys (Messaging.comment_data ticketId data))
          (map js ["ticketId"; "content"; "attachments"; "isInternal"]%string).
Proof.
  intros H.
  pose proof (safeParse_object_nodup _ _ _ H ltac:(distinct_keys)) as Hnd.
  destruct (validated_data_is_object _ _ _ H) as [out ->].
  apply validated_object in H. destruct H as [Hkeys Hfield].
  specialize (Hfield ltac:(distinct_keys) (js "content")
                (Messaging.ZString 1 (Some 5000)) (or_introl eq_refl)).
  apply safeParse_string_within in Hfield.
  unfold Messaging.keys in Hkeys, Hnd.
  cbn [FilterPresetRoute.object_fields] in Hkeys, Hnd.
  unfold Messaging.comment_data, Messaging.keys.
  cbn [prop FilterPresetRoute.object_fields] in *.
  rewrite !get_spread by exact Hnd.
  split; [|split].
  - rewrite json_fields_get_absent; [reflexivity|].
    intros Hin. apply Hkeys in Hin. cbv in Hin. intuition discriminate.
  - destruct Hfield as [t [Ht Hlen]]. rewrite Ht. exists t. now split.
  - intros x Hx. apply keys_spread in Hx. simpl in Hx.
    destruct Hx as [<- | Hx]; [now left|]. right. now apply Hkeys.
Qed.

(** X29. A comment reaches [TicketsService.addComment] only with a content
    of 1 to 5000 code units and always for the ticket named in the URL: the
    [ticketId] of the data is the URL's, which a [ticketId] in the request
    body cannot replace; no key beyond the schema's reaches the service. *)
Theorem addComment_call_is_validated
    (w : Messaging.MessagingWorld) (params_id : jsstring)
    (c : Messaging.ServiceCall) :
  In c (snd (Messaging.addComment_POST w params_id)) ->
  exists session data,
    Messaging.getServerSession w = Normal session
    /\ c = Messaging.AddComment (Messaging.user_prop session "tenantId")
             (Messaging.user_prop session "id") data
    /\ prop data (js "ticketId") = Some (JStr params_id)
    /\ Messaging.string_within 1 5000 (prop data (js "content"))
    /\ incl (Messaging.keys data)
            (map js ["ticketId"; "content"; "attachments"; "isInternal"]%string).
Proof.
  messaging_cases; cbn [snd In]; intros Hin;
    repeat (destruct Hin as [<- | Hin]); try contradiction.
  all: match goal with
       | H : Messaging.safeParse Messaging.addCommentSchema _ = _ |- _ =>
           apply (comment_data_validated params_id) in H
       end.
  all: do 2 eexists; split; [reflexivity|]; split; [reflexivity|]; assumption.
Qed.

Lemma optional_field (s : Messaging.Schema) (v r : option Json) (P : Prop) :
  (Messaging.safeParse s v = Some r -> P) ->
  Messaging.safeParse (Messaging.ZOptional s) v = Some r ->
  r = None \/ P.
Proof.
  intros HP H. apply safeParse_optional in H as [-> | H]; [now left|].
  right. now apply HP.
Qed.

(** X30. A patch reaches [TicketsService.updateTicket] only for the ticket
    named in the URL, with the tenant and user ids of the session, and with
    validated data: every key is one of the seven of the schema, and a
    title, description, category, priority or status that is present is
    within its bounds or list. *)
Theorem updateTicket_call_is_validated
    (w : Messaging.MessagingWorld) (params_id : jsstring)
    (c : Messaging.ServiceCall) :
  In c (snd (Messaging.ticket_PATCH w params_id)) ->
  exists session data,
    Messaging.getServerSession w = Normal session
    /\ c = Messaging.UpdateTicket (Messaging.user_prop session "tenantId")
             params_id (Messaging.user_prop session "id") data
    /\ incl (Messaging.keys data)
            (map js ["title"; "description"; "category"; "priority"; "status";
                     "assignedToId"; "tags"]%string)
    /\ (prop data (js "title") = None
        \/ Messaging.string_within 1 200 (prop data (js "title")))
    /\ (prop data (js "description") = None
        \/ Messaging.string_within 0 5000 (prop data (js "description")))
    /\ (prop data (js "category") = None
        \/ Messaging.one_of Messaging.TICKET_CATEGORIES
             (prop data (js "category")))
    /\ (prop data (js "priority") = None
        \/ Messaging.one_of Messaging.TICKET_PRIORITIES
             (prop data (js "priority")))
    /\ (prop data (js "status") = None
        \/ Messaging.one_of Messaging.TICKET_STATUSES
             (prop data (js "status"))).
Proof.
  messaging_cases; cbn [snd In]; intros Hin;
    repeat (destruct Hin as [<- | Hin]); try contradiction.
  all: match goal with
       | H : Messaging.safeParse Messaging.updateTicketSchema _ = _ |- _ =>
           apply validated_object in H; destruct H as [Hkeys H];
           specialize (H ltac:(distinct_keys));
           pose proof (H _ _ (or_introl eq_refl)) as H1;
           pose proof (H _ _ (or_intror (or_introl eq_refl))) as H2;
           pose proof (H _ _ (or_intror (or_intror (or_introl eq_refl)))) as H3;
           pose proof (H _ _ (or_intror (or_intror (or_intror
                                 (or_introl eq_refl))))) as H4;
           pose proof (H _ _ (or_intror (or_intror (or_intror (or_intror
                                 (or_introl eq_refl)))))) as H5;
           apply (optional_field _ _ _ _ (safeParse_string_within _ _ _ _))
             in H1, H2;
           apply (optional_field _ _ _ _ (safeParse_enum _ _ _)) in H3, H4, H5
       end.
  all: do 2 eexists; split; [reflexivity|]; split; [reflexivity|];
    repeat split; assumption.
Qed.

(* ================================================================== *)
(** * The further properties at concrete inputs *)
(* ================================================================== *)

Lemma rollout_gate_characterised_witness :
  rolloutExcludes
    (getAdminWorkBenchFeatureFlagConfig asciiToUpperCase env_rollout_seven)
    (js "u13") = false
  <-> hashUserId (js "u13") < 7
      \/ (hashUserId (js "u13") = 7 /\ In 7 roundedUpPercentages).
Proof.
  apply (rollout_gate_characterised
           (getAdminWorkBenchFeatureFlagConfig asciiToUpperCase
              env_rollout_seven) (js "u13") 7).
  - lia.
  - reflexivity.
Defined.

Lemma rollout_monotone_witness :
  isAdminWorkBenchEnabledForUser asciiToUpperCase env_three_quarters_beta
    (js "alice") (Some (js "ADMIN")) = true.
Proof.
  apply (rollout_monotone asciiToUpperCase env_half_beta
           env_three_quarters_beta (js "alice") (Some (js "ADMIN")) 50 75);
    try lia; reflexivity.
Defined.

Lemma parseTargetUsers_classified_witness :
  exists roles,
    parseTargetUsers asciiToUpperCase (js "admin, client") = Arr roles
    /\ List.length roles = S (count_occ Z.eq_dec (js "admin, client") COMMA).
Proof.
  destruct (parseTargetUsers_classified asciiToUpperCase (js "admin, client"))
    as [_ [_ [_ H]]].
  apply H. reflexivity.
Defined.

Lemma beta_tester_ids_well_formed_witness :
  js "u1" <> []
  /\ noLeadingWhiteSpace (js "u1")
  /\ noLeadingWhiteSpace (rev (js "u1"))
  /\ ~ In COMMA (js "u1").
Proof.
  apply (beta_tester_ids_well_formed env_half_beta (js "u1")).
  right. left. reflexivity.
Defined.

Lemma blank_beta_variable_is_no_list_witness :
  getBetaTesterList env_blank_beta = [].
Proof.
  apply (blank_beta_variable_is_no_list env_blank_beta).
  unfold blankList.
  repeat (apply Forall_cons; [(left; reflexivity) || (right; reflexivity)|]).
  apply Forall_nil.
Defined.

Lemma malformed_id_refused_under_beta_list_witness :
  isAdminWorkBenchEnabledForUser asciiToUpperCase env_rollout_100
    (js "alice,bob") (Some (js "ADMIN")) = false.
Proof.
  apply (malformed_id_refused_under_beta_list asciiToUpperCase env_rollout_100
           (js "alice,bob") (Some (js "ADMIN"))).
  - vm_compute. discriminate.
  - right. left. vm_compute. tauto.
Defined.

Lemma no_role_ignores_target_witness :
  isAdminWorkBenchEnabledForUser asciiToUpperCase env_admins_only (js "u1") None
  = isAdminWorkBenchEnabledForUser asciiToUpperCase env_defaults (js "u1") None.
Proof.
  apply (no_role_ignores_target asciiToUpperCase env_defaults env_admins_only
           (js "u1") None); reflexivity.
Defined.

Lemma hook_enabled_is_userEnabled_witness :
  Hook.enabled (Hook.compute asciiToUpperCase env_defaults session_u1_admin)
  = Hook.userEnabled
      (Hook.compute asciiToUpperCase env_defaults session_u1_admin)
  /\ (Hook.userEnabled
        (Hook.compute asciiToUpperCase env_defaults session_u1_admin) = true ->
      Hook.globalEnabled
        (Hook.compute asciiToUpperCase env_defaults session_u1_admin) = true)
  /\ enabled (Hook.config
                (Hook.compute asciiToUpperCase env_defaults session_u1_admin))
     = Hook.globalEnabled
         (Hook.compute asciiToUpperCase env_defaults session_u1_admin).
Proof.
  apply (hook_enabled_is_userEnabled asciiToUpperCase
           [(env_defaults, session_u1_admin); (env_defaults, None)] 0).
  reflexivity.
Defined.

(** The environment turns the feature off between two renders of the same
    user: the hook still returns the value of the first render. *)
Lemma hook_stable_while_identity_unchanged_witness :
  nth_error
    (Hook.renders asciiToUpperCase None
       [(env_defaults, session_u1_admin);
        (env_switch_capitals, session_u1_admin)]) 1
  = Some (Hook.compute asciiToUpperCase env_defaults session_u1_admin).
Proof.
  apply (hook_stable_while_identity_unchanged asciiToUpperCase
           [(env_defaults, session_u1_admin);
            (env_switch_capitals, session_u1_admin)] 0
           env_defaults env_switch_capitals session_u1_admin session_u1_admin);
    reflexivity.
Defined.

Lemma hook_fresh_on_identity_change_witness :
  nth_error
    (Hook.renders asciiToUpperCase None
       [(env_defaults, session_u1_admin); (env_switch_capitals, None)]) 1
  = Some (Hook.compute asciiToUpperCase env_switch_capitals None).
Proof.
  destruct (hook_fresh_on_identity_change asciiToUpperCase
              [(env_defaults, session_u1_admin); (env_switch_capitals, None)])
    as [_ H].
  apply (H 0%nat env_defaults env_switch_capitals session_u1_admin None).
  - reflexivity.
  - reflexivity.
  - discriminate.
Defined.

Lemma wrapper_workbench_needs_user_witness :
  exists r,
    nth_error
      (wrapper_renders asciiToUpperCase None
         [(env_defaults, session_u1_admin, empty_context);
          (env_defaults, None, empty_context)]) 1 = Some r
    /\ (r = AdminWorkBench
        \/ r = ExecutiveDashboardTab (users empty_context) (stats empty_context))
    /\ (r = AdminWorkBench -> truthy_opt (session_user_id None) = true).
Proof.
  apply (wrapper_workbench_needs_user asciiToUpperCase
           [(env_defaults, session_u1_admin, empty_context);
            (env_defaults, None, empty_context)] 1 env_defaults None
           empty_context).
  reflexivity.
Defined.

Lemma client_endpoints_permission_denied_witness :
  ClientsRoute.GET world_no_permission
  = ClientsRoute.addDeprecationHeaders world_no_permission
      (NextResponse_json (error_body "Unauthorized") (Some 401))
  /\ ClientByIdRoute.DELETE world_no_permission (js "c1")
     = ClientByIdRoute.addDeprecationHeaders world_no_permission
         (NextResponse_json (error_body "Unauthorized") (Some 401)).
Proof.
  destruct (client_endpoints_permission_denied world_no_permission
              {| ctx_role := Some (js "CLIENT"); tenantId := Some (js "t1") |}
              (js "c1") eq_refl) as [Hview Hmanage].
  split.
  - apply Hview. reflexivity.
  - apply Hmanage. reflexivity.
Defined.

Lemma client_PATCH_conflict_only_on_changed_email_witness :
  exists ctx c existing,
    requireTenantContext (world_admin true) = Normal ctx
    /\ user_findFirst (world_admin true) (js "c1") (tenantId ctx)
       = Normal (Some c)
    /\ json_truthy_opt (prop (request_body (world_admin true)) (js "email"))
       = true
    /\ strict_eq (prop (request_body (world_admin true)) (js "email"))
                 (prop c (js "email")) = false
    /\ user_findUnique (world_admin true) (tenantId ctx)
         (prop (request_body (world_admin true)) (js "email"))
       = Normal existing
    /\ json_truthy_opt existing = true.
Proof.
  apply (client_PATCH_conflict_only_on_changed_email (world_admin true)
           (js "c1")).
  reflexivity.
Defined.

Lemma client_POST_created_only_when_new_witness :
  exists ctx existing client,
    requireTenantContext (world_admin false) = Normal ctx
    /\ hasPermission (world_admin false) (ctx_role ctx) USERS_MANAGE = true
    /\ truthy_opt (tenantId ctx) = true
    /\ json_truthy_opt (prop (request_body (world_admin false)) (js "name"))
       = true
    /\ json_truthy_opt (prop (request_body (world_admin false)) (js "email"))
       = true
    /\ user_findUnique (world_admin false) (tenantId ctx)
         (prop (request_body (world_admin false)) (js "email"))
       = Normal existing
    /\ json_truthy_opt existing = false
    /\ user_create (world_admin false)
         (prop (request_body (world_admin false)) (js "name"))
         (prop (request_body (world_admin false)) (js "email")) (tenantId ctx)
       = Normal client
    /\ body (ClientsRoute.POST (world_admin false)) = client.
Proof.
  apply (client_POST_created_only_when_new (world_admin false)).
  reflexivity.
Defined.


Lemma addDeprecationHeaders_effect_witness :
  headers_get (js "content-type")
    (ClientsRoute.addDeprecationHeaders world_database_down
       (NextResponse_json (error_body "Unauthorized") (Some 401)))
  = headers_get (js "content-type")
      (NextResponse_json (error_body "Unauthorized") (Some 401)).
Proof.
  destruct (addDeprecationHeaders_effect world_database_down
              (NextResponse_json (error_body "Unauthorized") (Some 401)))
    as [[_ [_ [H _]]] _].
  apply H. unfold otherHeaderName. vm_compute. intuition discriminate.
Defined.

Lemma preloadRoute_unconfigured_witness :
  fst (CodeSplitting.preloadRoute (fun _ => Throw) (js "constructor")) = []
  /\ (snd (CodeSplitting.preloadRoute (fun _ => Throw) (js "constructor"))
      = Throw
      <-> In (js "constructor") CodeSplitting.OBJECT_PROTOTYPE_KEYS).
Proof.
  apply (preloadRoute_unconfigured (fun _ => Throw) (js "constructor")).
  reflexivity.
Defined.

Lemma preloadRoute_configured_witness :
  CodeSplitting.preloadRoute (fun _ => Throw) (js "/admin/users")
  = (CodeSplitting.registered
       (map js ["UserManagement"; "BulkActionsModal"; "DataTable"]%string),
     Normal tt)
  /\ (List.length
        (fst (CodeSplitting.preloadRoute (fun _ => Throw) (js "/admin/users")))
      = List.length
          (map js ["UserManagement"; "BulkActionsModal"; "DataTable"]%string)
      <-> In (js "/admin/users") CodeSplitting.FULLY_REGISTERED_ROUTES).
Proof.
  apply (preloadRoute_configured (fun _ => Throw) (js "/admin/users")
           (CodeSplitting.route_config
              ["UserManagement"; "BulkActionsModal"; "DataTable"]%string
              "350KB")).
  reflexivity.
Defined.

Lemma preset_endpoints_need_session_user_witness :
  FilterPresetRoute.GET (world_preset None "u1" false) (js "p1")
  = (FilterPresetRoute.json_error "Unauthorized" 401, [])
  /\ FilterPresetRoute.PATCH (world_preset None "u1" false) (js "p1")
     = (FilterPresetRoute.json_error "Unauthorized" 401, [])
  /\ FilterPresetRoute.DELETE (world_preset None "u1" false) (js "p1")
     = (FilterPresetRoute.json_error "Unauthorized" 401, []).
Proof.
  destruct (preset_endpoints_need_session_user (world_preset None "u1" false)
              (js "p1")) as [_ H].
  apply (H None); reflexivity.
Defined.

Lemma preset_writes_only_by_creator_witness :
  exists session p,
    FilterPresetRoute.getServerSession (world_preset json_session_u1 "u1" false)
    = Normal session
    /\ FilterPresetRoute.presets_findUnique
         (world_preset json_session_u1 "u1" false) (js "p1")
       = Normal (Some p)
    /\ strict_eq (prop p (js "createdBy"))
                 (FilterPresetRoute.session_user_id_of session) = true
    /\ FilterPresetRoute.CallDelete (js "p1")
       = FilterPresetRoute.CallDelete (js "p1").
Proof.
  destruct (preset_writes_only_by_creator
              (world_preset json_session_u1 "u1" false) (js "p1")
              (FilterPresetRoute.CallDelete (js "p1")) eq_refl)
    as [_ [_ H]].
  apply H. right. left. reflexivity.
Defined.

Lemma preset_GET_visibility_witness :
  exists session p parsed,
    FilterPresetRoute.getServerSession (world_preset json_session_u1 "u1" false)
    = Normal session
    /\ FilterPresetRoute.presets_findUnique
         (world_preset json_session_u1 "u1" false) (js "p1")
       = Normal (Some p)
    /\ (json_truthy_opt (prop p (js "isPublic")) = true
        \/ strict_eq (prop p (js "createdBy"))
                     (FilterPresetRoute.session_user_id_of session) = true)
    /\ FilterPresetRoute.JSON_parse (world_preset json_session_u1 "u1" false)
         (prop p (js "filterConfig"))
       = Normal parsed
    /\ body (fst (FilterPresetRoute.GET
                    (world_preset json_session_u1 "u1" false) (js "p1")))
       = FilterPresetRoute.success_body p parsed.
Proof.
  apply (preset_GET_visibility (world_preset json_session_u1 "u1" false)
           (js "p1")).
  reflexivity.
Defined.

Lemma preset_PATCH_conflict_only_on_rename_witness :
  (exists session p body,
      FilterPresetRoute.getServerSession
        (world_preset json_session_u1 "u1" true) = Normal session
      /\ FilterPresetRoute.presets_findUnique
           (world_preset json_session_u1 "u1" true) (js "p1")
         = Normal (Some p)
      /\ FilterPresetRoute.request_json
           (world_preset json_session_u1 "u1" true) = Normal body
      /\ Some (JStr (js "Renamed")) = prop body (js "name")
      /\ json_truthy_opt (Some (JStr (js "Renamed"))) = true
      /\ strict_eq (Some (JStr (js "Renamed"))) (prop p (js "name")) = false
      /\ Some (JStr (js "t1")) = prop p (js "tenantId")
      /\ Some (JStr (js "u1")) = FilterPresetRoute.session_user_id_of session
      /\ strict_eq (prop p (js "createdBy")) (Some (JStr (js "u1"))) = true
      /\ js "p1" = js "p1")
  /\ (exists session t n u,
      FilterPresetRoute.getServerSession
        (world_preset json_session_u1 "u1" true) = Normal session
      /\ u = FilterPresetRoute.session_user_id_of session
      /\ In (FilterPresetRoute.CallFindFirst t n u (js "p1"))
            (snd (FilterPresetRoute.PATCH
                    (world_preset json_session_u1 "u1" true) (js "p1")))
      /\ exists found,
          FilterPresetRoute.presets_findFirst
            (world_preset json_session_u1 "u1" true) t n u (js "p1")
          = Normal found
          /\ json_truthy_opt found = true)
  /\ forallb (fun c => negb (FilterPresetRoute.is_write c))
       (snd (FilterPresetRoute.PATCH
               (world_preset json_session_u1 "u1" true) (js "p1"))) = true.
Proof.
  destruct (preset_PATCH_conflict_only_on_rename
              (world_preset json_session_u1 "u1" true) (js "p1"))
    as [Hlookup Hconflict].
  split.
  - apply (Hlookup (Some (JStr (js "t1"))) (Some (JStr (js "Renamed")))
             (Some (JStr (js "u1"))) (js "p1")).
    right. left. reflexivity.
  - apply Hconflict. reflexivity.
Defined.

Lemma messaging_endpoints_call_discipline_witness :
  (List.length (snd (Messaging.createTicket_POST (world_messaging body_patch)))
   <= 1)%nat
  /\ In (status (fst (Messaging.createTicket_POST (world_messaging body_patch))))
        [200; 400; 401; 404; 500]
  /\ (status (fst (Messaging.createTicket_POST (world_messaging body_patch)))
      = 400
      \/ status (fst (Messaging.createTicket_POST (world_messaging body_patch)))
         = 401 ->
      snd (Messaging.createTicket_POST (world_messaging body_patch)) = [])
  /\ (snd (Messaging.createTicket_POST (world_messaging body_patch)) <> [] ->
      exists session,
        Messaging.getServerSession (world_messaging body_patch) = Normal session
        /\ json_truthy_opt (Messaging.session_user session) = true).
Proof.
  apply (messaging_endpoints_call_discipline (world_messaging body_patch)
           (js "tk1")
           (Messaging.createTicket_POST (world_messaging body_patch))).
  right. left. reflexivity.
Defined.

Lemma sendMessage_call_is_validated_witness :
  exists session userName userRole text,
    Messaging.getServerSession (world_messaging body_message) = Normal session
    /\ Messaging.SendMessage (Some (JStr (js "t1"))) (Some (JStr (js "u1")))
         (Some (JStr (js "u1@example.com"))) (Some (JStr (js "CLIENT")))
         (js "th1") (Some (JStr (js "hello")))
       = Messaging.SendMessage (Messaging.user_prop session "tenantId")
           (Messaging.user_prop session "id") userName userRole (js "th1") text
    /\ Messaging.string_within 1 5000 text
    /\ json_truthy_opt userRole = true
    /\ (json_truthy_opt (Messaging.user_prop session "role") = true ->
        userRole = Messaging.user_prop session "role")
    /\ (json_truthy_opt (Messaging.user_prop session "role") = false ->
        userRole = Some (JStr (js "CLIENT"))).
Proof.
  apply (sendMessage_call_is_validated (world_messaging body_message)
           (js "th1")).
  left. reflexivity.
Defined.

Lemma createTicket_call_is_validated_witness :
  exists session data,
    Messaging.getServerSession (world_messaging body_ticket) = Normal session
    /\ Messaging.CreateTicket (Some (JStr (js "t1"))) (Some (JStr (js "u1")))
         (JObj [(js "title", JStr (js "Help")); (js "description", JStr (js ""));
                (js "category", JStr (js "TAX"));
                (js "priority", JStr (js "LOW"))])
       = Messaging.CreateTicket (Messaging.user_prop session "tenantId")
           (Messaging.user_prop session "id") data
    /\ Messaging.string_within 1 200 (prop data (js "title"))
    /\ Messaging.string_within 0 5000 (prop data (js "description"))
    /\ Messaging.one_of Messaging.TICKET_CATEGORIES (prop data (js "category"))
    /\ Messaging.one_of Messaging.TICKET_PRIORITIES (prop data (js "priority"))
    /\ incl (Messaging.keys data)
            (map js ["title"; "description"; "category"; "priority"; "tags";
                     "attachments"]%string).
Proof.
  apply (createTicket_call_is_validated (world_messaging body_ticket)).
  left. reflexivity.
Defined.

Lemma addComment_call_is_validated_witness :
  exists session data,
    Messaging.getServerSession (world_messaging body_comment) = Normal session
    /\ Messaging.AddComment (Some (JStr (js "t1"))) (Some (JStr (js "u1")))
         (JObj [(js "ticketId", JStr (js "tk1")); (js "content", JStr (js "ok"))])
       = Messaging.AddComment (Messaging.user_prop session "tenantId")
           (Messaging.user_prop session "id") data
    /\ prop data (js "ticketId") = Some (JStr (js "tk1"))
    /\ Messaging.string_within 1 5000 (prop data (js "content"))
    /\ incl (Messaging.keys data)
            (map js ["ticketId"; "content"; "attachments"; "isInternal"]%string).
Proof.
  apply (addComment_call_is_validated (world_messaging body_comment)
           (js "tk1")).
  left. reflexivity.
Defined.

Lemma updateTicket_call_is_validated_witness :
  exists session data,
    Messaging.getServerSession (world_messaging body_patch) = Normal session
    /\ Messaging.UpdateTicket (Some (JStr (js "t1"))) (js "tk1")
         (Some (JStr (js "u1"))) (JObj [(js "status", JStr (js "CLOSED"))])
       = Messaging.UpdateTicket (Messaging.user_prop session "tenantId")
           (js "tk1") (Messaging.user_prop session "id") data
    /\ incl (Messaging.keys data)
            (map js ["title"; "description"; "category"; "priority"; "status";
                     "assignedToId"; "tags"]%string)
    /\ (prop data (js "title") = None
        \/ Messaging.string_within 1 200 (prop data (js "title")))
    /\ (prop data (js "description") = None
        \/ Messaging.string_within 0 5000 (prop data (js "description")))
    /\ (prop data (js "category") = None
        \/ Messaging.one_of Messaging.TICKET_CATEGORIES
             (prop data (js "category")))
    /\ (prop data (js "priority") = None
        \/ Messaging.one_of Messaging.TICKET_PRIORITIES
             (prop data (js "priority")))
    /\ (prop data (js "status") = None
        \/ Messaging.one_of Messaging.TICKET_STATUSES
             (prop data (js "status"))).
Proof.
  apply (updateTicket_call_is_validated (world_messaging body_patch)
           (js "tk1")).
  left. reflexivity.
Defined.
